(** * ResearchBuilder: the section-generation pipeline of [main.py]

    A shallow embedding of the program's logic: the context builder
    ([build_context]), the citation extractor ([extract_citations]), the
    markdown export ([format_to_markdown]), the document saver
    ([save_document]) and the run loop ([start_generation],
    [generate_paper]) of [ResearchPaperGeneratorApp].

    Python [str] values are modelled as [string]; each [ascii] stands for
    the code point of the same number (code points below 256).  Python
    dictionaries are insertion-ordered, and the program depends on that
    order, so they are association lists with the dictionary's update
    discipline (see [dict_set]).

    Of the libraries the program calls, the model keeps what the program
    can observe: the generation service answers or raises as the
    environment says ([World]); the document library turns a text into
    the content of a run and refuses control characters
    ([run_content], [build_document]); the process environment refuses a
    value with a NUL character ([environ_set]); the interpreter words an
    [UnboundLocalError] according to its version
    ([unbound_local_message]).  Writing a file is taken to succeed. *)

From Stdlib Require Import List String Ascii Bool Arith Lia QArith DecimalString.
From Stdlib Require Import DecimalNat.
Import ListNotations.

Local Close Scope Q_scope.
Local Open Scope string_scope.
Local Open Scope list_scope.
Local Open Scope nat_scope.

(** ** Python strings *)

Module PyStr.

(** The newline character of the source's [\n] escapes and of the line
    breaks inside its triple-quoted literals. *)
Definition nl : string := String (ascii_of_nat 10) EmptyString.

(** [if s:] on a [str]: the empty string is false, anything else true. *)
Definition truthy (s : string) : bool :=
  match s with
  | EmptyString => false
  | String _ _ => true
  end.

(** [str.isspace] on one character, for code points below 256: the
    characters [str.strip()] removes when called without argument. *)
Definition isspace (c : ascii) : bool :=
  let n := nat_of_ascii c in
  ((9 <=? n) && (n <=? 13)) || ((28 <=? n) && (n <=? 32))
  || (n =? 133) || (n =? 160).

Fixpoint lstrip (s : string) : string :=
  match s with
  | EmptyString => EmptyString
  | String c s' => if isspace c then lstrip s' else s
  end.

Fixpoint rstrip (s : string) : string :=
  match s with
  | EmptyString => EmptyString
  | String c s' =>
      match rstrip s' with
      | EmptyString => if isspace c then EmptyString else String c EmptyString
      | r => String c r
      end
  end.

(** [s.strip()] *)
Definition strip (s : string) : string := rstrip (lstrip s).

(** [sep.join(parts)] *)
Fixpoint join (sep : string) (parts : list string) : string :=
  match parts with
  | [] => EmptyString
  | x :: rest =>
      match rest with
      | [] => x
      | _ :: _ => (x ++ sep ++ join sep rest)%string
      end
  end.

(** [str(i)] for a non-negative [int], as the f-string [f"citation_{i}"]
    renders it. *)
Definition str_of_nat (i : nat) : string :=
  NilEmpty.string_of_uint (Nat.to_uint i).

Definition is_lower (c : ascii) : bool :=
  let n := nat_of_ascii c in (97 <=? n) && (n <=? 122).
Definition is_upper (c : ascii) : bool :=
  let n := nat_of_ascii c in (65 <=? n) && (n <=? 90).
Definition to_upper (c : ascii) : ascii :=
  if is_lower c then ascii_of_nat (nat_of_ascii c - 32) else c.
Definition to_lower (c : ascii) : ascii :=
  if is_upper c then ascii_of_nat (nat_of_ascii c + 32) else c.

(** [s.title()]: a cased character is upper-cased when the character
    before it is not cased, and lower-cased otherwise.  The program calls
    it on the four field names only, which are ASCII; cased characters
    outside ASCII are left as they are. *)
Fixpoint title_from (prev_cased : bool) (s : string) : string :=
  match s with
  | EmptyString => EmptyString
  | String c s' =>
      if is_lower c || is_upper c
      then String (if prev_cased then to_lower c else to_upper c)
                  (title_from true s')
      else String c (title_from false s')
  end.
Definition title (s : string) : string := title_from false s.

(** [needle in hay] *)
Fixpoint contains (needle hay : string) : bool :=
  prefix needle hay
  || match hay with
     | EmptyString => false
     | String _ hay' => contains needle hay'
     end.

(** [repr(s)] of a [str], for code points below 256.  The string is put
    between single quotes, or between double quotes when it holds a single
    quote and no double quote; the quote in use and the backslash are
    escaped with a backslash, tab, newline and carriage return are written
    [\t], [\n] and [\r], and any other character that is not printable
    (the control characters, the no-break space and the soft hyphen) is
    written [\x] followed by its two lower-case hexadecimal digits. *)
Definition squote : ascii := ascii_of_nat 39.
Definition dquote : ascii := ascii_of_nat 34.
Definition backslash : ascii := ascii_of_nat 92.

Fixpoint has_char (c : ascii) (s : string) : bool :=
  match s with
  | EmptyString => false
  | String c' s' => Ascii.eqb c' c || has_char c s'
  end.

Definition hex_digit (n : nat) : ascii :=
  if n <? 10 then ascii_of_nat (48 + n) else ascii_of_nat (87 + n).

(** [c.isprintable()] *)
Definition isprintable (c : ascii) : bool :=
  let n := nat_of_ascii c in
  ((32 <=? n) && (n <? 127)) || ((161 <=? n) && negb (n =? 173)).

Definition repr_char (quote c : ascii) : string :=
  let n := nat_of_ascii c in
  if Ascii.eqb c quote || Ascii.eqb c backslash
  then String backslash (String c EmptyString)
  else if n =? 9 then String backslash "t"
  else if n =? 10 then String backslash "n"
  else if n =? 13 then String backslash "r"
  else if isprintable c then String c EmptyString
  else String backslash
         (String "x" (String (hex_digit (n / 16))
                             (String (hex_digit (n mod 16)) EmptyString))).

Fixpoint repr_chars (quote : ascii) (s : string) : string :=
  match s with
  | EmptyString => EmptyString
  | String c s' => (repr_char quote c ++ repr_chars quote s')%string
  end.

Definition repr (s : string) : string :=
  let quote :=
    if has_char squote s && negb (has_char dquote s) then dquote else squote in
  String quote (repr_chars quote s ++ String quote EmptyString).

End PyStr.
Import PyStr.

(** ** Python dictionaries with string keys

    Insertion-ordered: [d[k] = v] overwrites the value in place when [k] is
    already a key and appends the pair otherwise. *)

Section Dict.
Context {V : Type}.

Definition dict := list (string * V).

Fixpoint dict_get (k : string) (d : dict) : option V :=
  match d with
  | [] => None
  | (k', v) :: d' => if String.eqb k' k then Some v else dict_get k d'
  end.

(** [k in d] *)
Definition dict_in (k : string) (d : dict) : bool :=
  match dict_get k d with Some _ => true | None => false end.

(** [d.get(k, default)] *)
Definition dict_get_default (k : string) (default : V) (d : dict) : V :=
  match dict_get k d with Some v => v | None => default end.

(** [d[k] = v] *)
Fixpoint dict_set (k : string) (v : V) (d : dict) : dict :=
  match d with
  | [] => [(k, v)]
  | (k', v') :: d' =>
      if String.eqb k' k then (k', v) :: d' else (k', v') :: dict_set k v d'
  end.

Definition dict_keys (d : dict) : list string := map fst d.
Definition dict_values (d : dict) : list V := map snd d.

(** [if d:] on a dictionary *)
Definition dict_truthy (d : dict) : bool :=
  match d with [] => false | _ :: _ => true end.

End Dict.
Arguments dict V : clear implicits.

(** ** Exceptions *)

Inductive exn : Type :=
| KeyError (key : string)
| IndexError (msg : string)
| ValueError (msg : string)
| UnboundLocalError (msg : string)
| GenerationError (msg : string)
| Exception (msg : string).

(** [str(e)].  A [KeyError] prints the [repr] of its key; the other
    exceptions print the message they were raised with. *)
Definition str_of_exn (e : exn) : string :=
  match e with
  | KeyError k => repr k
  | IndexError m => m
  | ValueError m => m
  | UnboundLocalError m => m
  | GenerationError m => m
  | Exception m => m
  end.

(** The message the interpreter gives an [UnboundLocalError] for the local
    variable [var]: CPython words it differently from version 3.11 on. *)
Definition unbound_local_message (cpython_3_11 : bool) (var : string)
  : string :=
  (if cpython_3_11
   then "cannot access local variable '" ++ var
        ++ "' where it is not associated with a value"
   else "local variable '" ++ var ++ "' referenced before assignment")%string.

Inductive result (A : Type) : Type :=
| Ok (a : A)
| Raise (e : exn).
Arguments Ok {A} a.
Arguments Raise {A} e.

(** ** [re.findall(r'\(([^)]+)\)', text)]

    The pattern is a literal [(], a capture group of one or more characters
    other than [)] (greedy; a newline is such a character), and a literal
    [)].  [findall] tries the pattern at each position from left to right,
    returns the capture group of every match and resumes after the end of
    a match. *)

Definition lparen : ascii := "("%char.
Definition rparen : ascii := ")"%char.

(** [[^)]+\)] at the head of [s]: the length of the group when it matches.
    The group is greedy: it first tries to take one more character, and
    only when the rest cannot match does it stop and look for the [)]. *)
Fixpoint match_group (s : string) : option nat :=
  match s with
  | EmptyString => None
  | String c s' =>
      if Ascii.eqb c rparen then None
      else
        match match_group s' with
        | Some n => Some (S n)
        | None =>
            match s' with
            | String c' _ => if Ascii.eqb c' rparen then Some 1 else None
            | EmptyString => None
            end
        end
  end.

(** The whole pattern at the head of [s]: the captured group. *)
Definition match_here (s : string) : option string :=
  match s with
  | EmptyString => None
  | String c s' =>
      if Ascii.eqb c lparen
      then match match_group s' with
           | Some n => Some (substring 0 n s')
           | None => None
           end
      else None
  end.

(** The scan: [skip] counts the characters of the last match that are still
    to be passed over before the pattern is tried again. *)
Fixpoint findall_from (skip : nat) (s : string) : list string :=
  match s with
  | EmptyString => []
  | String _ s' =>
      match skip with
      | S k => findall_from k s'
      | O =>
          match match_here s with
          | Some g => g :: findall_from (S (String.length g)) s'
          | None => findall_from 0 s'
          end
      end
  end.

Definition findall (text : string) : list string := findall_from 0 text.

(** ** [str.format] with keyword arguments

    Literal text is copied, [{{] and [}}] stand for one brace, and a
    replacement field [{name}] is replaced by [kwargs[name]]; the inserted
    value is not scanned again.  Every template of the program uses plain
    named fields only; a field with a conversion, a format specification,
    an attribute or an index is outside the model and reported as a
    [ValueError]. *)

Definition lbrace : ascii := "{"%char.
Definition rbrace : ascii := "}"%char.

Definition is_digit (c : ascii) : bool :=
  let n := nat_of_ascii c in (48 <=? n) && (n <=? 57).

Fixpoint all_digits (s : string) : bool :=
  match s with
  | EmptyString => true
  | String c s' => is_digit c && all_digits s'
  end.

Definition field_special (c : ascii) : bool :=
  Ascii.eqb c lbrace || Ascii.eqb c "!"%char || Ascii.eqb c ":"%char
  || Ascii.eqb c "."%char || Ascii.eqb c "["%char.

Definition lookup_field (name : string) (kwargs : dict string) : result string :=
  if all_digits name
  then Raise (IndexError "Replacement index out of range for positional args tuple")
  else match dict_get name kwargs with
       | Some v => Ok v
       | None => Raise (KeyError name)
       end.

Definition prepend (s : string) (r : result string) : result string :=
  match r with
  | Ok t => Ok (s ++ t)%string
  | Raise e => Raise e
  end.

(** [field] is [None] in literal text and [Some name] inside a replacement
    field whose name read so far is [name]. *)
Fixpoint format_from (kwargs : dict string) (field : option string)
         (s : string) : result string :=
  match field with
  | None =>
      match s with
      | EmptyString => Ok EmptyString
      | String c r =>
          if Ascii.eqb c lbrace then
            match r with
            | String c' r' =>
                if Ascii.eqb c' lbrace
                then prepend (String lbrace EmptyString) (format_from kwargs None r')
                else format_from kwargs (Some EmptyString) r
            | EmptyString => Raise (ValueError "Single '{' encountered in format string")
            end
          else if Ascii.eqb c rbrace then
            match r with
            | String c' r' =>
                if Ascii.eqb c' rbrace
                then prepend (String rbrace EmptyString) (format_from kwargs None r')
                else Raise (ValueError "Single '}' encountered in format string")
            | EmptyString => Raise (ValueError "Single '}' encountered in format string")
            end
          else prepend (String c EmptyString) (format_from kwargs None r)
      end
  | Some name =>
      match s with
      | EmptyString => Raise (ValueError "expected '}' before end of string")
      | String c r =>
          if Ascii.eqb c rbrace then
            match lookup_field name kwargs with
            | Ok v => prepend v (format_from kwargs None r)
            | Raise e => Raise e
            end
          else if field_special c
          then Raise (ValueError "unsupported replacement field")
          else format_from kwargs (Some (name ++ String c EmptyString)%string) r
      end
  end.

Definition format (template : string) (kwargs : dict string) : result string :=
  format_from kwargs None template.

(** ** Module-level data of [main.py] *)

(** The paper sections with their prompt templates, in generation order. *)
Definition sections : list (string * string) :=
  [("Abstract",
    "Write a detailed and structured abstract for a research paper about {topic}. Summarize the background, objectives, methods, key results, and conclusions in a concise academic style, including the significance of the findings.");
   ("Introduction",
    "Write a comprehensive introduction for a research paper on {topic}. Include the study's significance, relevant background, existing research gaps, and how this study addresses them. Use an engaging and academic tone.");
   ("Methodology",
    "Provide an in-depth methodology section for a research paper about {topic}. Include participant demographics, data collection instruments, procedures, and data analysis methods. Mention ethical considerations if applicable.");
   ("Results",
    "Elaborate on the research findings for {topic}. Include detailed statistical results, tables if applicable, subgroup analyses, and comparisons to existing research. Ensure clear explanations of statistical terms.");
   ("Discussion",
    "Write a critical discussion of the results obtained in the study about {topic}. Analyze implications, strengths, limitations, compare with related literature, and suggest future research directions.");
   ("Conclusion",
    "Summarize the key findings and their significance for the study on {topic}. Discuss potential applications of the research, limitations, and recommendations for future studies.")].

Definition section_names : list string := map fst sections.

(** ** [build_context] *)

(** The local dictionary [contexts] of [build_context]: one narrative
    template per section.  The triple-quoted literals of the source break
    the line after the first clause and indent the second by twelve
    spaces. *)
Definition contexts : dict string :=
  [("Abstract", EmptyString);
   ("Introduction",
    ("Previously in the Abstract, we established the research focus on {topic} " ++ nl ++
     "            using {methodology} which yielded {results}. Include relevant citations: {citations}.")%string);
   ("Methodology",
    ("Based on the research objectives outlined in the Introduction regarding {topic}," ++ nl ++
     "            detail the following methodological approach: {methodology}. Reference similar methodologies: {citations}.")%string);
   ("Results",
    ("Following the {methodology} described in the Methodology section," ++ nl ++
     "            present these findings: {results}. Compare with similar studies: {citations}.")%string);
   ("Discussion",
    ("Considering the results showing {results} obtained through {methodology}," ++ nl ++
     "            interpret these findings in the context of {topic}. Include comparative analysis: {citations}.")%string);
   ("Conclusion",
    ("Given the findings {results} and their discussion in relation to {topic}," ++ nl ++
     "            provide concluding thoughts. Reference key literature: {citations}.")%string)].

(** The citation map: section name to (synthetic key to citation text). *)
Definition CitationMap : Type := dict (dict string).

(** [citation_text] of [build_context].  The parameter [citations] defaults
    to [None]; [None] and the empty dictionary are both false. *)
Definition citation_text_of (section_name : string)
           (citations : option CitationMap) : string :=
  match citations with
  | Some cits =>
      if dict_truthy cits && dict_in section_name cits
      then join ", " (dict_values (dict_get_default section_name [] cits))
      else EmptyString
  | None => EmptyString
  end.

Definition build_context (section_name : string)
           (previous_sections : dict string)
           (citations : option CitationMap) : result string :=
  let citation_text := citation_text_of section_name citations in
  let base_context := dict_get_default section_name EmptyString contexts in
  if negb (truthy base_context) then Ok EmptyString
  else
    format base_context
      [("topic", dict_get_default "topic" EmptyString previous_sections);
       ("methodology", dict_get_default "methodology" EmptyString previous_sections);
       ("results", dict_get_default "results" EmptyString previous_sections);
       ("citations", citation_text)].

(** ** [format_to_markdown] *)

(** One turn of the loop: the f-string appended to [markdown_sections]. *)
Definition markdown_section (section content : string) : string :=
  ("## " ++ section ++ nl ++ nl ++ strip content ++ nl)%string.

Definition format_to_markdown (section_texts : dict string) : string :=
  let markdown_sections :=
    fold_left
      (fun acc item => acc ++ [markdown_section (fst item) (snd item)])
      section_texts [] in
  join (nl ++ "---" ++ nl)%string markdown_sections.

(** ** The application object *)

(** A text entry widget: its content ([get()]) and its [state] option. *)
Record Entry : Type := mkEntry {
  entry_text : string;
  entry_state : string
}.

(** The worker thread object stored in [current_task]. *)
Inductive Thread : Type := WorkerThread.

(** What the document library writes.  The text of a paragraph is held by
    one run whose content is a sequence of pieces of text, tabs and line
    breaks; a paragraph made without text has no run and no content. *)
Inductive inline : Type :=
| Text (s : string)
| Tab
| LineBreak.

(** The blocks of a Word document. *)
Inductive block : Type :=
| Heading (content : list inline) (level : nat)
| Paragraph (content : list inline).

Inductive file : Type :=
| WordFile (body : list block)
| TextFile (content : string).

(** The attributes of [ResearchPaperGeneratorApp] the program reads and
    writes, the files it has written, and two traces kept for stating
    properties: the prompts sent to the generation service and every call of
    [update_status_label] (message, [is_error]). *)
Record App : Type := mkApp {
  citations : CitationMap;
  current_task : option Thread;
  closing : bool;
  inputs : dict Entry;
  progress_bars : dict Q;
  status_labels : dict string;
  section_texts : dict string;
  save_as_markdown : bool;
  save_as_markdown_var : bool;
  generate_button : string;
  status_label : string * string;
  files : dict file;
  prompts_sent : list string;
  status_history : list (string * bool)
}.

Definition set_citations (v : CitationMap) (s : App) : App :=
  mkApp v (current_task s) (closing s) (inputs s) (progress_bars s)
        (status_labels s) (section_texts s) (save_as_markdown s)
        (save_as_markdown_var s) (generate_button s) (status_label s)
        (files s) (prompts_sent s) (status_history s).

Definition set_current_task (v : option Thread) (s : App) : App :=
  mkApp (citations s) v (closing s) (inputs s) (progress_bars s)
        (status_labels s) (section_texts s) (save_as_markdown s)
        (save_as_markdown_var s) (generate_button s) (status_label s)
        (files s) (prompts_sent s) (status_history s).

Definition set_closing (v : bool) (s : App) : App :=
  mkApp (citations s) (current_task s) v (inputs s) (progress_bars s)
        (status_labels s) (section_texts s) (save_as_markdown s)
        (save_as_markdown_var s) (generate_button s) (status_label s)
        (files s) (prompts_sent s) (status_history s).

Definition set_inputs (v : dict Entry) (s : App) : App :=
  mkApp (citations s) (current_task s) (closing s) v (progress_bars s)
        (status_labels s) (section_texts s) (save_as_markdown s)
        (save_as_markdown_var s) (generate_button s) (status_label s)
        (files s) (prompts_sent s) (status_history s).

Definition set_progress (bars : dict Q) (labels : dict string) (s : App) : App :=
  mkApp (citations s) (current_task s) (closing s) (inputs s) bars
        labels (section_texts s) (save_as_markdown s)
        (save_as_markdown_var s) (generate_button s) (status_label s)
        (files s) (prompts_sent s) (status_history s).

Definition set_section_texts (v : dict string) (s : App) : App :=
  mkApp (citations s) (current_task s) (closing s) (inputs s) (progress_bars s)
        (status_labels s) v (save_as_markdown s)
        (save_as_markdown_var s) (generate_button s) (status_label s)
        (files s) (prompts_sent s) (status_history s).

Definition set_save_as_markdown (v : bool) (s : App) : App :=
  mkApp (citations s) (current_task s) (closing s) (inputs s) (progress_bars s)
        (status_labels s) (section_texts s) v
        (save_as_markdown_var s) (generate_button s) (status_label s)
        (files s) (prompts_sent s) (status_history s).

Definition set_save_as_markdown_var (v : bool) (s : App) : App :=
  mkApp (citations s) (current_task s) (closing s) (inputs s) (progress_bars s)
        (status_labels s) (section_texts s) (save_as_markdown s)
        v (generate_button s) (status_label s)
        (files s) (prompts_sent s) (status_history s).

Definition set_generate_button (v : string) (s : App) : App :=
  mkApp (citations s) (current_task s) (closing s) (inputs s) (progress_bars s)
        (status_labels s) (section_texts s) (save_as_markdown s)
        (save_as_markdown_var s) v (status_label s)
        (files s) (prompts_sent s) (status_history s).

Definition set_status_label (v : string * string) (log : list (string * bool))
           (s : App) : App :=
  mkApp (citations s) (current_task s) (closing s) (inputs s) (progress_bars s)
        (status_labels s) (section_texts s) (save_as_markdown s)
        (save_as_markdown_var s) (generate_button s) v
        (files s) (prompts_sent s) log.

Definition set_files (v : dict file) (s : App) : App :=
  mkApp (citations s) (current_task s) (closing s) (inputs s) (progress_bars s)
        (status_labels s) (section_texts s) (save_as_markdown s)
        (save_as_markdown_var s) (generate_button s) (status_label s)
        v (prompts_sent s) (status_history s).

Definition set_prompts_sent (v : list string) (s : App) : App :=
  mkApp (citations s) (current_task s) (closing s) (inputs s) (progress_bars s)
        (status_labels s) (section_texts s) (save_as_markdown s)
        (save_as_markdown_var s) (generate_button s) (status_label s)
        (files s) v (status_history s).

(** The four entries created by [setup_ui], in creation order. *)
Definition required_fields : list string :=
  ["api_key"; "topic"; "methodology"; "results"].

(** The object after [__init__] and [setup_ui]: empty entries, every
    progress bar at 0 with the label Pending, an empty status label whose
    colour is the theme's. *)
Definition init_app : App :=
  {| citations := [];
     current_task := None;
     closing := false;
     inputs := map (fun f => (f, mkEntry EmptyString "normal")) required_fields;
     progress_bars := map (fun n => (n, 0%Q)) section_names;
     status_labels := map (fun n => (n, "Pending")) section_names;
     section_texts := [];
     save_as_markdown := false;
     save_as_markdown_var := false;
     generate_button := "normal";
     status_label := (EmptyString, EmptyString);
     files := [];
     prompts_sent := [];
     status_history := [] |}.

(** The user types [text] into the entry [field]. *)
Definition type_input (field text : string) (s : App) : App :=
  match dict_get field (inputs s) with
  | Some e => set_inputs (dict_set field (mkEntry text (entry_state e)) (inputs s)) s
  | None => s
  end.

(** ** The environment of a run

    [generate_content i prompt] is the reply of the generation service to
    the call made for the section of index [i] (the call and the reading of
    its text): a text, or the exception it raises.  [close_requested i]
    tells whether the owner of the object has set [closing] in the interval
    that ends when the flag is read for the [i]-th time (before section [i],
    and once more, with [i] the number of sections, after the loop).  [now]
    is the clock reading rendered by [strftime] when the document is saved.
    [cpython_3_11] tells whether the interpreter is CPython 3.11 or later,
    on which the wording of an [UnboundLocalError] depends. *)
Record World : Type := mkWorld {
  generate_content : nat -> string -> result string;
  close_requested : nat -> bool;
  now : string;
  cpython_3_11 : bool
}.

(** ** A state monad with exceptions

    A computation runs on the application object and returns a value or
    raises; the changes made before an exception stay. *)
Definition M (A : Type) : Type := App -> result A * App.

Definition ret {A} (a : A) : M A := fun s => (Ok a, s).

Definition bind {A B} (m : M A) (k : A -> M B) : M B :=
  fun s =>
    match m s with
    | (Ok a, s') => k a s'
    | (Raise e, s') => (Raise e, s')
    end.

Definition raise {A} (e : exn) : M A := fun s => (Raise e, s).
Definition get : M App := fun s => (Ok s, s).
Definition modify (f : App -> App) : M unit := fun s => (Ok tt, f s).
Definition lift {A} (r : result A) : M A := fun s => (r, s).

(** [try: body except Exception as e: handler e] *)
Definition try_except {A} (body : M A) (handler : exn -> M A) : M A :=
  fun s =>
    match body s with
    | (Ok a, s') => (Ok a, s')
    | (Raise e, s') => handler e s'
    end.

(** [try: body finally: final] *)
Definition try_finally {A} (body : M A) (final : M unit) : M A :=
  fun s =>
    match body s with
    | (r, s') =>
        match final s' with
        | (Ok _, s'') => (r, s'')
        | (Raise e, s'') => (Raise e, s'')
        end
    end.

Declare Scope py_scope.
Delimit Scope py_scope with py.
Notation "x <- m ;; k" := (bind m (fun x => k))
  (at level 61, m at next level, right associativity) : py_scope.
Notation "m ;; k" := (bind m (fun _ => k))
  (at level 61, right associativity) : py_scope.

Local Open Scope py_scope.

(** ** Methods of [ResearchPaperGeneratorApp] *)

(** [self.inputs[field].get()] *)
Definition input_text (field : string) : M string :=
  fun s =>
    match dict_get field (inputs s) with
    | Some e => (Ok (entry_text e), s)
    | None => (Raise (KeyError field), s)
    end.

Fixpoint validate_fields (fields : list string) : M (bool * string) :=
  match fields with
  | [] => ret (true, EmptyString)
  | field :: rest =>
      text <- input_text field ;;
      if negb (truthy (strip text))
      then ret (false, (title field ++ " is required")%string)
      else validate_fields rest
  end.

Definition validate_inputs : M (bool * string) :=
  validate_fields required_fields.

Definition update_status_label (message : string) (is_error : bool)
           (s : App) : App :=
  let color := if is_error then "red" else "white" in
  set_status_label (message, color) (status_history s ++ [(message, is_error)]) s.

Definition update_progress (section status : string) (progress : Q) : M unit :=
  fun s =>
    if dict_in section (progress_bars s) then
      let bars := dict_set section progress (progress_bars s) in
      match dict_get section (status_labels s) with
      | Some _ =>
          (Ok tt, set_progress bars (dict_set section status (status_labels s)) s)
      | None =>
          (Raise (KeyError section), set_progress bars (status_labels s) s)
      end
    else (Ok tt, s).

Definition toggle_inputs (enabled : bool) (s : App) : App :=
  let state := if enabled then "normal" else "disabled" in
  let s1 :=
    set_inputs
      (map (fun kv => (fst kv, mkEntry (entry_text (snd kv)) state)) (inputs s))
      s in
  set_generate_button state s1.

(** The loop of [start_generation] over the keys of [progress_bars]. *)
Fixpoint reset_progress (names : list string) : M unit :=
  match names with
  | [] => ret tt
  | section_name :: rest =>
      update_progress section_name "Pending" 0%Q ;;
      reset_progress rest
  end.

(** [start_generation], up to the creation and start of the worker thread,
    whose body ([generate_paper]) runs afterwards. *)
Definition start_generation : M unit :=
  fun s =>
    match current_task s with
    | Some _ => (Ok tt, s)
    | None =>
        (modify (toggle_inputs false) ;;
         modify (update_status_label "Generating paper..." false) ;;
         modify (set_citations []) ;;
         modify (set_section_texts []) ;;
         s' <- get ;;
         reset_progress (dict_keys (progress_bars s')) ;;
         modify (set_current_task (Some WorkerThread))) s
    end.

(** The dictionary comprehension of [extract_citations]: one entry
    [citation_<i>] per element, filled in order. *)
Fixpoint number_citations (i : nat) (found : list string)
         (acc : dict string) : dict string :=
  match found with
  | [] => acc
  | citation :: rest =>
      number_citations (S i) rest
        (dict_set ("citation_" ++ str_of_nat i)%string citation acc)
  end.

Definition extract_citations (text section_name : string) (s : App) : App :=
  let found := findall text in
  match found with
  | [] => s
  | _ :: _ =>
      set_citations
        (dict_set section_name (number_citations 0 found []) (citations s)) s
  end.

(** [doc.save(name)] and [open(name, "w").write(text)]: the file of that
    name is created or replaced.  Writing is taken to succeed. *)
Definition write_file (name : string) (f : file) : M unit :=
  modify (fun s => set_files (dict_set name f (files s)) s).

(** *** The document library

    [add_heading(text, level)] and [add_paragraph(text)] put the text in a
    run, character by character: a tab becomes a tab element, a newline
    and a carriage return each become a line break, and the characters
    between them are gathered in a buffer that is flushed as one piece of
    text (nothing when it is empty). *)
Definition flush (bfr : string) (content : list inline) : list inline :=
  match bfr with
  | EmptyString => content
  | String _ _ => Text bfr :: content
  end.

Fixpoint run_content (bfr text : string) : list inline :=
  match text with
  | EmptyString => flush bfr []
  | String c rest =>
      let n := nat_of_ascii c in
      if n =? 9 then flush bfr (Tab :: run_content EmptyString rest)
      else if (n =? 10) || (n =? 13)
      then flush bfr (LineBreak :: run_content EmptyString rest)
      else run_content (bfr ++ String c EmptyString) rest
  end.

(** A piece of text is stored in the XML tree, which refuses the control
    characters: of the code points below 256, those below 32 other than
    tab, newline and carriage return (which never reach the tree). *)
Definition xml_char (c : ascii) : bool :=
  let n := nat_of_ascii c in
  (32 <=? n) || (n =? 9) || (n =? 10) || (n =? 13).

Fixpoint xml_compatible (text : string) : bool :=
  match text with
  | EmptyString => true
  | String c rest => xml_char c && xml_compatible rest
  end.

Definition xml_refusal : string :=
  "All strings must be XML compatible: Unicode or ASCII, no NULL bytes or control characters".

(** The content of the run made for [text], or the [ValueError] with
    which the tree refuses one of its pieces. *)
Definition add_text (text : string) : result (list inline) :=
  if xml_compatible text then Ok (run_content EmptyString text)
  else Raise (ValueError xml_refusal).

(** The loop of [save_document] over [section_texts.items()], on the
    document [doc] built so far: per section a level-1 heading, the text,
    and an empty paragraph.  When the library refuses a name or a text the
    exception leaves the loop, and the document is dropped. *)
Fixpoint build_document (section_texts : dict string) (doc : list block)
  : result (list block) :=
  match section_texts with
  | [] => Ok doc
  | (section_name, text) :: rest =>
      match add_text section_name with
      | Raise e => Raise e
      | Ok heading =>
          match add_text text with
          | Raise e => Raise e
          | Ok paragraph =>
              build_document rest
                (doc ++ [Heading heading 1; Paragraph paragraph; Paragraph []])
          end
      end
  end.

(** The library accepts every section name and text of the mapping. *)
Definition docx_accepts (section_texts : dict string) : bool :=
  forallb (fun item => xml_compatible (fst item) && xml_compatible (snd item))
          section_texts.

(** The body of the Word document made of the mapping when the library
    accepts it (see [build_document_accepted]). *)
Fixpoint document_body (section_texts : dict string) : list block :=
  match section_texts with
  | [] => []
  | (section_name, text) :: rest =>
      Heading (run_content EmptyString section_name) 1
      :: Paragraph (run_content EmptyString text)
      :: Paragraph []
      :: document_body rest
  end.

(** [save_document]; [now w] is the value of
    [datetime.now().strftime("%Y%m%d_%H%M%S")].  The local variable
    [filename_md] is bound only inside the markdown branch: it is [None]
    while unbound, and reading it then raises [UnboundLocalError]. *)
Definition save_document (w : World) (section_texts : dict string)
  : M unit :=
  doc <- lift (build_document section_texts []) ;;
  let timestamp := now w in
  let filename_word := ("research_paper_" ++ timestamp ++ ".docx")%string in
  write_file filename_word (WordFile doc) ;;
  s <- get ;;
  filename_md <-
    (if save_as_markdown_var s then
       modify (set_save_as_markdown true) ;;
       let filename_md := ("research_paper_" ++ timestamp ++ ".md")%string in
       let formatted_text := format_to_markdown section_texts in
       write_file filename_md (TextFile formatted_text) ;;
       ret (Some filename_md)
     else ret None) ;;
  s <- get ;;
  md_clause <-
    (if save_as_markdown s then
       match filename_md with
       | Some name => ret name
       | None =>
           raise (UnboundLocalError
                    (unbound_local_message (cpython_3_11 w) "filename_md"))
       end
     else ret EmptyString) ;;
  modify (update_status_label
            ("Paper saved as " ++ filename_word ++ " and " ++ md_clause)%string
            false).

(** The f-string that builds the prompt: the context, the block of five
    requirements and the section's own template, each line of the literal
    indented by twenty spaces. *)
Definition indent : string := "                    ".

Definition make_prompt (context body : string) : string :=
  (context ++ nl
   ++ indent ++ nl
   ++ indent ++ "Requirements:" ++ nl
   ++ indent ++ "1. Use academic writing style" ++ nl
   ++ indent ++ "2. Include proper citations" ++ nl
   ++ indent ++ "3. Maintain consistent formatting" ++ nl
   ++ indent ++ "4. Ensure factual accuracy" ++ nl
   ++ indent ++ "5. Cross-reference with existing literature" ++ nl
   ++ indent ++ nl
   ++ indent ++ body ++ nl
   ++ indent)%string.

(** [model.generate_content(prompt)] and [response.text] for the section
    of index [i]; the prompt is recorded. *)
Definition call_model (w : World) (i : nat) (prompt : string) : M string :=
  modify (fun s => set_prompts_sent (prompts_sent s ++ [prompt]) s) ;;
  lift (generate_content w i prompt).

(** The owner of the object may have set [closing] since the last look. *)
Definition poll_closing (w : World) (i : nat) : M unit :=
  modify (fun s => set_closing (closing s || close_requested w i) s).

(** The inner [try] block of the loop for one section. *)
Definition generate_section (w : World) (i : nat)
           (section_name prompt_template : string)
           (input_values : dict string) : M unit :=
  s <- get ;;
  context <- lift (build_context section_name input_values (Some (citations s))) ;;
  body <- lift (format prompt_template input_values) ;;
  let prompt := make_prompt context body in
  section_text <- call_model w i prompt ;;
  modify (extract_citations section_text section_name) ;;
  modify (fun s => set_section_texts
                     (dict_set section_name section_text (section_texts s)) s) ;;
  update_progress section_name "Complete" 1%Q.

(** The [except] clause of that block. *)
Definition section_failed (section_name : string) (e : exn) : M unit :=
  update_progress section_name "Failed" 0%Q ;;
  raise (Exception ("Error generating " ++ section_name ++ ": "
                    ++ str_of_exn e)%string).

(** One turn of the [for] loop of [generate_paper], for the section of
    index [i]; the result tells whether the loop is left by [break]. *)
Definition loop_iteration (w : World) (input_values : dict string)
           (i : nat) (sec : string * string) : M bool :=
  let section_name := fst sec in
  let prompt_template := snd sec in
  poll_closing w i ;;
  s <- get ;;
  if closing s then ret true
  else
    update_progress section_name "Generating..." (1 # 2)%Q ;;
    try_except
      (generate_section w i section_name prompt_template input_values)
      (section_failed section_name) ;;
    ret false.

(** The loop from the section of index [i] on.  The pause between two
    sections ([asyncio.sleep(1)]) changes nothing of the state. *)
Fixpoint generate_sections (w : World) (input_values : dict string)
         (i : nat) (secs : list (string * string)) : M unit :=
  match secs with
  | [] => ret tt
  | sec :: rest =>
      stop <- loop_iteration w input_values i sec ;;
      if stop : bool then ret tt
      else generate_sections w input_values (S i) rest
  end.

(** The block after the loop: the document is saved unless the object is
    closing. *)
Definition save_unless_closing (w : World) : M unit :=
  poll_closing w (List.length sections) ;;
  s <- get ;;
  if negb (closing s) then
    save_document w (section_texts s) ;;
    modify (update_status_label "Research paper generated successfully!" false)
  else ret tt.

(** [os.environ[name] = value]: a value with a NUL character is refused
    with a [ValueError]; every other value of the model's strings is
    accepted (the file-system encoding, UTF-8 by default, encodes all
    code points below 256).  The variable itself is never read back. *)
Definition has_nul (value : string) : bool := has_char (ascii_of_nat 0) value.

Definition environ_set (value : string) : result unit :=
  if has_nul value then Raise (ValueError "embedded null byte") else Ok tt.

(** The [try] block of [generate_paper].  Configuring the client and the
    model touches nothing the program reads back. *)
Definition generate_paper_body (w : World) : M unit :=
  v <- validate_inputs ;;
  if negb (fst v) then modify (update_status_label (snd v) true)
  else
    api_key <- input_text "api_key" ;;
    lift (environ_set api_key) ;;
    topic <- input_text "topic" ;;
    methodology <- input_text "methodology" ;;
    results <- input_text "results" ;;
    let input_values :=
      [("topic", topic); ("methodology", methodology); ("results", results)] in
    generate_sections w input_values 0 sections ;;
    save_unless_closing w.

(** The outer [except] clause; the traceback it prints goes to the
    console only. *)
Definition report_error (e : exn) : M unit :=
  modify (update_status_label ("Error: " ++ str_of_exn e)%string true).

(** The [finally] clause. *)
Definition release : M unit :=
  modify (toggle_inputs true) ;;
  modify (set_current_task None).

(** The [try] statement with its [except] clause: what the worker does
    before it releases the handle. *)
Definition guarded_generation (w : World) : M unit :=
  try_except (generate_paper_body w) report_error.

Definition generate_paper (w : World) : M unit :=
  try_finally (guarded_generation w) release.


(** * Vocabulary of the properties *)

Definition is_ok {A} (r : result A) : bool :=
  match r with Ok _ => true | Raise _ => false end.

(** [setup_ui] has run: the four entries and, for each section, a progress
    bar and a status label exist. *)
Definition ui_ready (s : App) : Prop :=
  dict_keys (inputs s) = required_fields
  /\ dict_keys (progress_bars s) = section_names
  /\ dict_keys (status_labels s) = section_names.

(** The keys of the two widget dictionaries. *)
Definition widget_keys (bars labels : list string) (s : App) : Prop :=
  dict_keys (progress_bars s) = bars /\ dict_keys (status_labels s) = labels.

(** The citation map has entries for sections of [names] only. *)
Definition citations_within (names : list string) (s : App) : Prop :=
  forall n, In n (dict_keys (citations s)) -> In n names.

(** What the window shows for a section: its label and its progress. *)
Definition section_status (name : string) (s : App) : option (string * Q) :=
  match dict_get name (status_labels s), dict_get name (progress_bars s) with
  | Some label, Some progress => Some (label, progress)
  | _, _ => None
  end.

(** A run is active while the handle [current_task] is not [None]. *)
Definition running (s : App) : Prop := current_task s <> None.

(** The content of an entry, and the fields that are blank: empty once
    stripped. *)
Definition field_text (field : string) (s : App) : string :=
  match dict_get field (inputs s) with
  | Some e => entry_text e
  | None => EmptyString
  end.

Definition is_blank (text : string) : bool := negb (truthy (strip text)).

Definition blank_fields (s : App) : list string :=
  filter (fun field => is_blank (field_text field s)) required_fields.

(** The values the run passes to the templates. *)
Definition input_values_of (s : App) : dict string :=
  [("topic", field_text "topic" s);
   ("methodology", field_text "methodology" s);
   ("results", field_text "results" s)].

(** The object once [start_generation] has accepted a request: entries and
    button disabled, storage cleared, every section back to Pending, the
    handle set. *)
Definition started (s : App) : App :=
  {| citations := [];
     current_task := Some WorkerThread;
     closing := closing s;
     inputs := map (fun kv => (fst kv, mkEntry (entry_text (snd kv)) "disabled"))
                   (inputs s);
     progress_bars := map (fun n => (n, 0%Q)) section_names;
     status_labels := map (fun n => (n, "Pending")) section_names;
     section_texts := [];
     save_as_markdown := save_as_markdown s;
     save_as_markdown_var := save_as_markdown_var s;
     generate_button := "disabled";
     status_label := ("Generating paper...", "white");
     files := files s;
     prompts_sent := prompts_sent s;
     status_history := status_history s ++ [("Generating paper...", false)] |}.

(** The object after [setup_ui] with the four entries filled in. *)
Definition filled_app (api_key topic methodology results : string) : App :=
  type_input "results" results
    (type_input "methodology" methodology
       (type_input "topic" topic
          (type_input "api_key" api_key init_app))).

(** A whole run: the button handler, then the body of the worker thread. *)
Definition run (w : World) (s : App) : App :=
  snd (generate_paper w (snd (start_generation s))).

(** The prompt of a section for given input values and citation map. *)
Definition section_prompt (input_values : dict string)
           (cits : option CitationMap) (sec : string * string) : string :=
  match build_context (fst sec) input_values cits,
        format (snd sec) input_values with
  | Ok context, Ok body => make_prompt context body
  | _, _ => EmptyString
  end.

(** The prompt of a section when the context is built without any
    citation. *)
Definition prompt_without_citations (input_values : dict string)
           (sec : string * string) : string :=
  section_prompt input_values None sec.

(** [P] is kept by the computation [m], whatever its outcome. *)
Definition stable {A} (P : App -> Prop) (m : M A) : Prop :=
  forall s, P s -> P (snd (m s)).

(** [P] does not depend on what the section loop writes apart from the
    progress widgets, and is kept by [update_progress]. *)
Definition loop_invariant (P : App -> Prop) : Prop :=
  (forall v s, P s -> P (set_closing v s))
  /\ (forall v s, P s -> P (set_prompts_sent v s))
  /\ (forall v s, P s -> P (set_citations v s))
  /\ (forall v s, P s -> P (set_section_texts v s))
  /\ (forall n st p, stable P (update_progress n st p)).

(** [P] does not depend on what [save_document] writes. *)
Definition save_invariant (P : App -> Prop) : Prop :=
  (forall v s, P s -> P (set_files v s))
  /\ (forall s, P s -> P (set_save_as_markdown true s))
  /\ (forall v l s, P s -> P (set_status_label v l s)).


(** [c] does not occur in [s]. *)
Fixpoint free_of (c : ascii) (s : string) : Prop :=
  match s with
  | EmptyString => True
  | String c' s' => c' <> c /\ free_of c s'
  end.

(** [text] contains a parenthesized substring: an opening parenthesis, one
    or more characters other than the closing parenthesis, and a closing
    parenthesis. *)
Definition has_parenthesized (text : string) : Prop :=
  exists before inner after : string,
    text = (before ++ String lparen (inner ++ String rparen after))%string
    /\ inner <> EmptyString /\ free_of rparen inner.

(** The export as the specification words it: one string per section, in
    the mapping's order, with the separator between consecutive ones. *)
Definition markdown_separator : string := (nl ++ "---" ++ nl)%string.

Fixpoint joined_sections (section_texts : dict string) : string :=
  match section_texts with
  | [] => EmptyString
  | (name, text) :: rest =>
      let this := ("## " ++ name ++ nl ++ nl ++ strip text ++ nl)%string in
      match rest with
      | [] => this
      | _ :: _ => (this ++ markdown_separator ++ joined_sections rest)%string
      end
  end.

(** The names of the files a save at [timestamp] writes. *)
Definition word_name (timestamp : string) : string :=
  ("research_paper_" ++ timestamp ++ ".docx")%string.
Definition markdown_name (timestamp : string) : string :=
  ("research_paper_" ++ timestamp ++ ".md")%string.

(** The citation map after [extract_citations]. *)
Definition extracted (text section_name : string) (cits : CitationMap)
  : CitationMap :=
  match findall text with
  | [] => cits
  | _ :: _ => dict_set section_name (number_citations 0 (findall text) []) cits
  end.

(** What can happen to the application object between two saves. *)
Inductive action : Type :=
| StartGeneration
| RunWorker (w : World)
| SaveDocument (w : World) (section_texts : dict string)
| SetMarkdownCheckbox (checked : bool)
| TypeInput (field text : string)
| RequestClose.

Definition perform (s : App) (a : action) : App :=
  match a with
  | StartGeneration => snd (start_generation s)
  | RunWorker w => snd (generate_paper w s)
  | SaveDocument w texts => snd (save_document w texts s)
  | SetMarkdownCheckbox checked => set_save_as_markdown_var checked s
  | TypeInput field text => type_input field text s
  | RequestClose => set_closing true s
  end.

Definition perform_all (actions : list action) (s : App) : App :=
  fold_left perform actions s.

(** Unfolds the monad and the record updates of a computation applied to a
    state. *)
Ltac step_monad :=
  cbv [bind modify get ret raise lift write_file];
  cbn [citations current_task closing inputs progress_bars status_labels
       section_texts save_as_markdown save_as_markdown_var generate_button
       status_label files prompts_sent status_history
       set_citations set_current_task set_closing set_inputs set_progress
       set_section_texts set_save_as_markdown set_save_as_markdown_var
       set_generate_button set_status_label set_files set_prompts_sent
       update_status_label fst snd].


(** * Vocabulary of the further properties *)

(** [g] occurs in [text] between an opening and a closing parenthesis. *)
Definition parenthesized_in (g text : string) : Prop :=
  exists before after : string,
    text = (before ++ String lparen (g ++ String rparen after))%string.

(** The key the extractor gives to the citation of index [i]. *)
Definition citation_key (i : nat) : string :=
  ("citation_" ++ str_of_nat i)%string.

(** The entries the extractor stores for a list of citations: the keys
    citation_0, citation_1, ... paired with the citations in order. *)
Definition numbered (found : list string) : dict string :=
  combine (map citation_key (seq 0 (List.length found))) found.

(** Every character of [s] is whitespace. *)
Fixpoint only_spaces (s : string) : bool :=
  match s with
  | EmptyString => true
  | String c s' => isspace c && only_spaces s'
  end.

(** [s] does not begin with whitespace. *)
Definition starts_clean (s : string) : Prop :=
  match s with
  | EmptyString => True
  | String c _ => isspace c = false
  end.

(** The reply of the generation service to the prompt the run sends for the
    section [sec] of index [i]. *)
Definition reply (w : World) (input_values : dict string) (i : nat)
           (sec : string * string) : result string :=
  generate_content w i (prompt_without_citations input_values sec).

(** The sections, from index [i] on, that a run completes: those before
    the first one at which [closing] is found set or the call fails. *)
Fixpoint completing (w : World) (input_values : dict string) (i : nat)
         (secs : list (string * string)) : list (string * string) :=
  match secs with
  | [] => []
  | sec :: rest =>
      if close_requested w i then []
      else match reply w input_values i sec with
           | Ok _ => sec :: completing w input_values (S i) rest
           | Raise _ => []
           end
  end.

(** The generated texts of sections that complete, under their names. *)
Fixpoint replies (w : World) (input_values : dict string) (i : nat)
         (secs : list (string * string)) : dict string :=
  match secs with
  | [] => []
  | sec :: rest =>
      (fst sec, match reply w input_values i sec with
                | Ok text => text
                | Raise _ => EmptyString
                end)
      :: replies w input_values (S i) rest
  end.

(** The citation map built from generated texts, section after section. *)
Definition citations_from (texts : dict string) (cits : CitationMap)
  : CitationMap :=
  fold_left (fun c item => extracted (snd item) (fst item) c) texts cits.

(** [text] with every carriage return replaced by a newline. *)
Fixpoint newlines (text : string) : string :=
  match text with
  | EmptyString => EmptyString
  | String c rest =>
      String (if nat_of_ascii c =? 13 then ascii_of_nat 10 else c)
             (newlines rest)
  end.

(** The names and texts of a mapping, each with its carriage returns
    replaced by newlines. *)
Definition with_newlines (texts : dict string) : dict string :=
  map (fun item => (newlines (fst item), newlines (snd item))) texts.

(** The content of a run read back as text: a tab for a tab element, a
    newline for a line break. *)
Definition text_of_inline (i : inline) : string :=
  match i with
  | Text s => s
  | Tab => String (ascii_of_nat 9) EmptyString
  | LineBreak => nl
  end.

Fixpoint text_of_content (content : list inline) : string :=
  match content with
  | [] => EmptyString
  | i :: rest => (text_of_inline i ++ text_of_content rest)%string
  end.

(** * Properties *)

(** ** Dictionaries *)

Section DictFacts.
Context {V : Type}.
Implicit Types (d : dict V) (k : string) (v : V).

Lemma dict_get_set_same k v d :
  dict_get k (dict_set k v d) = Some v.
Proof.
  induction d as [|[k' v'] d IH]; simpl.
  - now rewrite String.eqb_refl.
  - destruct (String.eqb k' k) eqn:E; simpl; rewrite E; auto.
Qed.

Lemma dict_get_set_other k k' v d :
  k' <> k -> dict_get k' (dict_set k v d) = dict_get k' d.
Proof.
  intros Hne. induction d as [|[k0 v0] d IH]; simpl.
  - destruct (String.eqb k k') eqn:E; auto.
    apply String.eqb_eq in E. congruence.
  - destruct (String.eqb k0 k) eqn:E; simpl.
    + apply String.eqb_eq in E. subst k0.
      destruct (String.eqb k k') eqn:E'; auto.
      apply String.eqb_eq in E'. congruence.
    + now rewrite IH.
Qed.

Lemma dict_get_None k d :
  ~ In k (dict_keys d) -> dict_get k d = None.
Proof.
  induction d as [|[k0 v0] d IH]; simpl; intros Hn; auto.
  destruct (String.eqb k0 k) eqn:E.
  - apply String.eqb_eq in E. tauto.
  - apply IH. tauto.
Qed.

Lemma dict_get_Some_In k d :
  In k (dict_keys d) -> exists v, dict_get k d = Some v.
Proof.
  induction d as [|[k0 v0] d IH]; simpl; intros Hin; [tauto|].
  destruct (String.eqb k0 k) eqn:E; eauto.
  destruct Hin as [->|Hin]; auto.
  now rewrite String.eqb_refl in E.
Qed.

Lemma dict_get_In_keys k v d :
  dict_get k d = Some v -> In k (dict_keys d).
Proof.
  induction d as [|[k0 v0] d IH]; simpl; [discriminate|].
  destruct (String.eqb k0 k) eqn:E; auto.
  apply String.eqb_eq in E. auto.
Qed.

Lemma dict_get_In_pair k v d :
  dict_get k d = Some v -> In (k, v) d.
Proof.
  induction d as [|[k0 v0] d IH]; simpl; [discriminate|].
  destruct (String.eqb k0 k) eqn:E; auto.
  apply String.eqb_eq in E. intros [= ->]. subst. auto.
Qed.

Lemma dict_in_true k d :
  In k (dict_keys d) -> dict_in k d = true.
Proof.
  intros H. unfold dict_in. now destruct (dict_get_Some_In _ _ H) as [v ->].
Qed.

Lemma dict_in_false k d :
  ~ In k (dict_keys d) -> dict_in k d = false.
Proof.
  intros H. unfold dict_in. now rewrite dict_get_None.
Qed.

(** Assigning to a key that is present keeps the keys and their order. *)
Lemma dict_keys_set_present k v d :
  In k (dict_keys d) -> dict_keys (dict_set k v d) = dict_keys d.
Proof.
  induction d as [|[k0 v0] d IH]; simpl; intros Hin; [tauto|].
  destruct (String.eqb k0 k) eqn:E; simpl; auto.
  f_equal. apply IH. destruct Hin as [->|]; auto.
  now rewrite String.eqb_refl in E.
Qed.

(** Assigning to any key adds at most that key. *)
Lemma dict_keys_set_incl k v d k' :
  In k' (dict_keys (dict_set k v d)) -> k' = k \/ In k' (dict_keys d).
Proof.
  induction d as [|[k0 v0] d IH]; simpl.
  - intros [<-|[]]; auto.
  - destruct (String.eqb k0 k) eqn:E; simpl; intros [<-|H]; auto.
    destruct (IH H); auto.
Qed.

End DictFacts.

(** ** The context builder *)

Lemma is_ok_Ok {A} (r : result A) : is_ok r = true -> exists a, r = Ok a.
Proof. destruct r; simpl; [eauto | discriminate]. Qed.

(** Claim C9: called with the name of the first section (Abstract), or with
    a name for which no narrative template is registered, and with any
    prior inputs and any citation map (or none), the context builder
    returns the empty string and does not raise. *)
Theorem build_context_empty_for_first_or_unregistered :
  forall (section_name : string) (previous_sections : dict string)
         (citations : option CitationMap),
    hd_error section_names = Some section_name
    \/ ~ In section_name (dict_keys contexts) ->
    build_context section_name previous_sections citations = Ok EmptyString.
Proof.
  intros name prev cits [Hfirst | Hunreg]; unfold build_context.
  - injection Hfirst as <-. reflexivity.
  - unfold dict_get_default. now rewrite (dict_get_None _ _ Hunreg).
Qed.

Lemma build_context_empty_witness :
  build_context "Abstract" [("topic", "T")]
    (Some [("Abstract", [("citation_0", "Smith, 2020")])]) = Ok EmptyString
  /\ build_context "References" [("topic", "T")] None = Ok EmptyString.
Proof.
  split.
  - apply build_context_empty_for_first_or_unregistered.
    left. reflexivity.
  - apply build_context_empty_for_first_or_unregistered.
    right. simpl. intros H.
    repeat (destruct H as [H|H]; [discriminate H|]). exact H.
Defined.

(** ** The citation extractor *)

Lemma substring_prefix (g rest : string) :
  substring 0 (String.length g) (g ++ rest) = g.
Proof.
  induction g as [|c g IH]; simpl.
  - now destruct rest.
  - now rewrite IH.
Qed.

Lemma match_group_sound (s : string) (n : nat) :
  match_group s = Some n ->
  exists inner after,
    s = (inner ++ String rparen after)%string
    /\ String.length inner = n /\ inner <> EmptyString
    /\ free_of rparen inner.
Proof.
  revert n. induction s as [|c s IH]; simpl; intros n H; [discriminate|].
  destruct (Ascii.eqb c rparen) eqn:Ec; [discriminate|].
  apply Ascii.eqb_neq in Ec.
  destruct (match_group s) as [m|] eqn:Em.
  - injection H as <-.
    destruct (IH m eq_refl) as (inner & after & -> & Hlen & _ & Hfree).
    exists (String c inner), after. simpl. repeat split; auto; congruence.
  - destruct s as [|c' s']; [discriminate|].
    destruct (Ascii.eqb c' rparen) eqn:Ec'; [|discriminate].
    apply Ascii.eqb_eq in Ec'. subst c'. injection H as <-.
    exists (String c EmptyString), s'. simpl. repeat split; auto; congruence.
Qed.

Lemma match_group_complete (inner after : string) :
  inner <> EmptyString -> free_of rparen inner ->
  match_group (inner ++ String rparen after) = Some (String.length inner).
Proof.
  induction inner as [|c inner IH]; [congruence|].
  intros _ [Hc Hfree]. simpl.
  apply Ascii.eqb_neq in Hc. rewrite Hc.
  destruct inner as [|c' inner'].
  - reflexivity.
  - rewrite IH; auto. congruence.
Qed.

Lemma match_here_sound (s g : string) :
  match_here s = Some g ->
  exists after,
    s = String lparen (g ++ String rparen after)
    /\ g <> EmptyString /\ free_of rparen g.
Proof.
  destruct s as [|c s]; simpl; [discriminate|].
  destruct (Ascii.eqb c lparen) eqn:Ec; [|discriminate].
  apply Ascii.eqb_eq in Ec. subst c.
  destruct (match_group s) as [n|] eqn:Em; [|discriminate].
  intros [= <-].
  destruct (match_group_sound _ _ Em) as (inner & after & -> & <- & Hne & Hfree).
  rewrite substring_prefix. eauto.
Qed.

Lemma findall_from_found (s : string) (skip : nat) :
  findall_from skip s <> [] -> has_parenthesized s.
Proof.
  revert skip. induction s as [|c s IH]; intros skip; [now simpl|].
  assert (Hlater : forall k, findall_from k s <> [] ->
                             has_parenthesized (String c s)).
  { intros k Hk. destruct (IH k Hk) as (a & g & b & -> & Hne & Hfree).
    exists (String c a), g, b. auto. }
  cbn [findall_from]. destruct skip as [|k]; [|apply Hlater].
  destruct (match_here (String c s)) as [g|] eqn:Em; [|apply Hlater].
  intros _. destruct (match_here_sound _ _ Em) as (after & Heq & Hne & Hfree).
  exists EmptyString, g, after. auto.
Qed.

Lemma has_parenthesized_found (text : string) :
  has_parenthesized text -> findall text <> [].
Proof.
  intros (a & g & b & -> & Hne & Hfree). unfold findall.
  induction a as [|c a IH].
  - cbn [append findall_from match_here].
    rewrite Ascii.eqb_refl, match_group_complete by assumption. discriminate.
  - change (String c a ++ String lparen (g ++ String rparen b))%string
      with (String c (a ++ String lparen (g ++ String rparen b))%string).
    cbn [findall_from].
    destruct (match_here _); [discriminate | exact IH].
Qed.

(** The extractor finds nothing exactly on the texts without a
    parenthesized substring. *)
Lemma findall_nil_iff (text : string) :
  findall text = [] <-> ~ has_parenthesized text.
Proof.
  split.
  - intros Hnil Hp. now apply has_parenthesized_found in Hp.
  - intros Hn. destruct (findall text) eqn:E; auto.
    exfalso. apply Hn, (findall_from_found text 0).
    unfold findall in E. rewrite E. discriminate.
Qed.

(** Claim C7: on the text of the example the extractor stores, under the
    section's key, exactly two entries, keyed citation_0 and citation_1 in
    that order, whose values are the two parenthesized references in the
    order in which they occur. *)
Theorem extract_citations_smith_jones :
  forall (section_name : string) (s : App),
    let text :=
      "Smith showed X (Smith, 2020) and Jones confirmed it (Jones, 2021)." in
    let entries :=
      [("citation_0", "Smith, 2020"); ("citation_1", "Jones, 2021")] in
    findall text = ["Smith, 2020"; "Jones, 2021"]
    /\ citations (extract_citations text section_name s)
       = dict_set section_name entries (citations s)
    /\ dict_get section_name (citations (extract_citations text section_name s))
       = Some entries
    /\ dict_values entries = ["Smith, 2020"; "Jones, 2021"]
    /\ List.length entries = 2.
Proof.
  intros name s text entries.
  assert (Hfound : findall text = ["Smith, 2020"; "Jones, 2021"])
    by reflexivity.
  assert (Hcit : citations (extract_citations text name s)
                 = dict_set name entries (citations s)).
  { unfold extract_citations. rewrite Hfound. reflexivity. }
  repeat split; auto.
  rewrite Hcit. apply dict_get_set_same.
Qed.

(** Claim C8: on a text without parenthesized substring the extractor
    changes nothing: the application object, and with it the whole
    citation map, is the same afterwards, so every section's entries are
    as before and a section key that was absent is still absent. *)
Theorem extract_citations_without_parentheses :
  forall (text section_name : string) (s : App),
    ~ has_parenthesized text ->
    extract_citations text section_name s = s
    /\ citations (extract_citations text section_name s) = citations s
    /\ (dict_in section_name (citations s) = false ->
        dict_in section_name
          (citations (extract_citations text section_name s)) = false).
Proof.
  intros text name s Hn. apply findall_nil_iff in Hn.
  assert (H : extract_citations text name s = s).
  { unfold extract_citations. now rewrite Hn. }
  rewrite H. auto.
Qed.

Lemma extract_citations_without_parentheses_witness :
  let s := set_citations [("Abstract", [("citation_0", "Smith, 2020")])] init_app in
  extract_citations "The sample was small and the effect modest." "Introduction" s = s
  /\ dict_in "Introduction"
       (citations (extract_citations "A lone ) or an empty pair () is no citation, nor is an open ("
                     "Introduction" s)) = false.
Proof.
  split.
  - apply extract_citations_without_parentheses.
    apply findall_nil_iff. reflexivity.
  - apply extract_citations_without_parentheses.
    + apply findall_nil_iff. reflexivity.
    + reflexivity.
Defined.

(** ** The markdown export *)

Lemma markdown_sections_collected (items : dict string) (acc : list string) :
  fold_left (fun acc item => acc ++ [markdown_section (fst item) (snd item)])
            items acc
  = acc ++ map (fun item => markdown_section (fst item) (snd item)) items.
Proof.
  revert acc. induction items as [|item items IH]; intros acc; simpl.
  - now rewrite app_nil_r.
  - rewrite IH, <- app_assoc. reflexivity.
Qed.

(** Claim C6: for every ordered mapping of section name to text (the empty
    one included) the markdown export is the per-section strings
    "## <name>\n\n<text.strip()>\n", in insertion order, joined with
    "\n---\n". *)
Theorem format_to_markdown_joins_sections :
  forall section_texts : dict string,
    format_to_markdown section_texts = joined_sections section_texts.
Proof.
  intros items. unfold format_to_markdown.
  rewrite markdown_sections_collected. cbn [app].
  induction items as [|[name text] items IH]; [reflexivity|].
  cbn [map joined_sections join fst snd].
  destruct items as [|item items]; [reflexivity|].
  rewrite <- IH. reflexivity.
Qed.

(** ** Invariants of computations *)

Section Stable.
Context (P : App -> Prop).

Lemma stable_ret {A} (a : A) : stable P (ret a).
Proof. now intros s H. Qed.

Lemma stable_raise {A} (e : exn) : stable P (@raise A e).
Proof. now intros s H. Qed.

Lemma stable_get : stable P get.
Proof. now intros s H. Qed.

Lemma stable_lift {A} (r : result A) : stable P (lift r).
Proof. now intros s H. Qed.

Lemma stable_modify (f : App -> App) :
  (forall s, P s -> P (f s)) -> stable P (modify f).
Proof. intros Hf s H. now apply Hf. Qed.

Lemma stable_bind {A B} (m : M A) (k : A -> M B) :
  stable P m -> (forall a, stable P (k a)) -> stable P (bind m k).
Proof.
  intros Hm Hk s H. unfold bind.
  specialize (Hm s H). destruct (m s) as [[a|e] s']; simpl in *; auto.
  now apply Hk.
Qed.

Lemma stable_try_except {A} (body : M A) (handler : exn -> M A) :
  stable P body -> (forall e, stable P (handler e)) ->
  stable P (try_except body handler).
Proof.
  intros Hb Hh s H. unfold try_except.
  specialize (Hb s H). destruct (body s) as [[a|e] s']; simpl in *; auto.
  now apply Hh.
Qed.

Lemma stable_try_finally {A} (body : M A) (final : M unit) :
  stable P body -> stable P final -> stable P (try_finally body final).
Proof.
  intros Hb Hf s H. unfold try_finally.
  specialize (Hb s H). destruct (body s) as [r s']; simpl in *.
  specialize (Hf s' Hb). now destruct (final s') as [[[]|e] s''].
Qed.

Lemma stable_input_text (field : string) : stable P (input_text field).
Proof.
  intros s H. unfold input_text. now destruct (dict_get field (inputs s)).
Qed.

Lemma stable_validate_fields (fields : list string) :
  stable P (validate_fields fields).
Proof.
  induction fields as [|f fields IH]; cbn [validate_fields].
  - apply stable_ret.
  - apply stable_bind; [apply stable_input_text|].
    intros text. destruct (negb _); [apply stable_ret | exact IH].
Qed.

Lemma stable_extract_citations (text name : string) :
  (forall v s, P s -> P (set_citations v s)) ->
  forall s, P s -> P (extract_citations text name s).
Proof.
  intros Hc s H. unfold extract_citations. destruct (findall text); auto.
Qed.

Hypothesis Hloop : loop_invariant P.

Lemma stable_loop_iteration w iv i sec : stable P (loop_iteration w iv i sec).
Proof.
  destruct Hloop as (Hclosing & Hprompts & Hcit & Htexts & Hprog).
  unfold loop_iteration, poll_closing, generate_section, section_failed,
    call_model.
  apply stable_bind; [apply stable_modify; auto|]. intros _.
  apply stable_bind; [apply stable_get|]. intros s0.
  destruct (closing s0); [apply stable_ret|].
  apply stable_bind; [apply Hprog|]. intros _.
  apply stable_bind; [|intros _; apply stable_ret].
  apply stable_try_except.
  - apply stable_bind; [apply stable_get|]. intros s1.
    apply stable_bind; [apply stable_lift|]. intros context.
    apply stable_bind; [apply stable_lift|]. intros body.
    apply stable_bind.
    { apply stable_bind; [apply stable_modify; auto|].
      intros _. apply stable_lift. }
    intros text.
    apply stable_bind.
    { apply stable_modify. intros s. now apply stable_extract_citations. }
    intros _.
    apply stable_bind; [apply stable_modify; auto|]. intros _. apply Hprog.
  - intros e. apply stable_bind; [apply Hprog|]. intros _. apply stable_raise.
Qed.

Lemma stable_generate_sections w iv secs :
  forall i, stable P (generate_sections w iv i secs).
Proof.
  induction secs as [|sec secs IH]; intros i; cbn [generate_sections].
  - apply stable_ret.
  - apply stable_bind; [apply stable_loop_iteration|].
    intros [|]; [apply stable_ret | apply IH].
Qed.


End Stable.

Lemma stable_update_status_label P message is_error :
  save_invariant P -> forall s, P s -> P (update_status_label message is_error s).
Proof.
  intros (_ & _ & Hlabel) s H. unfold update_status_label. auto.
Qed.


Lemma stable_save_document P w texts :
  save_invariant P -> stable P (save_document w texts).
Proof.
  intros HP. pose proof HP as (Hfiles & Hmd & Hlabel).
  unfold save_document, write_file.
  apply stable_bind; [apply stable_lift|]. intros doc.
  apply stable_bind; [apply stable_modify; auto|]. intros _.
  apply stable_bind; [apply stable_get|]. intros s0.
  apply stable_bind.
  { destruct (save_as_markdown_var s0); [|apply stable_ret].
    apply stable_bind; [apply stable_modify; auto|]. intros _.
    apply stable_bind; [apply stable_modify; auto|]. intros _.
    apply stable_ret. }
  intros filename_md.
  apply stable_bind; [apply stable_get|]. intros s1.
  apply stable_bind.
  { destruct (save_as_markdown s1); [|apply stable_ret].
    destruct filename_md; [apply stable_ret | apply stable_raise]. }
  intros clause. apply stable_modify.
  intros s. now apply stable_update_status_label.
Qed.

Lemma stable_save_unless_closing P w :
  (forall v s, P s -> P (set_closing v s)) ->
  save_invariant P -> stable P (save_unless_closing w).
Proof.
  intros Hclosing HP. unfold save_unless_closing, poll_closing.
  apply stable_bind; [apply stable_modify; auto|]. intros _.
  apply stable_bind; [apply stable_get|]. intros s0.
  destruct (negb (closing s0)); [|apply stable_ret].
  apply stable_bind; [now apply stable_save_document|]. intros _.
  apply stable_modify. intros s. now apply stable_update_status_label.
Qed.

Lemma stable_guarded_generation P w :
  loop_invariant P -> save_invariant P -> stable P (guarded_generation w).
Proof.
  intros Hloop Hsave. pose proof Hloop as (Hclosing & _).
  unfold guarded_generation, generate_paper_body, validate_inputs,
    report_error.
  apply stable_try_except.
  - apply stable_bind; [apply stable_validate_fields|]. intros v.
    destruct (negb (fst v)).
    { apply stable_modify. intros s. now apply stable_update_status_label. }
    apply stable_bind; [apply stable_input_text|]. intros api_key.
    apply stable_bind; [apply stable_lift|]. intros _.
    do 3 (apply stable_bind; [apply stable_input_text|]; intros ?).
    apply stable_bind; [now apply stable_generate_sections|]. intros _.
    now apply stable_save_unless_closing.
  - intros e. apply stable_modify.
    intros s. now apply stable_update_status_label.
Qed.



Lemma stable_update_progress (P : App -> Prop) n st p :
  (forall bars labels s, P s -> P (set_progress bars labels s)) ->
  stable P (update_progress n st p).
Proof.
  intros HP s H. unfold update_progress.
  destruct (dict_in n (progress_bars s)); [|exact H].
  destruct (dict_get n (status_labels s)); simpl; auto.
Qed.

(** A field that the section loop never writes is kept by it. *)
Lemma field_loop_invariant {B} (proj : App -> B) (v : B) :
  (forall x s, proj (set_closing x s) = proj s) ->
  (forall x s, proj (set_prompts_sent x s) = proj s) ->
  (forall x s, proj (set_citations x s) = proj s) ->
  (forall x s, proj (set_section_texts x s) = proj s) ->
  (forall x y s, proj (set_progress x y s) = proj s) ->
  loop_invariant (fun s => proj s = v).
Proof.
  intros H1 H2 H3 H4 H5. unfold loop_invariant.
  split; [|split; [|split; [|split]]]; intros; try congruence.
  apply stable_update_progress.
  intros. rewrite H5. assumption.
Qed.

(** ** Single flight *)

(** Claim C4: while a run is active (the handle [current_task] is not
    [None]) a start request returns at once and leaves the application
    object as it is: citations, section texts, the status of every
    section, the state of the entries and the handle itself. *)
Theorem start_generation_while_running_is_noop :
  forall s : App,
    running s -> start_generation s = (Ok tt, s).
Proof.
  intros s Hrun. unfold running in Hrun. unfold start_generation.
  destruct (current_task s); [reflexivity | congruence].
Qed.

(** The worker keeps the handle until its [finally] clause: a start request
    made at any moment before is dropped as well. *)
Lemma handle_kept_until_release (w : World) (s : App) :
  running s -> running (snd (guarded_generation w s)).
Proof.
  unfold running. intros Hrun.
  destruct (current_task s) as [t|] eqn:Htask; [clear Hrun | congruence].
  assert (H : current_task (snd (guarded_generation w s)) = Some t).
  { apply (stable_guarded_generation (fun x => current_task x = Some t));
      [| |exact Htask].
    - now apply field_loop_invariant.
    - unfold save_invariant. repeat split; intros; assumption. }
  congruence.
Qed.

(** ** Saving the document *)

Lemma build_document_from (texts : dict string) :
  forall doc : list block,
    build_document texts doc
    = if docx_accepts texts then Ok (doc ++ document_body texts)
      else Raise (ValueError xml_refusal).
Proof.
  induction texts as [|[name text] texts IH]; intros doc.
  - cbn. now rewrite app_nil_r.
  - cbn [build_document docx_accepts forallb document_body fst snd].
    unfold add_text.
    destruct (xml_compatible name); [|reflexivity].
    destruct (xml_compatible text); [|reflexivity].
    cbn [andb]. rewrite IH. fold (docx_accepts texts).
    destruct (docx_accepts texts); [|reflexivity].
    now rewrite <- app_assoc.
Qed.

Lemma build_document_accepted texts :
  docx_accepts texts = true ->
  build_document texts [] = Ok (document_body texts).
Proof. intros H. now rewrite build_document_from, H. Qed.

Lemma build_document_refused texts :
  docx_accepts texts = false ->
  build_document texts [] = Raise (ValueError xml_refusal).
Proof. intros H. now rewrite build_document_from, H. Qed.

Lemma save_document_refused w texts s :
  docx_accepts texts = false ->
  save_document w texts s = (Raise (ValueError xml_refusal), s).
Proof.
  intros Hacc. unfold save_document. rewrite build_document_refused by exact Hacc.
  reflexivity.
Qed.


Lemma save_document_stale_flag w texts s :
  save_as_markdown_var s = false -> save_as_markdown s = true ->
  docx_accepts texts = true ->
  save_document w texts s
  = (Raise (UnboundLocalError
              (unbound_local_message (cpython_3_11 w) "filename_md")),
     set_files (dict_set (word_name (now w))
                         (WordFile (document_body texts)) (files s)) s).
Proof.
  intros Hvar Hflag Hacc. unfold save_document.
  rewrite build_document_accepted by exact Hacc. step_monad. rewrite Hvar.
  step_monad. rewrite Hflag. reflexivity.
Qed.





(** ** The templates never fail to format *)

Lemma format_context_ok name template a b c d :
  In (name, template) contexts ->
  truthy template = true ->
  is_ok (format template
           [("topic", a); ("methodology", b); ("results", c); ("citations", d)])
  = true.
Proof.
  intros Hin Ht. unfold contexts in Hin. simpl in Hin.
  repeat (destruct Hin as [Hin|Hin];
          [injection Hin as <- <-; first [discriminate Ht | vm_compute; reflexivity]|]).
  destruct Hin.
Qed.

Lemma format_section_ok sec a b c :
  In sec sections ->
  is_ok (format (snd sec) [("topic", a); ("methodology", b); ("results", c)])
  = true.
Proof.
  intros Hin. unfold sections in Hin. simpl in Hin.
  repeat (destruct Hin as [Hin|Hin]; [subst sec; vm_compute; reflexivity|]).
  destruct Hin.
Qed.

(** [build_context] returns for every argument. *)
Lemma build_context_total name prev cits :
  is_ok (build_context name prev cits) = true.
Proof.
  unfold build_context, dict_get_default.
  destruct (dict_get name contexts) as [template|] eqn:E; [|reflexivity].
  destruct (truthy template) eqn:Ht; [|reflexivity].
  cbn [negb]. apply dict_get_In_pair in E.
  now apply (format_context_ok name).
Qed.

(** The citations of other sections do not reach the context. *)
Lemma build_context_ignores_other_sections name prev (cits : CitationMap) :
  dict_in name cits = false ->
  build_context name prev (Some cits) = build_context name prev None.
Proof.
  intros H. unfold build_context, citation_text_of.
  rewrite H, andb_false_r. reflexivity.
Qed.

(** ** One turn of the section loop *)

Lemma extract_citations_eq text name s :
  extract_citations text name s
  = set_citations (extracted text name (citations s)) s.
Proof.
  unfold extract_citations, extracted.
  destruct (findall text); [now destruct s | reflexivity].
Qed.

Lemma extracted_keys text name cits n :
  In n (dict_keys (extracted text name cits)) ->
  n = name \/ In n (dict_keys cits).
Proof.
  unfold extracted. destruct (findall text); auto.
  apply dict_keys_set_incl.
Qed.

Lemma update_progress_present n st p s :
  In n (dict_keys (progress_bars s)) ->
  In n (dict_keys (status_labels s)) ->
  update_progress n st p s
  = (Ok tt, set_progress (dict_set n p (progress_bars s))
                         (dict_set n st (status_labels s)) s).
Proof.
  intros Hb Hl. unfold update_progress.
  rewrite (dict_in_true _ _ Hb).
  now destruct (dict_get_Some_In _ _ Hl) as [v ->].
Qed.

Lemma section_status_set n st p bars labels s :
  section_status n (set_progress (dict_set n p bars) (dict_set n st labels) s)
  = Some (st, p).
Proof.
  unfold section_status. cbn [status_labels progress_bars set_progress].
  now rewrite !dict_get_set_same.
Qed.

Lemma loop_iteration_breaks w iv i sec s :
  closing s || close_requested w i = true ->
  loop_iteration w iv i sec s = (Ok true, set_closing true s).
Proof.
  intros H. unfold loop_iteration, poll_closing. step_monad.
  rewrite H. reflexivity.
Qed.

Lemma loop_iteration_completes w iv i name template s :
  closing s = false -> close_requested w i = false ->
  In name (dict_keys (progress_bars s)) ->
  In name (dict_keys (status_labels s)) ->
  is_ok (format template iv) = true ->
  is_ok (generate_content w i
           (section_prompt iv (Some (citations s)) (name, template))) = true ->
  exists s',
    loop_iteration w iv i (name, template) s = (Ok false, s')
    /\ closing s' = false
    /\ section_status name s' = Some ("Complete", 1%Q)
    /\ (forall n, n <> name -> section_status n s' = section_status n s)
    /\ prompts_sent s'
       = prompts_sent s
         ++ [section_prompt iv (Some (citations s)) (name, template)]
    /\ (forall n, In n (dict_keys (citations s')) ->
                  n = name \/ In n (dict_keys (citations s))).
Proof.
  intros Hclosing Hreq Hbar Hlabel Hfmt Hgen.
  unfold section_prompt in *. cbn [fst snd] in *.
  destruct (is_ok_Ok _ (build_context_total name iv (Some (citations s))))
    as [context Hctx].
  destruct (is_ok_Ok _ Hfmt) as [body Hbody].
  rewrite Hctx, Hbody in Hgen |- *.
  destruct (is_ok_Ok _ Hgen) as [text Htext].
  unfold loop_iteration, poll_closing. step_monad.
  rewrite Hclosing, Hreq. cbn [orb].
  rewrite update_progress_present by assumption.
  unfold try_except, generate_section, call_model. step_monad.
  rewrite Hctx, Hbody, Htext.
  rewrite extract_citations_eq. step_monad.
  rewrite update_progress_present
    by (step_monad; rewrite dict_keys_set_present; assumption).
  step_monad. eexists. split; [reflexivity|].
  split; [reflexivity|].
  split; [apply section_status_set|].
  split.
  { intros n Hne. unfold section_status. step_monad.
    now rewrite !dict_get_set_other. }
  split; [reflexivity|].
  step_monad. apply extracted_keys.
Qed.

Lemma loop_iteration_fails w iv i name template cause s :
  closing s = false -> close_requested w i = false ->
  In name (dict_keys (progress_bars s)) ->
  In name (dict_keys (status_labels s)) ->
  is_ok (format template iv) = true ->
  generate_content w i
    (section_prompt iv (Some (citations s)) (name, template)) = Raise cause ->
  exists s',
    loop_iteration w iv i (name, template) s
    = (Raise (Exception ("Error generating " ++ name ++ ": "
                         ++ str_of_exn cause)%string), s')
    /\ section_status name s' = Some ("Failed", 0%Q)
    /\ (forall n, n <> name -> section_status n s' = section_status n s)
    /\ prompts_sent s'
       = prompts_sent s
         ++ [section_prompt iv (Some (citations s)) (name, template)].
Proof.
  intros Hclosing Hreq Hbar Hlabel Hfmt Hgen.
  unfold section_prompt in *. cbn [fst snd] in *.
  destruct (is_ok_Ok _ (build_context_total name iv (Some (citations s))))
    as [context Hctx].
  destruct (is_ok_Ok _ Hfmt) as [body Hbody].
  rewrite Hctx, Hbody in Hgen |- *.
  unfold loop_iteration, poll_closing. step_monad.
  rewrite Hclosing, Hreq. cbn [orb].
  rewrite update_progress_present by assumption.
  unfold try_except, generate_section, call_model. step_monad.
  rewrite Hctx, Hbody, Hgen.
  unfold section_failed. step_monad.
  rewrite update_progress_present
    by (step_monad; rewrite dict_keys_set_present; assumption).
  step_monad. eexists. split; [reflexivity|].
  split; [apply section_status_set|].
  split; [|reflexivity].
  intros n Hne. unfold section_status. step_monad.
  now rewrite !dict_get_set_other.
Qed.

Lemma section_prompt_other_sections iv (cits : CitationMap) sec :
  ~ In (fst sec) (dict_keys cits) ->
  section_prompt iv (Some cits) sec = prompt_without_citations iv sec.
Proof.
  intros H. unfold prompt_without_citations, section_prompt.
  rewrite build_context_ignores_other_sections; [reflexivity|].
  now apply dict_in_false.
Qed.

(** ** A prefix of sections that all complete *)

Lemma dict_in_keys {V} (k : string) (d : dict V) :
  dict_in k d = true -> In k (dict_keys d).
Proof.
  unfold dict_in. destruct (dict_get k d) eqn:E; [|discriminate].
  intros _. eapply dict_get_In_keys; eauto.
Qed.

Lemma widget_keys_loop_invariant bars labels :
  loop_invariant (widget_keys bars labels).
Proof.
  unfold loop_invariant.
  split; [|split; [|split; [|split]]]; try (intros; assumption).
  intros n st p s [Hb Hl]. unfold update_progress, widget_keys.
  destruct (dict_in n (progress_bars s)) eqn:Ein; auto.
  apply dict_in_keys in Ein.
  destruct (dict_get n (status_labels s)) eqn:Eget;
    cbn [snd progress_bars status_labels set_progress];
    rewrite ?dict_keys_set_present; eauto using dict_get_In_keys.
Qed.

Section Prefix.
Context (w : World) (iv : dict string).

Lemma generate_sections_prefix (done rest : list (string * string)) :
  forall (i : nat) (s : App),
    NoDup (map fst done) ->
    closing s = false ->
    (forall n, In n (map fst done) ->
               In n (dict_keys (progress_bars s))
               /\ In n (dict_keys (status_labels s))) ->
    (forall j, j < List.length done -> close_requested w (i + j) = false) ->
    (forall j sec, nth_error done j = Some sec ->
                   is_ok (generate_content w (i + j)
                            (prompt_without_citations iv sec)) = true) ->
    Forall (fun sec => is_ok (format (snd sec) iv) = true) done ->
    (forall n, In n (map fst done) -> ~ In n (dict_keys (citations s))) ->
    exists s',
      generate_sections w iv i done s = (Ok tt, s')
      /\ generate_sections w iv i (done ++ rest) s
         = generate_sections w iv (i + List.length done) rest s'
      /\ closing s' = false
      /\ (forall n, In n (map fst done) ->
                    section_status n s' = Some ("Complete", 1%Q))
      /\ (forall n, ~ In n (map fst done) ->
                    section_status n s' = section_status n s)
      /\ prompts_sent s'
         = prompts_sent s ++ map (prompt_without_citations iv) done
      /\ (forall n, In n (dict_keys (citations s')) ->
                    In n (map fst done) \/ In n (dict_keys (citations s))).
Proof.
  induction done as [|[name template] done IH];
    intros i s Hnodup Hclosing Hkeys Hreq Hgen Hfmt Hcit.
  - exists s. cbn [generate_sections app List.length map].
    rewrite Nat.add_0_r, app_nil_r. repeat split; auto.
    intros n [].
  - cbn [map fst] in Hnodup, Hkeys, Hcit. apply NoDup_cons_iff in Hnodup.
    destruct Hnodup as [Hfresh Hnodup].
    apply Forall_cons_iff in Hfmt. destruct Hfmt as [Hfmt1 Hfmt].
    destruct (Hkeys name (or_introl eq_refl)) as [Hbar Hlabel].
    assert (Hprompt : section_prompt iv (Some (citations s)) (name, template)
                      = prompt_without_citations iv (name, template)).
    { apply section_prompt_other_sections. apply Hcit. now left. }
    destruct (loop_iteration_completes w iv i name template s)
      as (s1 & Hstep & Hclosing1 & Hdone1 & Hother1 & Hprompt1 & Hcit1); auto.
    { rewrite <- (Nat.add_0_r i). apply Hreq. cbn. lia. }
    { rewrite Hprompt, <- (Nat.add_0_r i). now apply Hgen. }
    assert (Hs1 : s1 = snd (loop_iteration w iv i (name, template) s))
      by now rewrite Hstep.
    assert (Hwk : widget_keys (dict_keys (progress_bars s))
                              (dict_keys (status_labels s)) s1).
    { rewrite Hs1. apply stable_loop_iteration.
      - apply widget_keys_loop_invariant.
      - now split. }
    destruct Hwk as [Hkb Hkl].
    destruct (IH (S i) s1) as (s' & Hrun & Happ & Hclosing' & Hdone' & Hother'
                               & Hprompts' & Hcit'); auto.
    { intros n Hn. rewrite Hkb, Hkl. apply Hkeys. now right. }
    { intros j Hj. rewrite Nat.add_succ_comm. apply Hreq. cbn. lia. }
    { intros j sec Hj. rewrite Nat.add_succ_comm. now apply Hgen. }
    { intros n Hn Hin. destruct (Hcit1 n Hin) as [->|Hold]; [tauto|].
      now apply (Hcit n (or_intror Hn)). }
    exists s'. cbn [generate_sections app List.length].
    unfold bind. rewrite Hstep.
    rewrite Nat.add_succ_r, <- Nat.add_succ_l.
    split; [exact Hrun|]. split; [exact Happ|]. split; [exact Hclosing'|].
    split.
    { cbn [map fst]. intros n [<-|Hn]; [|now apply Hdone'].
      now rewrite (Hother' _ Hfresh). }
    split.
    { intros n Hn. cbn [map fst In] in Hn.
      rewrite Hother' by tauto. apply Hother1. intros ->. tauto. }
    split.
    { rewrite Hprompts', Hprompt1, Hprompt, <- app_assoc. reflexivity. }
    intros n Hn. cbn [map fst In].
    destruct (Hcit' n Hn) as [Hin|Hin]; [tauto|].
    destruct (Hcit1 n Hin) as [->|Hold]; tauto.
Qed.

End Prefix.

(** ** Starting a run *)

Lemma dict_get_map_values {V W} (g : V -> W) (k : string) (d : dict V) :
  dict_get k (map (fun kv => (fst kv, g (snd kv))) d)
  = option_map g (dict_get k d).
Proof.
  induction d as [|[k' v] d IH]; cbn [map dict_get fst snd]; auto.
  destruct (String.eqb k' k); auto.
Qed.

Lemma dict_keys_map_values {V W} (g : V -> W) (d : dict V) :
  dict_keys (map (fun kv => (fst kv, g (snd kv))) d) = dict_keys d.
Proof.
  unfold dict_keys. rewrite map_map. reflexivity.
Qed.

(** The dictionaries of a ready window, entry by entry. *)
Lemma ui_ready_shape s :
  ui_ready s ->
  exists q1 q2 q3 q4 q5 q6 l1 l2 l3 l4 l5 l6,
    progress_bars s
    = [("Abstract", q1); ("Introduction", q2); ("Methodology", q3);
       ("Results", q4); ("Discussion", q5); ("Conclusion", q6)]
    /\ status_labels s
       = [("Abstract", l1); ("Introduction", l2); ("Methodology", l3);
          ("Results", l4); ("Discussion", l5); ("Conclusion", l6)].
Proof.
  intros (_ & Hb & Hl). unfold dict_keys, section_names in Hb, Hl.
  destruct (progress_bars s) as [|[k1 q1] [|[k2 q2] [|[k3 q3] [|[k4 q4]
    [|[k5 q5] [|[k6 q6] [|]]]]]]]; try discriminate Hb.
  destruct (status_labels s) as [|[m1 l1] [|[m2 l2] [|[m3 l3] [|[m4 l4]
    [|[m5 l5] [|[m6 l6] [|]]]]]]]; try discriminate Hl.
  cbn in Hb, Hl.
  injection Hb as -> -> -> -> -> ->. injection Hl as -> -> -> -> -> ->.
  now exists q1, q2, q3, q4, q5, q6, l1, l2, l3, l4, l5, l6.
Qed.

Lemma in_section_names n :
  In n section_names ->
  n = "Abstract" \/ n = "Introduction" \/ n = "Methodology"
  \/ n = "Results" \/ n = "Discussion" \/ n = "Conclusion".
Proof.
  cbn. intuition.
Qed.

Lemma start_generation_fresh s :
  ui_ready s -> current_task s = None ->
  start_generation s = (Ok tt, started s).
Proof.
  intros Hready Htask.
  destruct (ui_ready_shape s Hready)
    as (q1 & q2 & q3 & q4 & q5 & q6 & l1 & l2 & l3 & l4 & l5 & l6 & Hb & Hl).
  destruct s as [cits task cl inp bars labels texts md mdvar button label
                 fs prompts history].
  cbn [current_task progress_bars status_labels] in Htask, Hb, Hl.
  subst task bars labels. vm_compute. reflexivity.
Qed.

Lemma started_ready s : ui_ready s -> ui_ready (started s).
Proof.
  intros (Hin & _). unfold ui_ready, started.
  cbn [inputs progress_bars status_labels].
  rewrite (dict_keys_map_values (fun e => mkEntry (entry_text e) "disabled")).
  repeat split; auto.
Qed.

Lemma started_pending s n :
  In n section_names -> section_status n (started s) = Some ("Pending", 0%Q).
Proof.
  intros Hn. apply in_section_names in Hn.
  repeat (destruct Hn as [->|Hn]; [reflexivity|]). now subst n.
Qed.

Lemma started_field_text s f : field_text f (started s) = field_text f s.
Proof.
  unfold field_text, started. cbn [inputs].
  rewrite (dict_get_map_values (fun e => mkEntry (entry_text e) "disabled")).
  now destruct (dict_get f (inputs s)).
Qed.

Lemma started_blank_fields s : blank_fields (started s) = blank_fields s.
Proof.
  unfold blank_fields. apply filter_ext. intros f.
  now rewrite started_field_text.
Qed.

(** ** Validation *)

Lemma input_text_present field s :
  In field (dict_keys (inputs s)) ->
  input_text field s = (Ok (field_text field s), s).
Proof.
  intros H. unfold input_text, field_text.
  now destruct (dict_get_Some_In _ _ H) as [e ->].
Qed.

Lemma validate_fields_spec fields s :
  (forall f, In f fields -> In f (dict_keys (inputs s))) ->
  validate_fields fields s
  = (Ok match filter (fun f => is_blank (field_text f s)) fields with
        | [] => (true, EmptyString)
        | f :: _ => (false, (title f ++ " is required")%string)
        end, s).
Proof.
  induction fields as [|f fields IH]; intros Hin; [reflexivity|].
  cbn [validate_fields filter]. unfold bind.
  rewrite input_text_present by (apply Hin; now left).
  fold (is_blank (field_text f s)).
  destruct (is_blank (field_text f s)); [reflexivity|].
  apply IH. intros g Hg. apply Hin. now right.
Qed.

Lemma validate_inputs_spec s :
  ui_ready s ->
  validate_inputs s
  = (Ok match blank_fields s with
        | [] => (true, EmptyString)
        | f :: _ => (false, (title f ++ " is required")%string)
        end, s).
Proof.
  intros (Hin & _). unfold validate_inputs, blank_fields.
  apply validate_fields_spec. now rewrite Hin.
Qed.

(** ** Reachable states *)

Lemma ui_ready_loop_invariant : loop_invariant ui_ready.
Proof.
  unfold loop_invariant.
  split; [|split; [|split; [|split]]]; try (intros; assumption).
  intros n st p s (Hin & Hb & Hl).
  destruct (widget_keys_loop_invariant section_names section_names)
    as (_ & _ & _ & _ & Hprog).
  destruct (Hprog n st p s (conj Hb Hl)) as [Hb' Hl'].
  repeat split; auto.
  unfold update_progress.
  destruct (dict_in n (progress_bars s)); [|exact Hin].
  now destruct (dict_get n (status_labels s)).
Qed.

Lemma ui_ready_save_invariant : save_invariant ui_ready.
Proof.
  unfold save_invariant. split; [|split]; intros; assumption.
Qed.

Lemma toggle_inputs_ready enabled s :
  ui_ready s -> ui_ready (toggle_inputs enabled s).
Proof.
  intros (Hin & Hb & Hl). unfold ui_ready, toggle_inputs.
  cbn [inputs progress_bars status_labels set_inputs set_generate_button].
  rewrite (dict_keys_map_values
             (fun e => mkEntry (entry_text e)
                               (if enabled then "normal" else "disabled"))).
  auto.
Qed.

Lemma generate_paper_ready w s :
  ui_ready s -> ui_ready (snd (generate_paper w s)).
Proof.
  intros Hready. unfold generate_paper, release.
  apply stable_try_finally; [| |exact Hready].
  - apply stable_guarded_generation.
    + apply ui_ready_loop_invariant.
    + apply ui_ready_save_invariant.
  - apply stable_bind.
    + apply stable_modify. apply toggle_inputs_ready.
    + intros _. apply stable_modify. intros s' H'. exact H'.
Qed.

Lemma start_generation_ready s :
  ui_ready s -> ui_ready (snd (start_generation s)).
Proof.
  intros Hready. destruct (current_task s) eqn:Htask.
  - unfold start_generation. now rewrite Htask.
  - rewrite start_generation_fresh by assumption. now apply started_ready.
Qed.

(** Whatever happens to the window after [setup_ui], its entries, bars and
    labels stay in place: the states the run theorems speak about are the
    ones the program reaches. *)
Lemma ui_ready_reachable (actions : list action) :
  forall s, ui_ready s -> ui_ready (perform_all actions s).
Proof.
  unfold perform_all.
  induction actions as [|a actions IH]; intros s H; [exact H|].
  cbn [fold_left]. apply IH.
  destruct a as [|w|timestamp texts|checked|field text|]; cbn [perform].
  - now apply start_generation_ready.
  - now apply generate_paper_ready.
  - apply stable_save_document; [apply ui_ready_save_invariant | exact H].
  - exact H.
  - unfold type_input.
    destruct (dict_get field (inputs s)) as [e|] eqn:E; [|exact H].
    destruct H as (Hin & Hb & Hl). unfold ui_ready.
    cbn [inputs progress_bars status_labels set_inputs].
    rewrite dict_keys_set_present by (eapply dict_get_In_keys; eauto).
    auto.
  - exact H.
Qed.

(** ** A run with valid inputs *)

Lemma input_values_started s :
  input_values_of (started s) = input_values_of s.
Proof.
  unfold input_values_of. now rewrite !started_field_text.
Qed.

Lemma generate_paper_body_valid w s :
  ui_ready s -> blank_fields s = [] ->
  has_nul (field_text "api_key" s) = false ->
  generate_paper_body w s
  = bind (generate_sections w (input_values_of s) 0 sections)
         (fun _ => save_unless_closing w) s.
Proof.
  intros Hready Hblank Hkey. pose proof Hready as (Hin & _).
  unfold generate_paper_body. unfold bind at 1.
  rewrite validate_inputs_spec, Hblank by assumption. cbn [fst negb].
  unfold bind at 1. rewrite input_text_present by (rewrite Hin; cbn; tauto).
  unfold bind at 1, lift, environ_set. rewrite Hkey.
  do 3 (unfold bind at 1;
        rewrite input_text_present by (rewrite Hin; cbn; tauto)).
  reflexivity.
Qed.

(** The environment refuses an API key with a NUL character: the [try]
    block ends there, before any section is looked at. *)
Lemma generate_paper_body_nul w s :
  ui_ready s -> blank_fields s = [] ->
  has_nul (field_text "api_key" s) = true ->
  generate_paper_body w s = (Raise (ValueError "embedded null byte"), s).
Proof.
  intros Hready Hblank Hkey. pose proof Hready as (Hin & _).
  unfold generate_paper_body. unfold bind at 1.
  rewrite validate_inputs_spec, Hblank by assumption. cbn [fst negb].
  unfold bind at 1. rewrite input_text_present by (rewrite Hin; cbn; tauto).
  unfold bind at 1, lift, environ_set. rewrite Hkey. reflexivity.
Qed.

Lemma generate_paper_body_blank w s field others :
  ui_ready s -> blank_fields s = field :: others ->
  generate_paper_body w s
  = (Ok tt, update_status_label (title field ++ " is required")%string true s).
Proof.
  intros Hready Hblank.
  unfold generate_paper_body. unfold bind at 1.
  rewrite validate_inputs_spec, Hblank by assumption. reflexivity.
Qed.

Lemma section_names_nodup : NoDup section_names.
Proof.
  cbn. repeat constructor; cbn; intuition discriminate.
Qed.

Section LoopFrame.
Context (w : World) (iv : dict string).

Lemma loop_keeps_files i secs s :
  files (snd (generate_sections w iv i secs s)) = files s.
Proof.
  apply (stable_generate_sections (fun s' => files s' = files s)); auto.
  now apply field_loop_invariant.
Qed.

Lemma loop_keeps_history i secs s :
  status_history (snd (generate_sections w iv i secs s)) = status_history s.
Proof.
  apply (stable_generate_sections
           (fun s' => status_history s' = status_history s)); auto.
  now apply field_loop_invariant.
Qed.

Lemma loop_keeps_label i secs s :
  status_label (snd (generate_sections w iv i secs s)) = status_label s.
Proof.
  apply (stable_generate_sections
           (fun s' => status_label s' = status_label s)); auto.
  now apply field_loop_invariant.
Qed.

Lemma iteration_keeps_files i sec s :
  files (snd (loop_iteration w iv i sec s)) = files s.
Proof.
  apply (stable_loop_iteration (fun s' => files s' = files s)); auto.
  now apply field_loop_invariant.
Qed.

Lemma iteration_keeps_history i sec s :
  status_history (snd (loop_iteration w iv i sec s)) = status_history s.
Proof.
  apply (stable_loop_iteration
           (fun s' => status_history s' = status_history s)); auto.
  now apply field_loop_invariant.
Qed.

End LoopFrame.

Lemma NoDup_app_disjoint {A} (l1 l2 : list A) :
  NoDup (l1 ++ l2) -> forall a, In a l1 -> In a l2 -> False.
Proof.
  induction l1 as [|x l1 IH]; cbn; intros Hnd a H1 H2; [tauto|].
  apply NoDup_cons_iff in Hnd. destruct Hnd as [Hx Hnd].
  destruct H1 as [->|H1]; [|eauto].
  apply Hx, in_app_iff. now right.
Qed.

(** The sections before a given one all complete, seen from a run that has
    just started. *)
Lemma started_prefix w s done rest :
  ui_ready s -> closing s = false ->
  sections = done ++ rest ->
  (forall i, i < List.length done -> close_requested w i = false) ->
  (forall i sec, nth_error done i = Some sec ->
                 is_ok (generate_content w i
                          (prompt_without_citations (input_values_of s) sec))
                 = true) ->
  exists s2,
    generate_sections w (input_values_of s) 0 done (started s) = (Ok tt, s2)
    /\ generate_sections w (input_values_of s) 0 sections (started s)
       = generate_sections w (input_values_of s) (List.length done) rest s2
    /\ closing s2 = false
    /\ widget_keys section_names section_names s2
    /\ (forall n, In n (map fst done) ->
                  section_status n s2 = Some ("Complete", 1%Q))
    /\ (forall n, In n (map fst rest) ->
                  section_status n s2 = Some ("Pending", 0%Q))
    /\ prompts_sent s2
       = prompts_sent s
         ++ map (prompt_without_citations (input_values_of s)) done
    /\ citations_within (map fst done) s2
    /\ files s2 = files s
    /\ status_history s2
       = status_history s ++ [("Generating paper...", false)]
    /\ status_label s2 = ("Generating paper...", "white").
Proof.
  intros Hready Hclosing Hsplit Hreq Hgen.
  pose proof section_names_nodup as Hnodup.
  unfold section_names in Hnodup. rewrite Hsplit, map_app in Hnodup.
  assert (Hnames : forall n, In n (map fst done) \/ In n (map fst rest) ->
                             In n section_names).
  { intros n Hn. unfold section_names. rewrite Hsplit, map_app.
    now apply in_app_iff. }
  destruct (generate_sections_prefix w (input_values_of s) done rest 0 (started s))
    as (s2 & Hrun & Happ & Hclosing2 & Hdone & Hother & Hprompts & Hcits).
  - now apply NoDup_app_remove_r in Hnodup.
  - exact Hclosing.
  - intros n Hn. split; apply Hnames; now left.
  - exact Hreq.
  - exact Hgen.
  - apply Forall_forall. intros sec Hsec. apply format_section_ok.
    rewrite Hsplit. apply in_app_iff. now left.
  - intros n _ [].
  - exists s2. rewrite Hsplit at 1.
    assert (Hs2 : s2 = snd (generate_sections w (input_values_of s) 0 done
                              (started s))) by now rewrite Hrun.
    split; [exact Hrun|]. split; [exact Happ|]. split; [exact Hclosing2|].
    split.
    { rewrite Hs2. apply stable_generate_sections.
      - apply widget_keys_loop_invariant.
      - now split. }
    split; [exact Hdone|].
    split.
    { intros n Hn. rewrite Hother.
      - apply started_pending. apply Hnames. now right.
      - intros Hn'. exact (NoDup_app_disjoint _ _ Hnodup n Hn' Hn). }
    split; [exact Hprompts|].
    split.
    { intros n Hn. destruct (Hcits n Hn) as [Hin|[]]. exact Hin. }
    split; [rewrite Hs2, loop_keeps_files; reflexivity|].
    split.
    + rewrite Hs2, loop_keeps_history. reflexivity.
    + rewrite Hs2, loop_keeps_label. reflexivity.
Qed.

(** ** Failure and cancellation of a run *)

Lemma section_status_frame n s s' :
  status_labels s' = status_labels s -> progress_bars s' = progress_bars s ->
  section_status n s' = section_status n s.
Proof. unfold section_status. now intros -> ->. Qed.

(** Claim C2: in a run that reaches the section loop (the inputs are not
    blank and the API key, having no NUL character, is accepted by the
    environment), when the generation call of one section fails after those
    of all earlier sections have succeeded, the earlier sections stay Complete
    with progress 1, the failing one is Failed with progress 0, the later
    ones are Pending as the start left them, one prompt was sent per
    section up to the failing one and none after it, no file is written,
    and the only error reported wraps the cause with the section's name. *)
Theorem generation_failure_aborts_run :
  forall (w : World) (s : App) (done rest : list (string * string))
         (name template : string) (cause : exn),
    ui_ready s -> current_task s = None -> closing s = false ->
    blank_fields s = [] ->
    has_nul (field_text "api_key" s) = false ->
    sections = done ++ (name, template) :: rest ->
    (forall i, i <= List.length done -> close_requested w i = false) ->
    (forall i sec, nth_error done i = Some sec ->
                   is_ok (generate_content w i
                            (prompt_without_citations (input_values_of s) sec))
                   = true) ->
    generate_content w (List.length done)
      (prompt_without_citations (input_values_of s) (name, template))
    = Raise cause ->
    let s' := run w s in
    let message :=
      ("Error: Error generating " ++ name ++ ": " ++ str_of_exn cause)%string in
    (forall n, In n (map fst done) ->
               section_status n s' = Some ("Complete", 1%Q))
    /\ section_status name s' = Some ("Failed", 0%Q)
    /\ (forall n, In n (map fst rest) ->
                  section_status n s' = Some ("Pending", 0%Q))
    /\ prompts_sent s'
       = prompts_sent s
         ++ map (prompt_without_citations (input_values_of s))
                (done ++ [(name, template)])
    /\ files s' = files s
    /\ status_history s'
       = status_history s
         ++ [("Generating paper...", false); (message, true)]
    /\ status_label s' = (message, "red")
    /\ current_task s' = None.
Proof.
  intros w s done rest name template cause
         Hready Htask Hclosing Hblank Hkey Hsplit Hreq Hgen Hfail s' message.
  destruct (started_prefix w s done ((name, template) :: rest))
    as (s2 & _ & Happ & Hclosing2 & [Hkb Hkl] & Hdone & Hrest & Hprompts
        & Hcits & Hfiles & Hhistory & _); auto.
  { intros i Hi. apply Hreq. lia. }
  pose proof section_names_nodup as Hnodup.
  unfold section_names in Hnodup. rewrite Hsplit, map_app in Hnodup.
  cbn [map fst] in Hnodup, Hrest.
  assert (Hname : In name section_names).
  { unfold section_names. rewrite Hsplit, map_app. apply in_app_iff.
    right. now left. }
  assert (Hfresh : ~ In name (map fst done)).
  { intros Hin. apply (NoDup_app_disjoint _ _ Hnodup name Hin). now left. }
  assert (Hprompt : section_prompt (input_values_of s) (Some (citations s2))
                      (name, template)
                    = prompt_without_citations (input_values_of s)
                        (name, template)).
  { apply section_prompt_other_sections. intros Hin. now apply Hfresh, Hcits. }
  destruct (loop_iteration_fails w (input_values_of s) (List.length done)
              name template cause s2)
    as (s3 & Hstep & Hfailed & Hother & Hsent); auto.
  { now rewrite Hkb. }
  { now rewrite Hkl. }
  { apply (format_section_ok (name, template)).
    rewrite Hsplit. apply in_app_iff. right. now left. }
  { now rewrite Hprompt. }
  assert (Hs3 : s3 = snd (loop_iteration w (input_values_of s)
                            (List.length done) (name, template) s2))
    by now rewrite Hstep.
  assert (Hfinal : s' = set_current_task None
                         (toggle_inputs true
                            (update_status_label message true s3))).
  { subst s'. unfold run. rewrite start_generation_fresh by assumption.
    cbn [snd]. unfold generate_paper, guarded_generation, try_finally, try_except.
    rewrite generate_paper_body_valid
      by (try apply started_ready; try rewrite started_blank_fields;
          try rewrite started_field_text; assumption).
    rewrite input_values_started. unfold bind at 1. rewrite Happ.
    cbn [generate_sections]. unfold bind at 1. rewrite Hstep.
    reflexivity. }
  rewrite Hfinal. clear Hfinal s'.
  split.
  { intros n Hn.
    rewrite (section_status_frame n s3) by reflexivity.
    rewrite Hother; [now apply Hdone|].
    now intros ->. }
  split.
  { now rewrite (section_status_frame name s3) by reflexivity. }
  split.
  { intros n Hn.
    rewrite (section_status_frame n s3) by reflexivity.
    rewrite Hother; [apply Hrest; now right|].
    intros ->. apply NoDup_app_remove_l, NoDup_cons_iff in Hnodup. tauto. }
  split.
  { unfold toggle_inputs. step_monad.
    now rewrite Hsent, Hprompts, Hprompt, map_app, app_assoc. }
  split.
  { unfold toggle_inputs. step_monad.
    now rewrite Hs3, iteration_keeps_files. }
  split.
  { unfold toggle_inputs. step_monad.
    rewrite Hs3, iteration_keeps_history, Hhistory, <- app_assoc.
    reflexivity. }
  split; reflexivity.
Qed.

(** Claim C3: in a run that reaches the section loop (the inputs are not
    blank and the API key, having no NUL character, is accepted by the
    environment), when [closing] is set after the sections of [done] have
    been started and before the flag is read for the next one, each section of
    [done] completes (the request is seen at the next section boundary
    only), the remaining sections stay Pending and are never Failed, no
    prompt is sent for them, no file is written and nothing is reported
    after the start message. *)
Theorem cancellation_stops_at_section_boundary :
  forall (w : World) (s : App) (done rest : list (string * string)),
    ui_ready s -> current_task s = None -> closing s = false ->
    blank_fields s = [] ->
    has_nul (field_text "api_key" s) = false ->
    sections = done ++ rest ->
    (forall i, i < List.length done -> close_requested w i = false) ->
    close_requested w (List.length done) = true ->
    (forall i sec, nth_error done i = Some sec ->
                   is_ok (generate_content w i
                            (prompt_without_citations (input_values_of s) sec))
                   = true) ->
    let s' := run w s in
    (forall n, In n (map fst done) ->
               section_status n s' = Some ("Complete", 1%Q))
    /\ (forall n, In n (map fst rest) ->
                  section_status n s' = Some ("Pending", 0%Q))
    /\ prompts_sent s'
       = prompts_sent s
         ++ map (prompt_without_citations (input_values_of s)) done
    /\ files s' = files s
    /\ status_history s'
       = status_history s ++ [("Generating paper...", false)]
    /\ status_label s' = ("Generating paper...", "white")
    /\ current_task s' = None.
Proof.
  intros w s done rest Hready Htask Hclosing Hblank Hkey Hsplit Hreq Hset Hgen
         s'.
  destruct (started_prefix w s done rest)
    as (s2 & _ & Happ & Hclosing2 & _ & Hdone & Hrest & Hprompts
        & _ & Hfiles & Hhistory & Hlabel); auto.
  assert (Hfinal : s' = set_current_task None
                         (toggle_inputs true (set_closing true s2))).
  { subst s'. unfold run. rewrite start_generation_fresh by assumption.
    cbn [snd]. unfold generate_paper, guarded_generation, try_finally, try_except.
    rewrite generate_paper_body_valid
      by (try apply started_ready; try rewrite started_blank_fields;
          try rewrite started_field_text; assumption).
    rewrite input_values_started. unfold bind at 1. rewrite Happ.
    destruct rest as [|sec rest].
    - cbn [generate_sections]. unfold ret at 1.
      unfold save_unless_closing, poll_closing. step_monad.
      replace (List.length sections) with (List.length done)
        by now rewrite Hsplit, app_nil_r.
      rewrite Hset, orb_true_r. reflexivity.
    - cbn [generate_sections]. unfold bind at 1.
      rewrite loop_iteration_breaks by (rewrite Hset; apply orb_true_r).
      reflexivity. }
  rewrite Hfinal. clear Hfinal s'.
  split.
  { intros n Hn. rewrite (section_status_frame n s2) by reflexivity. auto. }
  split.
  { intros n Hn. rewrite (section_status_frame n s2) by reflexivity. auto. }
  split; [exact Hprompts|].
  split; [exact Hfiles|].
  split; [exact Hhistory|].
  split; [exact Hlabel | reflexivity].
Qed.

(** ** Validation *)

(** Claim C5, as the code has it: with a blank required input the start
    request still marks the run active (handle set, start message shown);
    the worker then reports the first blank field as an error, sends no
    prompt, leaves every section Pending, writes no file and releases the
    handle. *)
Theorem blank_input_is_reported_by_the_worker :
  forall (w : World) (s : App) (field : string) (others : list string),
    ui_ready s -> current_task s = None ->
    blank_fields s = field :: others ->
    let s1 := snd (start_generation s) in
    let s' := snd (generate_paper w s1) in
    let message := (title field ++ " is required")%string in
    running s1
    /\ status_label s1 = ("Generating paper...", "white")
    /\ fst (generate_paper w s1) = Ok tt
    /\ prompts_sent s' = prompts_sent s
    /\ status_history s'
       = status_history s ++ [("Generating paper...", false); (message, true)]
    /\ status_label s' = (message, "red")
    /\ (forall n, In n section_names ->
                  section_status n s' = Some ("Pending", 0%Q))
    /\ files s' = files s
    /\ current_task s' = None.
Proof.
  intros w s field others Hready Htask Hblank s1 s' message.
  assert (Hs1 : s1 = started s)
    by (subst s1; now rewrite start_generation_fresh).
  assert (Hrun : generate_paper w (started s)
                 = (Ok tt, set_current_task None
                             (toggle_inputs true
                                (update_status_label message true (started s))))).
  { unfold generate_paper, guarded_generation, try_finally, try_except.
    rewrite (generate_paper_body_blank w (started s) field others)
      by (try apply started_ready; try rewrite started_blank_fields;
          assumption).
    reflexivity. }
  subst s'. rewrite Hs1, Hrun. cbn [fst snd].
  split; [discriminate|].
  split; [reflexivity|].
  split; [reflexivity|].
  split; [reflexivity|].
  split.
  { unfold toggle_inputs, started. step_monad. now rewrite <- app_assoc. }
  split; [reflexivity|].
  split.
  { intros n Hn. rewrite (section_status_frame n (started s)) by reflexivity.
    now apply started_pending. }
  split; reflexivity.
Qed.

Lemma filled_app_ready a b c d : ui_ready (filled_app a b c d).
Proof. repeat split. Qed.

Lemma blank_input_is_reported_by_the_worker_witness :
  let w := mkWorld (fun _ _ => Ok "Text.") (fun _ => false) "20240101_120000"
                   true in
  let s := filled_app "key" "Sleep and memory" EmptyString "   " in
  let s1 := snd (start_generation s) in
  let s' := snd (generate_paper w s1) in
  blank_fields s = ["methodology"; "results"]
  /\ running s1
  /\ prompts_sent s' = []
  /\ status_history s'
     = [("Generating paper...", false); ("Methodology is required", true)]
  /\ files s' = []
  /\ current_task s' = None.
Proof.
  intros w s s1 s'.
  destruct (blank_input_is_reported_by_the_worker w s "methodology" ["results"])
    as (Hrun & _ & _ & Hprompts & Hhistory & _ & _ & Hfiles & Htask).
  - apply filled_app_ready.
  - reflexivity.
  - reflexivity.
  - repeat split; assumption.
Defined.

(** Claim C5 as worded fails: here the topic is blank, yet the start
    request makes the run active and shows the start message; the
    validation failure comes from the worker afterwards. *)
Lemma blank_input_run_is_started :
  let w := mkWorld (fun _ _ => Ok "Text.") (fun _ => false) "20240101_120000"
                   true in
  let s := filled_app "key" "   " "Survey" "Positive" in
  let s1 := snd (start_generation s) in
  blank_fields s = ["topic"]
  /\ current_task s = None
  /\ running s1
  /\ current_task s1 = Some WorkerThread
  /\ status_history s1 = [("Generating paper...", false)]
  /\ status_history (snd (generate_paper w s1))
     = [("Generating paper...", false); ("Topic is required", true)].
Proof.
  cbv zeta. repeat split. discriminate.
Qed.

(** ** Citations and contexts *)

(** In a run that completes, the prompts sent are those built without any
    citation, whatever the generated texts contain: when the context of a
    section is built, the citation map holds keys of earlier sections
    only, and [build_context] looks up the current section's key. *)
Lemma completed_run_prompts_without_citations w s :
  ui_ready s -> current_task s = None -> closing s = false ->
  blank_fields s = [] ->
  has_nul (field_text "api_key" s) = false ->
  (forall i, i < List.length sections -> close_requested w i = false) ->
  (forall i sec, nth_error sections i = Some sec ->
                 is_ok (generate_content w i
                          (prompt_without_citations (input_values_of s) sec))
                 = true) ->
  prompts_sent (run w s)
  = prompts_sent s ++ map (prompt_without_citations (input_values_of s)) sections.
Proof.
  intros Hready Htask Hclosing Hblank Hkey Hreq Hgen.
  destruct (started_prefix w s sections [])
    as (s2 & _ & Happ & _ & _ & _ & _ & Hprompts & _);
    [assumption | assumption | now rewrite app_nil_r
     | assumption | assumption |].
  unfold run. rewrite start_generation_fresh by assumption. cbn [snd].
  unfold generate_paper, guarded_generation, try_finally, try_except.
  rewrite generate_paper_body_valid
    by (try apply started_ready; try rewrite started_blank_fields;
        try rewrite started_field_text; assumption).
  rewrite input_values_started. unfold bind at 1. rewrite Happ.
  cbn [generate_sections]. unfold ret at 1.
  pose proof (stable_save_unless_closing
                (fun x => prompts_sent x = prompts_sent s2) w) as Hsave.
  specialize (Hsave (fun _ _ H => H)).
  specialize (Hsave (conj (fun _ _ H => H)
                          (conj (fun _ H => H) (fun _ _ _ H => H)))).
  specialize (Hsave s2 eq_refl).
  destruct (save_unless_closing w s2) as [[[]|e] s3]; cbn [snd] in Hsave;
    unfold report_error, release, toggle_inputs; step_monad;
    now rewrite Hsave.
Qed.

(** Claim C1, evaluated on a run: every reply cites (Smith, 2020), so after
    the Abstract the citation map holds that citation; the context built
    for the Introduction from that very map has an empty citation list,
    and the prompt sent for the Introduction is the one built without
    citations and does not contain the citation. *)
Theorem earlier_citations_do_not_reach_the_context :
  forall cpython_3_11 : bool,
  let w := mkWorld (fun _ _ => Ok "As shown before (Smith, 2020).")
                   (fun _ => false) "20240101_120000" cpython_3_11 in
  let s := filled_app "key" "T" "M" "R" in
  let after_abstract := [("Abstract", [("citation_0", "Smith, 2020")])] in
  let introduction := nth 1 sections (EmptyString, EmptyString) in
  let prompt := nth 1 (prompts_sent (run w s)) EmptyString in
  citations (extract_citations "As shown before (Smith, 2020)." "Abstract"
               (snd (start_generation s)))
  = after_abstract
  /\ build_context "Introduction" (input_values_of s) (Some after_abstract)
     = Ok ("Previously in the Abstract, we established the research focus on T "
           ++ nl
           ++ "            using M which yielded R. Include relevant citations: .")%string
  /\ dict_get "Abstract" (citations (run w s))
     = Some [("citation_0", "Smith, 2020")]
  /\ prompt = prompt_without_citations (input_values_of s) introduction
  /\ contains "Smith, 2020" prompt = false
  /\ section_status "Introduction" (run w s) = Some ("Complete", 1%Q).
Proof.
  intros cpython_3_11. cbv zeta. repeat split; vm_compute; reflexivity.
Qed.

(** ** The properties on concrete runs *)

Lemma start_generation_while_running_is_noop_witness :
  let s1 := snd (start_generation (filled_app "key" "T" "M" "R")) in
  running s1 /\ start_generation s1 = (Ok tt, s1).
Proof.
  intros s1.
  assert (Hrun : running s1) by (unfold running; vm_compute; discriminate).
  split; [exact Hrun|].
  exact (start_generation_while_running_is_noop s1 Hrun).
Defined.

Lemma generation_failure_aborts_run_witness :
  let w := mkWorld (fun i _ => if i =? 2
                               then Raise (KeyError "C:\temp")
                               else Ok "Text (Smith, 2020).")
                   (fun _ => false) "20240101_120000" true in
  let s' := run w (filled_app "key" "T" "M" "R") in
  section_status "Abstract" s' = Some ("Complete", 1%Q)
  /\ section_status "Introduction" s' = Some ("Complete", 1%Q)
  /\ section_status "Methodology" s' = Some ("Failed", 0%Q)
  /\ section_status "Results" s' = Some ("Pending", 0%Q)
  /\ section_status "Discussion" s' = Some ("Pending", 0%Q)
  /\ section_status "Conclusion" s' = Some ("Pending", 0%Q)
  /\ List.length (prompts_sent s') = 3
  /\ files s' = []
  /\ status_history s'
     = [("Generating paper...", false);
        ("Error: Error generating Methodology: 'C:\\temp'", true)].
Proof.
  intros w s'.
  destruct (generation_failure_aborts_run w (filled_app "key" "T" "M" "R")
              (firstn 2 sections) (skipn 3 sections)
              "Methodology" (snd (nth 2 sections (EmptyString, EmptyString)))
              (KeyError "C:\temp"))
    as (Hdone & Hfailed & Hrest & Hsent & Hfiles & Hhistory & _).
  - apply filled_app_ready.
  - reflexivity.
  - reflexivity.
  - reflexivity.
  - reflexivity.
  - reflexivity.
  - intros i _. reflexivity.
  - intros [|[|i]] sec Hi; [reflexivity | reflexivity |].
    destruct i; discriminate Hi.
  - reflexivity.
  - split; [apply Hdone; cbn; tauto|].
    split; [apply Hdone; cbn; tauto|].
    split; [exact Hfailed|].
    split; [apply Hrest; cbn; tauto|].
    split; [apply Hrest; cbn; tauto|].
    split; [apply Hrest; cbn; tauto|].
    split; [fold s' in Hsent; rewrite Hsent; reflexivity|].
    split; [exact Hfiles | exact Hhistory].
Defined.

Lemma cancellation_stops_at_section_boundary_witness :
  let w := mkWorld (fun _ _ => Ok "Text (Smith, 2020).")
                   (fun i => i =? 2) "20240101_120000" true in
  let s' := run w (filled_app "key" "T" "M" "R") in
  section_status "Abstract" s' = Some ("Complete", 1%Q)
  /\ section_status "Introduction" s' = Some ("Complete", 1%Q)
  /\ section_status "Methodology" s' = Some ("Pending", 0%Q)
  /\ section_status "Results" s' = Some ("Pending", 0%Q)
  /\ section_status "Discussion" s' = Some ("Pending", 0%Q)
  /\ section_status "Conclusion" s' = Some ("Pending", 0%Q)
  /\ List.length (prompts_sent s') = 2
  /\ files s' = []
  /\ status_history s' = [("Generating paper...", false)].
Proof.
  intros w s'.
  destruct (cancellation_stops_at_section_boundary w
              (filled_app "key" "T" "M" "R")
              (firstn 2 sections) (skipn 2 sections))
    as (Hdone & Hrest & Hprompts & Hfiles & Hhistory & _).
  - apply filled_app_ready.
  - reflexivity.
  - reflexivity.
  - reflexivity.
  - reflexivity.
  - reflexivity.
  - intros [|[|i]] Hi; [reflexivity | reflexivity | cbn in Hi; lia].
  - reflexivity.
  - intros i sec _. reflexivity.
  - split; [apply Hdone; cbn; tauto|].
    split; [apply Hdone; cbn; tauto|].
    split; [apply Hrest; cbn; tauto|].
    split; [apply Hrest; cbn; tauto|].
    split; [apply Hrest; cbn; tauto|].
    split; [apply Hrest; cbn; tauto|].
    split; [fold s' in Hprompts; rewrite Hprompts; reflexivity|].
    split; [exact Hfiles | exact Hhistory].
Defined.

(** * Further properties *)

(** ** The scan for citations *)

Lemma findall_from_sound (s : string) :
  forall (skip : nat) (g : string),
    In g (findall_from skip s) ->
    g <> EmptyString /\ free_of rparen g /\ parenthesized_in g s.
Proof.
  induction s as [|c s IH]; intros skip g Hin; [destruct Hin|].
  assert (Hlater : forall k, In g (findall_from k s) ->
                             g <> EmptyString /\ free_of rparen g
                             /\ parenthesized_in g (String c s)).
  { intros k Hk. destruct (IH k g Hk) as (Hne & Hfree & a & b & ->).
    repeat split; auto. now exists (String c a), b. }
  cbn [findall_from] in Hin. destruct skip as [|k]; [|now apply (Hlater k)].
  destruct (match_here (String c s)) as [g0|] eqn:Em; [|now apply (Hlater 0)].
  destruct Hin as [<-|Hin]; [|now apply (Hlater (S (String.length g0)))].
  destruct (match_here_sound _ _ Em) as (after & Heq & Hne & Hfree).
  repeat split; auto. now exists EmptyString, after.
Qed.

(** Property X1: every citation the scan returns is non-empty, contains no
    closing parenthesis, and stands in the text between an opening and a
    closing parenthesis. *)
Theorem findall_citations_are_parenthesized :
  forall (text g : string),
    In g (findall text) ->
    g <> EmptyString /\ free_of rparen g /\ parenthesized_in g text.
Proof.
  intros text g. apply findall_from_sound.
Qed.

Lemma findall_citations_are_parenthesized_witness :
  In "(a" (findall "see ((a) and (b)")
  /\ "(a" <> EmptyString /\ free_of rparen "(a"
  /\ parenthesized_in "(a" "see ((a) and (b)".
Proof.
  assert (Hin : In "(a" (findall "see ((a) and (b)")) by (left; reflexivity).
  split; [exact Hin|].
  exact (findall_citations_are_parenthesized "see ((a) and (b)" "(a" Hin).
Defined.

Lemma findall_from_skips (x y : string) :
  findall_from (String.length x) (x ++ y) = findall_from 0 y.
Proof.
  induction x as [|c x IH]; [reflexivity|].
  cbn [String.length append findall_from]. exact IH.
Qed.

Lemma findall_from_no_paren (a rest : string) :
  free_of lparen a ->
  findall_from 0 (a ++ rest) = findall_from 0 rest.
Proof.
  induction a as [|c a IH]; intros Hfree; [reflexivity|].
  destruct Hfree as [Hc Hfree].
  change (String c a ++ rest)%string with (String c (a ++ rest)%string).
  cbn [findall_from match_here].
  apply Ascii.eqb_neq in Hc. rewrite Hc. now apply IH.
Qed.

(** Property X2: the scan passes over text without opening parenthesis,
    takes the first citation from the opening parenthesis to the next
    closing one, and resumes right after it. *)
Theorem findall_first_citation :
  forall (before g after : string),
    free_of lparen before -> g <> EmptyString -> free_of rparen g ->
    findall (before ++ String lparen (g ++ String rparen after))
    = g :: findall after.
Proof.
  intros a g b Ha Hne Hfree. unfold findall.
  rewrite findall_from_no_paren by assumption.
  cbn [findall_from match_here].
  rewrite Ascii.eqb_refl, match_group_complete, substring_prefix by assumption.
  f_equal.
  change (S (String.length g)) with (String.length (String rparen g)).
  replace (String.length (String rparen g))
    with (String.length (g ++ String rparen EmptyString)).
  - replace (g ++ String rparen b)%string
      with ((g ++ String rparen EmptyString) ++ b)%string.
    + apply findall_from_skips.
    + clear. induction g as [|c g IH]; [reflexivity|].
      cbn [append]. now rewrite IH.
  - clear. induction g as [|c g IH]; [reflexivity|].
    cbn [append String.length]. now rewrite IH.
Qed.

Lemma findall_first_citation_witness :
  findall "As shown (Smith, 2020), and again (Jones, 2021)."
  = "Smith, 2020" :: findall ", and again (Jones, 2021).".
Proof.
  apply (findall_first_citation "As shown " "Smith, 2020"
           ", and again (Jones, 2021).").
  - cbn. repeat split; discriminate.
  - discriminate.
  - cbn. repeat split; discriminate.
Defined.

(** ** What the extractor stores *)

Lemma append_inj_l (a x y : string) :
  (a ++ x)%string = (a ++ y)%string -> x = y.
Proof.
  induction a as [|c a IH]; cbn [append]; intros H; [exact H|].
  injection H as H. now apply IH.
Qed.

Lemma citation_key_inj (i j : nat) : citation_key i = citation_key j -> i = j.
Proof.
  unfold citation_key, str_of_nat. intros H.
  apply append_inj_l in H.
  apply Unsigned.to_uint_inj.
  assert (Hs : Some (Nat.to_uint i) = Some (Nat.to_uint j)).
  { rewrite <- !NilEmpty.usu. now rewrite H. }
  now injection Hs.
Qed.

Lemma dict_set_fresh {V} (k : string) (v : V) (d : dict V) :
  ~ In k (dict_keys d) -> dict_set k v d = d ++ [(k, v)].
Proof.
  induction d as [|[k' v'] d IH]; cbn [dict_set dict_keys map fst app In];
    intros Hk; [reflexivity|].
  destruct (String.eqb k' k) eqn:E.
  - apply String.eqb_eq in E. tauto.
  - f_equal. apply IH. tauto.
Qed.

Lemma number_citations_fresh (found : list string) :
  forall (i : nat) (acc : dict string),
    (forall j, i <= j -> ~ In (citation_key j) (dict_keys acc)) ->
    number_citations i found acc
    = acc ++ combine (map citation_key (seq i (List.length found))) found.
Proof.
  induction found as [|c found IH]; intros i acc Hfresh.
  - cbn. now rewrite app_nil_r.
  - cbn [number_citations List.length seq map combine].
    fold (citation_key i).
    rewrite dict_set_fresh by (apply Hfresh; lia).
    rewrite IH.
    + now rewrite <- app_assoc.
    + intros j Hj Hin. unfold dict_keys in Hin.
      rewrite map_app in Hin. apply in_app_iff in Hin.
      destruct Hin as [Hin|[Hin|[]]].
      * apply (Hfresh j); [lia | exact Hin].
      * cbn in Hin. apply citation_key_inj in Hin. lia.
Qed.

Lemma number_citations_numbered (found : list string) :
  number_citations 0 found [] = numbered found.
Proof.
  unfold numbered. rewrite number_citations_fresh; [reflexivity|].
  intros j _ [].
Qed.

Lemma numbered_values (found : list string) :
  dict_values (numbered found) = found.
Proof.
  unfold numbered, dict_values.
  assert (H : forall i, map snd (combine (map citation_key
                                            (seq i (List.length found))) found)
                        = found).
  { induction found as [|c found IH]; intros i; [reflexivity|].
    cbn [List.length seq map combine snd]. now rewrite IH. }
  apply H.
Qed.

(** Property X3: when the text has a parenthesized substring, the extractor
    replaces the section's entry by the citations found, numbered
    citation_0, citation_1, ... in the order of the text and without
    collision of keys; the entries of the other sections and the rest of
    the application object are as before. *)
Theorem extract_citations_stores_numbered_citations :
  forall (text section_name : string) (s : App),
    has_parenthesized text ->
    let s' := extract_citations text section_name s in
    dict_get section_name (citations s') = Some (numbered (findall text))
    /\ dict_values (numbered (findall text)) = findall text
    /\ findall text <> []
    /\ (forall other, other <> section_name ->
                      dict_get other (citations s')
                      = dict_get other (citations s))
    /\ s' = set_citations (citations s') s.
Proof.
  intros text name s Hp s'.
  assert (Hfound : findall text <> []) by now apply has_parenthesized_found.
  assert (Hs' : s' = set_citations
                       (dict_set name (numbered (findall text)) (citations s)) s).
  { subst s'. unfold extract_citations.
    rewrite <- number_citations_numbered.
    destruct (findall text); [congruence | reflexivity]. }
  rewrite Hs'. cbn [citations set_citations].
  split; [apply dict_get_set_same|].
  split; [apply numbered_values|].
  split; [exact Hfound|].
  split; [|reflexivity].
  intros other Hne. now apply dict_get_set_other.
Qed.

Lemma extract_citations_stores_numbered_citations_witness :
  let s := set_citations
             [("Abstract", [("citation_0", "old")]);
              ("Results", [("citation_0", "kept")])] init_app in
  let s' := extract_citations "New (a), (b) and (c)." "Abstract" s in
  dict_get "Abstract" (citations s')
  = Some [("citation_0", "a"); ("citation_1", "b"); ("citation_2", "c")]
  /\ dict_get "Results" (citations s') = Some [("citation_0", "kept")].
Proof.
  intros s s'.
  destruct (extract_citations_stores_numbered_citations
              "New (a), (b) and (c)." "Abstract" s)
    as (Hown & _ & _ & Hother & _).
  - apply (findall_from_found _ 0). intros H. vm_compute in H. discriminate H.
  - split; [exact Hown|].
    exact (Hother "Results" ltac:(discriminate)).
Defined.

(** ** Blank fields and validation *)

Lemma only_spaces_lstrip (s : string) :
  only_spaces (lstrip s) = only_spaces s.
Proof.
  induction s as [|c s IH]; [reflexivity|].
  cbn [lstrip only_spaces]. destruct (isspace c) eqn:E; [exact IH|].
  cbn [only_spaces]. now rewrite E.
Qed.

Lemma truthy_rstrip (s : string) :
  truthy (rstrip s) = negb (only_spaces s).
Proof.
  induction s as [|c s IH]; [reflexivity|].
  cbn [rstrip only_spaces].
  destruct (rstrip s) as [|r rs]; cbn [truthy] in IH.
  - destruct (only_spaces s); [|discriminate IH].
    rewrite andb_true_r. now destruct (isspace c).
  - destruct (only_spaces s); [discriminate IH|].
    now rewrite andb_false_r.
Qed.

(** A field is blank exactly when all its characters are whitespace. *)
Lemma is_blank_only_spaces (text : string) :
  is_blank text = only_spaces text.
Proof.
  unfold is_blank, strip.
  now rewrite truthy_rstrip, negb_involutive, only_spaces_lstrip.
Qed.

Lemma filter_nil_iff {A} (f : A -> bool) (l : list A) :
  filter f l = [] <-> forall x, In x l -> f x = false.
Proof.
  induction l as [|a l IH]; cbn [filter In]; [tauto|].
  destruct (f a) eqn:E; split.
  - discriminate.
  - intros H. specialize (H a (or_introl eq_refl)). congruence.
  - intros H x [<-|Hx]; [exact E | now apply IH].
  - intros H. apply IH. auto.
Qed.

(** Property X4: on a window that is set up, validation succeeds exactly
    when each of the four entries holds a character that is not
    whitespace; it never raises and never changes the object. *)
Theorem validate_inputs_accepts_exactly_filled_entries :
  forall s : App,
    ui_ready s ->
    snd (validate_inputs s) = s
    /\ is_ok (fst (validate_inputs s)) = true
    /\ (validate_inputs s = (Ok (true, EmptyString), s)
        <-> forall f, In f required_fields ->
                      only_spaces (field_text f s) = false).
Proof.
  intros s Hready. rewrite validate_inputs_spec by assumption.
  cbn [fst snd is_ok]. split; [reflexivity|]. split; [reflexivity|].
  assert (Hiff : blank_fields s = []
                 <-> forall f, In f required_fields ->
                               only_spaces (field_text f s) = false).
  { unfold blank_fields. rewrite filter_nil_iff.
    split; intros H f Hf; specialize (H f Hf);
      now rewrite is_blank_only_spaces in *. }
  rewrite <- Hiff.
  destruct (blank_fields s); split; intros H; congruence.
Qed.

Lemma validate_inputs_accepts_exactly_filled_entries_witness :
  validate_inputs (filled_app "key" " Sleep " "Survey" "x")
  = (Ok (true, EmptyString), filled_app "key" " Sleep " "Survey" "x")
  /\ validate_inputs (filled_app "key" "Sleep" "Survey" nl)
     <> (Ok (true, EmptyString), filled_app "key" "Sleep" "Survey" nl).
Proof.
  split.
  - destruct (validate_inputs_accepts_exactly_filled_entries
                (filled_app "key" " Sleep " "Survey" "x")
                (filled_app_ready _ _ _ _)) as (_ & _ & Hiff).
    apply Hiff. intros f Hf. cbn in Hf.
    repeat (destruct Hf as [<-|Hf]; [reflexivity|]). destruct Hf.
  - destruct (validate_inputs_accepts_exactly_filled_entries
                (filled_app "key" "Sleep" "Survey" nl)
                (filled_app_ready _ _ _ _)) as (_ & _ & Hiff).
    destruct Hiff as [Hfwd _]. intros H.
    specialize (Hfwd H "results" ltac:(cbn; tauto)). discriminate Hfwd.
Defined.

(** Property X5: validation reports the first entry, in the order api_key,
    topic, methodology, results, that holds only whitespace, under its
    title-cased name, whatever the later entries hold. *)
Theorem validate_inputs_names_first_blank_entry :
  forall (s : App) (before after : list string) (field : string),
    ui_ready s ->
    required_fields = before ++ field :: after ->
    (forall f, In f before -> only_spaces (field_text f s) = false) ->
    only_spaces (field_text field s) = true ->
    validate_inputs s
    = (Ok (false, (title field ++ " is required")%string), s).
Proof.
  intros s before after field Hready Hsplit Hbefore Hblank.
  rewrite validate_inputs_spec by assumption.
  unfold blank_fields. rewrite Hsplit, filter_app. cbn [filter].
  rewrite is_blank_only_spaces, Hblank.
  replace (filter _ before) with (@nil string); [reflexivity|].
  symmetry. apply filter_nil_iff. intros f Hf.
  rewrite is_blank_only_spaces. now apply Hbefore.
Qed.

Lemma validate_inputs_names_first_blank_entry_witness :
  validate_inputs (filled_app "key" "Sleep" "  " EmptyString)
  = (Ok (false, "Methodology is required"),
     filled_app "key" "Sleep" "  " EmptyString).
Proof.
  apply (validate_inputs_names_first_blank_entry
           (filled_app "key" "Sleep" "  " EmptyString)
           ["api_key"; "topic"] ["results"] "methodology").
  - apply filled_app_ready.
  - reflexivity.
  - intros f [<-|[<-|[]]]; reflexivity.
  - reflexivity.
Defined.

(** ** The markdown export, section by section *)

Lemma string_app_assoc (a b c : string) :
  ((a ++ b) ++ c)%string = (a ++ (b ++ c))%string.
Proof.
  induction a as [|x a IH]; [reflexivity|]. cbn [append]. now rewrite IH.
Qed.

Lemma join_app (sep : string) (l1 l2 : list string) :
  l1 <> [] -> l2 <> [] ->
  join sep (l1 ++ l2) = (join sep l1 ++ sep ++ join sep l2)%string.
Proof.
  intros H1 H2. induction l1 as [|x l1 IH]; [congruence|].
  destruct l1 as [|y l1].
  - cbn [app join]. destruct l2; [congruence | reflexivity].
  - change (join sep ((x :: y :: l1) ++ l2))
      with (x ++ sep ++ join sep ((y :: l1) ++ l2))%string.
    rewrite IH by discriminate.
    change (join sep (x :: y :: l1))
      with (x ++ sep ++ join sep (y :: l1))%string.
    now rewrite !string_app_assoc.
Qed.

Lemma format_to_markdown_join (d : dict string) :
  format_to_markdown d
  = join markdown_separator
         (map (fun item => markdown_section (fst item) (snd item)) d).
Proof.
  unfold format_to_markdown. now rewrite markdown_sections_collected.
Qed.

(** Property X6: the export of two non-empty runs of sections, one after
    the other, is the two exports with one separator between them. *)
Theorem format_to_markdown_app :
  forall a b : dict string,
    a <> [] -> b <> [] ->
    format_to_markdown (a ++ b)
    = (format_to_markdown a ++ markdown_separator ++ format_to_markdown b)%string.
Proof.
  intros a b Ha Hb. rewrite !format_to_markdown_join, map_app.
  apply join_app; now destruct a, b.
Qed.

Lemma format_to_markdown_app_witness :
  format_to_markdown [("Abstract", "a"); ("Results", " r ")]
  = (format_to_markdown [("Abstract", "a")] ++ markdown_separator
     ++ format_to_markdown [("Results", " r ")])%string.
Proof.
  apply (format_to_markdown_app [("Abstract", "a")] [("Results", " r ")]);
    discriminate.
Defined.

Lemma lstrip_clean (s : string) : starts_clean (lstrip s).
Proof.
  induction s as [|c s IH]; [exact I|].
  cbn [lstrip]. destruct (isspace c) eqn:E; [exact IH | exact E].
Qed.

Lemma lstrip_of_clean (s : string) : starts_clean s -> lstrip s = s.
Proof.
  destruct s as [|c s]; [reflexivity|]. cbn. now intros ->.
Qed.

Lemma rstrip_clean (s : string) : starts_clean s -> starts_clean (rstrip s).
Proof.
  destruct s as [|c s]; [trivial|]. cbn [starts_clean rstrip]. intros Hc.
  destruct (rstrip s); [rewrite Hc|]; exact Hc.
Qed.

Lemma rstrip_idempotent (s : string) : rstrip (rstrip s) = rstrip s.
Proof.
  induction s as [|c s IH]; [reflexivity|].
  cbn [rstrip]. destruct (rstrip s) as [|r rs] eqn:E.
  - destruct (isspace c) eqn:Ec; [reflexivity|].
    cbn [rstrip]. now rewrite Ec.
  - cbn [rstrip]. cbn [rstrip] in IH.
    change (match rstrip rs with
            | EmptyString => if isspace r then EmptyString
                             else String r EmptyString
            | String a0 s0 => String r (String a0 s0)
            end) with (rstrip (String r rs)) in *.
    now rewrite IH.
Qed.

Lemma strip_idempotent (s : string) : strip (strip s) = strip s.
Proof.
  unfold strip.
  rewrite (lstrip_of_clean (rstrip (lstrip s)))
    by apply rstrip_clean, lstrip_clean.
  apply rstrip_idempotent.
Qed.

(** Property X7: the export does not depend on the whitespace around the
    section texts: stripping every text beforehand gives the same
    export. *)
Theorem format_to_markdown_ignores_outer_whitespace :
  forall section_texts : dict string,
    format_to_markdown
      (map (fun item => (fst item, strip (snd item))) section_texts)
    = format_to_markdown section_texts.
Proof.
  intros d. rewrite !format_to_markdown_join, map_map. f_equal.
  apply map_ext. intros [name text]. cbn [fst snd].
  unfold markdown_section. now rewrite strip_idempotent.
Qed.

(** ** The body of the Word document *)

Lemma text_of_flush (bfr : string) (content : list inline) :
  text_of_content (flush bfr content) = (bfr ++ text_of_content content)%string.
Proof. now destruct bfr. Qed.

Lemma append_empty_r (s : string) : (s ++ EmptyString)%string = s.
Proof. induction s as [|c s IH]; cbn; [reflexivity | now rewrite IH]. Qed.

(** Reading the content of a run back gives the text it was made from,
    with a newline for each carriage return. *)
Lemma text_of_run_content (text : string) :
  forall bfr : string,
    text_of_content (run_content bfr text) = (bfr ++ newlines text)%string.
Proof.
  induction text as [|c text IH]; intros bfr; cbn [run_content newlines].
  - rewrite text_of_flush. reflexivity.
  - destruct (nat_of_ascii c =? 9) eqn:E9.
    { apply Nat.eqb_eq in E9. rewrite text_of_flush.
      cbn [text_of_content text_of_inline]. rewrite IH, E9.
      cbn [Nat.eqb append]. f_equal. f_equal.
      now rewrite <- E9, ascii_nat_embedding. }
    destruct (nat_of_ascii c =? 10) eqn:E10.
    { apply Nat.eqb_eq in E10. cbn [orb]. rewrite text_of_flush.
      cbn [text_of_content text_of_inline]. rewrite IH, E10.
      cbn [Nat.eqb append nl]. f_equal. f_equal.
      now rewrite <- E10, ascii_nat_embedding. }
    destruct (nat_of_ascii c =? 13) eqn:E13.
    { cbn [orb]. rewrite text_of_flush.
      cbn [text_of_content text_of_inline]. rewrite IH. reflexivity. }
    cbn [orb]. rewrite IH, string_app_assoc. reflexivity.
Qed.

Lemma run_content_newlines (text : string) :
  forall bfr : string, run_content bfr (newlines text) = run_content bfr text.
Proof.
  induction text as [|c text IH]; intros bfr; [reflexivity|].
  cbn [newlines]. destruct (nat_of_ascii c =? 13) eqn:E13.
  - apply Nat.eqb_eq in E13. cbn [run_content].
    rewrite nat_ascii_embedding, E13 by lia. cbn [Nat.eqb orb].
    now rewrite IH.
  - cbn [run_content]. now rewrite !IH.
Qed.

Lemma document_body_with_newlines (texts : dict string) :
  document_body (with_newlines texts) = document_body texts.
Proof.
  induction texts as [|[n t] texts IH]; [reflexivity|].
  cbn [with_newlines map document_body fst snd].
  rewrite !run_content_newlines. f_equal. f_equal. f_equal. exact IH.
Qed.

(** Property X8: the body written to the Word file holds three blocks per
    section and determines the section names and texts, in order, up to
    the difference between a carriage return and a newline, which the
    document library both turns into a line break: two mappings have the
    same body exactly when they agree once every carriage return is
    replaced by a newline. *)
Theorem document_body_keeps_texts_up_to_line_breaks :
  forall a b : dict string,
    (document_body a = document_body b <-> with_newlines a = with_newlines b)
    /\ List.length (document_body a) = 3 * List.length a.
Proof.
  intros a b. split; [split|].
  - revert b. induction a as [|[n t] a IH]; intros [|[n' t'] b] H;
      try discriminate H; [reflexivity|].
    cbn [document_body] in H. injection H as Hn Ht H.
    apply (f_equal text_of_content) in Hn, Ht.
    rewrite !text_of_run_content in Hn, Ht. cbn [append] in Hn, Ht.
    cbn [with_newlines map fst snd]. rewrite Hn, Ht. f_equal.
    now apply IH.
  - intros H. rewrite <- (document_body_with_newlines a), H.
    apply document_body_with_newlines.
  - clear b. induction a as [|[n t] a IH]; [reflexivity|].
    cbn [document_body List.length]. rewrite IH. lia.
Qed.

(** ** The context builder on every section *)

(** Property X9: for each section after the first, the context is the
    section's narrative with the three input values and the comma-joined
    citations of the section's own entry put in place of the fields; the
    values are copied as they are, braces included, and never scanned
    again. *)
Theorem build_context_fills_the_narrative :
  forall (previous_sections : dict string) (citations : option CitationMap),
    let topic := dict_get_default "topic" EmptyString previous_sections in
    let methodology :=
      dict_get_default "methodology" EmptyString previous_sections in
    let results := dict_get_default "results" EmptyString previous_sections in
    build_context "Introduction" previous_sections citations
    = Ok ("Previously in the Abstract, we established the research focus on "
          ++ topic ++ " " ++ nl
          ++ "            using " ++ methodology ++ " which yielded "
          ++ results ++ ". Include relevant citations: "
          ++ citation_text_of "Introduction" citations ++ ".")%string
    /\ build_context "Methodology" previous_sections citations
       = Ok ("Based on the research objectives outlined in the Introduction regarding "
             ++ topic ++ "," ++ nl
             ++ "            detail the following methodological approach: "
             ++ methodology ++ ". Reference similar methodologies: "
             ++ citation_text_of "Methodology" citations ++ ".")%string
    /\ build_context "Results" previous_sections citations
       = Ok ("Following the " ++ methodology
             ++ " described in the Methodology section," ++ nl
             ++ "            present these findings: " ++ results
             ++ ". Compare with similar studies: "
             ++ citation_text_of "Results" citations ++ ".")%string
    /\ build_context "Discussion" previous_sections citations
       = Ok ("Considering the results showing " ++ results
             ++ " obtained through " ++ methodology ++ "," ++ nl
             ++ "            interpret these findings in the context of "
             ++ topic ++ ". Include comparative analysis: "
             ++ citation_text_of "Discussion" citations ++ ".")%string
    /\ build_context "Conclusion" previous_sections citations
       = Ok ("Given the findings " ++ results
             ++ " and their discussion in relation to " ++ topic ++ "," ++ nl
             ++ "            provide concluding thoughts. Reference key literature: "
             ++ citation_text_of "Conclusion" citations ++ ".")%string.
Proof.
  intros prev cits topic methodology results.
  unfold build_context. fold topic methodology results.
  generalize topic methodology results; intros t m r.
  generalize (citation_text_of "Introduction" cits)
             (citation_text_of "Methodology" cits)
             (citation_text_of "Results" cits)
             (citation_text_of "Discussion" cits)
             (citation_text_of "Conclusion" cits); intros c1 c2 c3 c4 c5.
  repeat split; vm_compute; reflexivity.
Qed.

(** Property X10: the context builder returns a string for every section
    name, every prior-inputs mapping and every citation map: no input
    value, whatever characters it holds, makes the formatting fail. *)
Theorem build_context_never_raises :
  forall (section_name : string) (previous_sections : dict string)
         (citations : option CitationMap),
    exists context,
      build_context section_name previous_sections citations = Ok context.
Proof.
  intros name prev cits. apply is_ok_Ok, build_context_total.
Qed.

Lemma citation_text_of_own_entry name (c1 c2 : CitationMap) :
  dict_get name c1 = dict_get name c2 ->
  citation_text_of name (Some c1) = citation_text_of name (Some c2).
Proof.
  unfold citation_text_of, dict_in, dict_get_default, CitationMap, dict in *.
  intros H. rewrite <- H. destruct (dict_get name c1) as [entry|] eqn:E.
  - assert (H1 : dict_truthy c1 = true)
      by (destruct c1; [discriminate E|reflexivity]).
    assert (H2 : dict_truthy c2 = true).
    { symmetry in H. destruct c2; [discriminate H|reflexivity]. }
    now rewrite H1, H2.
  - now rewrite !andb_false_r.
Qed.

(** Property X11: the context depends on the prior inputs only through the
    keys topic, methodology and results (a missing key counts as the empty
    string), and on the citation map only through the entry of the section
    itself; no map, an empty map and a map without that entry give the
    same context. *)
Theorem build_context_reads_only_its_own_entry :
  forall (section_name : string) (p1 p2 : dict string) (c1 c2 : CitationMap),
    (forall k, In k ["topic"; "methodology"; "results"] ->
               dict_get_default k EmptyString p1
               = dict_get_default k EmptyString p2) ->
    dict_get section_name c1 = dict_get section_name c2 ->
    build_context section_name p1 (Some c1)
    = build_context section_name p2 (Some c2)
    /\ (dict_get section_name c1 = None ->
        build_context section_name p1 (Some c1)
        = build_context section_name p2 None).
Proof.
  intros name p1 p2 c1 c2 Hkeys Hentry.
  assert (Ht := Hkeys "topic" ltac:(cbn; tauto)).
  assert (Hm := Hkeys "methodology" ltac:(cbn; tauto)).
  assert (Hr := Hkeys "results" ltac:(cbn; tauto)).
  split.
  - unfold build_context.
    now rewrite Ht, Hm, Hr, (citation_text_of_own_entry name c1 c2 Hentry).
  - intros Hnone.
    rewrite build_context_ignores_other_sections
      by (unfold dict_in; now rewrite Hnone).
    unfold build_context. now rewrite Ht, Hm, Hr.
Qed.

Lemma build_context_reads_only_its_own_entry_witness :
  build_context "Results"
    [("topic", "T"); ("results", "R"); ("note", "ignored")]
    (Some [("Abstract", [("citation_0", "a")]);
           ("Results", [("citation_0", "x"); ("citation_1", "y")])])
  = build_context "Results"
      [("results", "R"); ("methodology", EmptyString); ("topic", "T")]
      (Some [("Results", [("citation_0", "x"); ("citation_1", "y")])]).
Proof.
  apply build_context_reads_only_its_own_entry.
  - intros k [<-|[<-|[<-|[]]]]; reflexivity.
  - reflexivity.
Defined.

(** ** The progress widgets *)

Lemma dict_set_twice {V} (k : string) (v1 v2 : V) (d : dict V) :
  dict_set k v2 (dict_set k v1 d) = dict_set k v2 d.
Proof.
  induction d as [|[k' v'] d IH]; cbn [dict_set].
  - now rewrite String.eqb_refl.
  - destruct (String.eqb k' k) eqn:E; cbn [dict_set]; rewrite E;
      [reflexivity | now rewrite IH].
Qed.

Lemma set_progress_same (s : App) :
  set_progress (progress_bars s) (status_labels s) s = s.
Proof. now destruct s. Qed.

(** Property X12: on a window that is set up, a progress update never
    raises and keeps the window set up; for a section of the paper it
    sets that section's label and bar and leaves the other sections alone,
    for any other name it changes nothing at all; nothing but the two
    widget dictionaries is written, and a second update of the same
    section overrides the first. *)
Theorem update_progress_touches_one_section :
  forall (s : App) (section status : string) (progress : Q),
    ui_ready s ->
    let s' := snd (update_progress section status progress s) in
    fst (update_progress section status progress s) = Ok tt
    /\ ui_ready s'
    /\ (In section section_names ->
        section_status section s' = Some (status, progress))
    /\ (~ In section section_names -> s' = s)
    /\ (forall n, n <> section -> section_status n s' = section_status n s)
    /\ s' = set_progress (progress_bars s') (status_labels s') s
    /\ (forall status2 progress2,
           snd (update_progress section status2 progress2 s')
           = snd (update_progress section status2 progress2 s)).
Proof.
  intros s section status progress Hready s'.
  pose proof Hready as (Hin & Hb & Hl).
  destruct (in_dec string_dec section section_names) as [Hsec|Hsec].
  - assert (Hbar : In section (dict_keys (progress_bars s))) by now rewrite Hb.
    assert (Hlab : In section (dict_keys (status_labels s))) by now rewrite Hl.
    subst s'. rewrite update_progress_present by assumption. cbn [fst snd].
    split; [reflexivity|].
    split.
    { unfold ui_ready. cbn [inputs progress_bars status_labels set_progress].
      now rewrite !dict_keys_set_present. }
    split; [intros _; apply section_status_set|].
    split; [tauto|].
    split.
    { intros n Hn. unfold section_status.
      cbn [progress_bars status_labels set_progress].
      now rewrite !dict_get_set_other. }
    split; [reflexivity|].
    intros st2 p2.
    rewrite !update_progress_present;
      cbn [progress_bars status_labels set_progress];
      rewrite ?dict_keys_set_present; try assumption.
    cbn [snd]. now rewrite !dict_set_twice.
  - assert (Hs' : s' = s).
    { subst s'. unfold update_progress.
      rewrite dict_in_false; [reflexivity | now rewrite Hb]. }
    assert (Hfst : fst (update_progress section status progress s) = Ok tt).
    { unfold update_progress.
      rewrite dict_in_false; [reflexivity | now rewrite Hb]. }
    rewrite Hs'. repeat split; auto; try tauto.
    now rewrite set_progress_same.
Qed.

Lemma update_progress_touches_one_section_witness :
  let s' := snd (update_progress "Results" "Complete" 1%Q init_app) in
  section_status "Results" s' = Some ("Complete", 1%Q)
  /\ section_status "Abstract" s' = Some ("Pending", 0%Q)
  /\ snd (update_progress "References" "Complete" 1%Q init_app) = init_app.
Proof.
  intros s'.
  destruct (update_progress_touches_one_section init_app "Results" "Complete"
              1%Q) as (_ & _ & Hown & _ & Hother & _).
  { repeat split. }
  destruct (update_progress_touches_one_section init_app "References"
              "Complete" 1%Q) as (_ & _ & _ & Hnone & _).
  { repeat split. }
  split; [apply Hown; cbn; tauto|].
  split.
  - fold s' in Hother. rewrite Hother by discriminate. reflexivity.
  - apply Hnone. cbn. intuition discriminate.
Defined.

(** ** Enabling and disabling the entries *)

(** Property X13: switching the entries on or off keeps every entry, its
    place and its text, gives all entries and the button the requested
    state, and only the last of two switches counts. *)
Theorem toggle_inputs_keeps_the_texts :
  forall (first last : bool) (s : App),
    let s' := toggle_inputs first s in
    let state := if first then "normal" else "disabled" in
    dict_keys (inputs s') = dict_keys (inputs s)
    /\ (forall f, field_text f s' = field_text f s)
    /\ (forall f e, dict_get f (inputs s') = Some e -> entry_state e = state)
    /\ generate_button s' = state
    /\ toggle_inputs last s' = toggle_inputs last s.
Proof.
  intros a b s s' state. subst s' state. unfold toggle_inputs.
  cbn [inputs set_inputs set_generate_button generate_button].
  pose proof (dict_get_map_values
                (fun e => mkEntry (entry_text e)
                                  (if a then "normal" else "disabled")))
    as Hget.
  cbn beta in Hget.
  split.
  { apply (dict_keys_map_values
             (fun e => mkEntry (entry_text e)
                               (if a then "normal" else "disabled"))). }
  split.
  { intros f. unfold field_text.
    cbn [inputs set_inputs set_generate_button]. rewrite Hget.
    now destruct (dict_get f (inputs s)). }
  split.
  { intros f e. rewrite Hget.
    destruct (dict_get f (inputs s)); cbn; [|discriminate].
    now intros [= <-]. }
  split; [reflexivity|].
  rewrite map_map. reflexivity.
Qed.

(** ** Starting a run *)

(** Property X14: on a window that is set up and has no active run, a
    start request succeeds, empties the citations and texts of the
    previous run, puts every section back to Pending with progress 0,
    disables the entries and the button while keeping the typed texts,
    sets the handle, and leaves the files and the closing flag as they
    are. *)
Theorem start_generation_resets_the_previous_run :
  forall s : App,
    ui_ready s -> current_task s = None ->
    let s1 := snd (start_generation s) in
    fst (start_generation s) = Ok tt
    /\ citations s1 = [] /\ section_texts s1 = []
    /\ (forall n, In n section_names ->
                  section_status n s1 = Some ("Pending", 0%Q))
    /\ current_task s1 = Some WorkerThread
    /\ generate_button s1 = "disabled"
    /\ (forall f e, dict_get f (inputs s1) = Some e ->
                    entry_state e = "disabled")
    /\ (forall f, field_text f s1 = field_text f s)
    /\ ui_ready s1
    /\ files s1 = files s /\ closing s1 = closing s
    /\ save_as_markdown s1 = save_as_markdown s.
Proof.
  intros s Hready Htask s1. subst s1.
  rewrite start_generation_fresh by assumption. cbn [fst snd].
  split; [reflexivity|]. split; [reflexivity|]. split; [reflexivity|].
  split; [apply started_pending|].
  split; [reflexivity|]. split; [reflexivity|].
  split.
  { intros f e. unfold started. cbn [inputs].
    rewrite (dict_get_map_values (fun e => mkEntry (entry_text e) "disabled")).
    destruct (dict_get f (inputs s)); cbn; [|discriminate].
    now intros [= <-]. }
  split; [apply started_field_text|].
  split; [now apply started_ready|].
  repeat split.
Qed.

Lemma start_generation_resets_the_previous_run_witness :
  let w := mkWorld (fun _ _ => Ok "Text (Smith, 2020).") (fun _ => false)
                   "20240101_120000" true in
  let s := run w (filled_app "key" "T" "M" "R") in
  let s1 := snd (start_generation s) in
  citations s <> [] /\ section_texts s <> []
  /\ citations s1 = [] /\ section_texts s1 = []
  /\ section_status "Abstract" s1 = Some ("Pending", 0%Q)
  /\ field_text "topic" s1 = "T".
Proof.
  intros w s s1.
  assert (Hready : ui_ready s) by (vm_compute; repeat split).
  assert (Htask : current_task s = None) by (vm_compute; reflexivity).
  destruct (start_generation_resets_the_previous_run s Hready Htask)
    as (_ & Hcit & Htexts & Hpending & _ & _ & _ & Hfields & _).
  split; [intros H; vm_compute in H; discriminate H|].
  split; [intros H; vm_compute in H; discriminate H|].
  split; [exact Hcit|]. split; [exact Htexts|].
  split; [apply Hpending; cbn; tauto|].
  fold s1 in Hfields. rewrite Hfields. vm_compute. reflexivity.
Defined.

(** ** Saving *)

Lemma word_markdown_names_differ (timestamp : string) :
  word_name timestamp <> markdown_name timestamp.
Proof.
  unfold word_name, markdown_name. intros H.
  apply append_inj_l, append_inj_l in H. discriminate H.
Qed.

Lemma save_document_plain w texts s :
  docx_accepts texts = true ->
  save_as_markdown_var s = false -> save_as_markdown s = false ->
  save_document w texts s
  = (Ok tt,
     update_status_label
       ("Paper saved as " ++ word_name (now w) ++ " and ")%string false
       (set_files (dict_set (word_name (now w))
                            (WordFile (document_body texts)) (files s)) s)).
Proof.
  intros Hacc Hvar Hflag. unfold save_document.
  rewrite build_document_accepted by exact Hacc. step_monad. rewrite Hvar.
  step_monad. rewrite Hflag. reflexivity.
Qed.

Lemma save_document_both w texts s :
  docx_accepts texts = true ->
  save_as_markdown_var s = true ->
  save_document w texts s
  = (Ok tt,
     update_status_label
       ("Paper saved as " ++ word_name (now w) ++ " and "
        ++ markdown_name (now w))%string false
       (set_files
          (dict_set (markdown_name (now w))
                    (TextFile (format_to_markdown texts))
                    (dict_set (word_name (now w))
                              (WordFile (document_body texts)) (files s)))
          (set_save_as_markdown true
             (set_files (dict_set (word_name (now w))
                                  (WordFile (document_body texts)) (files s))
                        s)))).
Proof.
  intros Hacc Hvar. unfold save_document.
  rewrite build_document_accepted by exact Hacc. step_monad. rewrite Hvar.
  step_monad. reflexivity.
Qed.

(** Property X15: when the document library accepts the names and texts,
    with the markdown checkbox unchecked and the flag never set, a save
    succeeds, writes the Word file only (replacing a file of that name,
    leaving every other file), and reports a message that ends with the
    dangling words " and "; nothing else of the object changes. *)
Theorem save_document_word_only :
  forall (w : World) (section_texts : dict string) (s : App),
    docx_accepts section_texts = true ->
    save_as_markdown_var s = false -> save_as_markdown s = false ->
    let word := ("research_paper_" ++ now w ++ ".docx")%string in
    let s' := snd (save_document w section_texts s) in
    save_document w section_texts s
    = (Ok tt,
       update_status_label ("Paper saved as " ++ word ++ " and ")%string false
         (set_files (dict_set word (WordFile (document_body section_texts))
                              (files s)) s))
    /\ dict_get word (files s') = Some (WordFile (document_body section_texts))
    /\ (forall other, other <> word ->
                      dict_get other (files s') = dict_get other (files s)).
Proof.
  intros w texts s Hacc Hvar Hflag word s'.
  pose proof (save_document_plain w texts s Hacc Hvar Hflag) as Heq.
  change (word_name (now w)) with word in Heq.
  subst s'. rewrite Heq. cbn [snd]. unfold update_status_label.
  cbn [files set_files set_status_label].
  split; [reflexivity|].
  split; [apply dict_get_set_same|].
  intros other Hne. now apply dict_get_set_other.
Qed.

Lemma save_document_word_only_witness :
  let w := mkWorld (fun _ _ => Ok "Text.") (fun _ => false)
                   "20240101_120000" true in
  let texts := [("Abstract", ("A short" ++ nl ++ "text.")%string)] in
  let s' := snd (save_document w texts init_app) in
  status_label s'
  = ("Paper saved as research_paper_20240101_120000.docx and ", "white")
  /\ files s'
     = [("research_paper_20240101_120000.docx",
         WordFile [Heading [Text "Abstract"] 1;
                   Paragraph [Text "A short"; LineBreak; Text "text."];
                   Paragraph []])].
Proof.
  intros w texts s'.
  destruct (save_document_word_only w texts init_app)
    as (Heq & _); [reflexivity | reflexivity | reflexivity |].
  subst s'. rewrite Heq. split; reflexivity.
Defined.

(** Property X16: when the document library accepts the names and texts,
    with the markdown checkbox checked a save succeeds, writes the Word
    file and the markdown file, whose content is the markdown export of
    the same texts, leaves every other file, names both files in its
    message and sets the flag. *)
Theorem save_document_with_markdown :
  forall (w : World) (section_texts : dict string) (s : App),
    docx_accepts section_texts = true ->
    save_as_markdown_var s = true ->
    let word := ("research_paper_" ++ now w ++ ".docx")%string in
    let markdown := ("research_paper_" ++ now w ++ ".md")%string in
    let s' := snd (save_document w section_texts s) in
    fst (save_document w section_texts s) = Ok tt
    /\ dict_get word (files s') = Some (WordFile (document_body section_texts))
    /\ dict_get markdown (files s')
       = Some (TextFile (format_to_markdown section_texts))
    /\ (forall other, other <> word -> other <> markdown ->
                      dict_get other (files s') = dict_get other (files s))
    /\ status_label s'
       = (("Paper saved as " ++ word ++ " and " ++ markdown)%string, "white")
    /\ save_as_markdown s' = true.
Proof.
  intros w texts s Hacc Hvar word markdown s'.
  pose proof (save_document_both w texts s Hacc Hvar) as Heq.
  change (word_name (now w)) with word in Heq.
  change (markdown_name (now w)) with markdown in Heq.
  subst s'. rewrite Heq. cbn [fst snd]. unfold update_status_label.
  cbn [files set_files set_status_label set_save_as_markdown save_as_markdown
       status_label].
  split; [reflexivity|].
  split.
  { rewrite dict_get_set_other; [apply dict_get_set_same|].
    apply (word_markdown_names_differ (now w)). }
  split; [apply dict_get_set_same|].
  split; [|split; reflexivity].
  intros other H1 H2. now rewrite !dict_get_set_other.
Qed.

Lemma save_document_with_markdown_witness :
  let w := mkWorld (fun _ _ => Ok "Text.") (fun _ => false)
                   "20240101_120000" true in
  let texts := [("Abstract", " A short text. ")] in
  let s := set_save_as_markdown_var true init_app in
  let s' := snd (save_document w texts s) in
  dict_get "research_paper_20240101_120000.md" (files s')
  = Some (TextFile ("## Abstract" ++ nl ++ nl ++ "A short text." ++ nl)%string)
  /\ save_as_markdown s' = true.
Proof.
  intros w texts s s'.
  destruct (save_document_with_markdown w texts s)
    as (_ & _ & Hmd & _ & _ & Hflag); [reflexivity | reflexivity |].
  split; [exact Hmd | exact Hflag].
Defined.

Lemma xml_compatible_has_char (c : ascii) (text : string) :
  has_char c text = true -> xml_char c = false -> xml_compatible text = false.
Proof.
  intros Hin Hc. induction text as [|c' text IH]; [discriminate Hin|].
  cbn [has_char xml_compatible] in *. apply orb_true_iff in Hin.
  destruct Hin as [Heq|Hin].
  - apply Ascii.eqb_eq in Heq. subst c'. now rewrite Hc.
  - rewrite (IH Hin). apply andb_false_r.
Qed.

Lemma docx_accepts_In (texts : dict string) (name text : string) :
  In (name, text) texts ->
  xml_compatible name = false \/ xml_compatible text = false ->
  docx_accepts texts = false.
Proof.
  intros Hin Hbad. unfold docx_accepts.
  destruct (forallb _ texts) eqn:E; [|reflexivity].
  rewrite forallb_forall in E. specialize (E (name, text) Hin).
  cbn [fst snd] in E. apply andb_true_iff in E.
  destruct E as [E1 E2], Hbad as [Hbad|Hbad]; congruence.
Qed.

(** Property X27: a save is refused as a whole when a section name or a
    text holds a control character other than tab, newline and carriage
    return: the document library raises its [ValueError] while the
    document is built, so whatever the checkbox and the flag are, no file
    is written, nothing is reported and the object is left as it was. *)
Theorem save_document_refuses_control_characters :
  forall (w : World) (section_texts : dict string) (s : App)
         (name text : string) (c : ascii),
    In (name, text) section_texts ->
    has_char c name = true \/ has_char c text = true ->
    nat_of_ascii c < 32 ->
    nat_of_ascii c <> 9 -> nat_of_ascii c <> 10 -> nat_of_ascii c <> 13 ->
    save_document w section_texts s = (Raise (ValueError xml_refusal), s).
Proof.
  intros w texts s name text c Hin Hc Hlow H9 H10 H13.
  apply save_document_refused.
  assert (Hbad : xml_char c = false).
  { unfold xml_char.
    apply Nat.eqb_neq in H9, H10, H13. rewrite H9, H10, H13.
    apply Nat.leb_gt in Hlow. now rewrite Hlow. }
  apply (docx_accepts_In texts name text Hin).
  destruct Hc as [Hc|Hc]; [left | right];
    now apply (xml_compatible_has_char c).
Qed.

Lemma save_document_refuses_control_characters_witness :
  let w := mkWorld (fun _ _ => Ok "Text.") (fun _ => false)
                   "20240101_120000" true in
  let form_feed := String (ascii_of_nat 12) EmptyString in
  let texts := [("Abstract", "Fine."); 
                ("Introduction", ("Page one." ++ form_feed ++ "Page two.")%string)] in
  let s := set_save_as_markdown_var true init_app in
  save_document w texts s
  = (Raise (ValueError "All strings must be XML compatible: Unicode or ASCII, no NULL bytes or control characters"),
     s).
Proof.
  intros w form_feed texts s.
  apply (save_document_refuses_control_characters
           w texts s "Introduction"
           ("Page one." ++ form_feed ++ "Page two.")%string
           (ascii_of_nat 12)).
  - right. left. reflexivity.
  - right. reflexivity.
  - vm_compute. lia.
  - vm_compute. lia.
  - vm_compute. lia.
  - vm_compute. lia.
Defined.

(** ** The worker always comes back *)

Lemma guarded_generation_returns w s :
  fst (guarded_generation w s) = Ok tt.
Proof.
  unfold guarded_generation, try_except, report_error.
  destruct (generate_paper_body w s) as [[[]|e] s1]; reflexivity.
Qed.

Lemma guarded_generation_keeps_inputs w s :
  inputs (snd (guarded_generation w s)) = inputs s.
Proof.
  apply (stable_guarded_generation (fun x => inputs x = inputs s)); auto.
  - now apply field_loop_invariant.
  - unfold save_invariant. split; [|split]; intros; assumption.
Qed.

(** Property X17: whatever the environment does and whatever state the
    object is in, the worker returns without raising, resets the handle,
    and leaves the button and every entry enabled with the text it had. *)
Theorem generate_paper_always_releases :
  forall (w : World) (s : App),
    let s' := snd (generate_paper w s) in
    fst (generate_paper w s) = Ok tt
    /\ current_task s' = None
    /\ generate_button s' = "normal"
    /\ dict_keys (inputs s') = dict_keys (inputs s)
    /\ (forall f e, dict_get f (inputs s') = Some e -> entry_state e = "normal")
    /\ (forall f, field_text f s' = field_text f s).
Proof.
  intros w s s'.
  assert (Hrun : generate_paper w s
                 = (Ok tt, set_current_task None
                             (toggle_inputs true
                                (snd (guarded_generation w s))))).
  { unfold generate_paper, try_finally, release.
    pose proof (guarded_generation_returns w s) as Hret.
    destruct (guarded_generation w s) as [r s1]. cbn [fst] in Hret.
    subst r. reflexivity. }
  subst s'. rewrite Hrun. cbn [fst snd].
  pose proof (guarded_generation_keeps_inputs w s) as Hin.
  set (s1 := snd (guarded_generation w s)) in *.
  pose proof (dict_get_map_values
                (fun e => mkEntry (entry_text e) "normal")) as Hget.
  cbn beta in Hget.
  unfold toggle_inputs, field_text.
  cbn [inputs set_inputs set_generate_button set_current_task current_task
       generate_button].
  split; [reflexivity|]. split; [reflexivity|]. split; [reflexivity|].
  split.
  { rewrite (dict_keys_map_values (fun e => mkEntry (entry_text e) "normal")).
    now rewrite Hin. }
  split.
  { intros f e. rewrite Hget.
    destruct (dict_get f (inputs s1)); cbn; [|discriminate].
    now intros [= <-]. }
  intros f. rewrite Hget, Hin. now destruct (dict_get f (inputs s)).
Qed.

(** ** How far a run gets *)

Section Completing.
Context (w : World) (iv : dict string).

Lemma completing_split (secs : list (string * string)) :
  forall i,
    secs = completing w iv i secs
           ++ skipn (List.length (completing w iv i secs)) secs.
Proof.
  induction secs as [|sec secs IH]; intros i; [reflexivity|].
  cbn [completing]. destruct (close_requested w i); [reflexivity|].
  destruct (reply w iv i sec); [|reflexivity].
  cbn [List.length skipn app]. f_equal. apply IH.
Qed.

Lemma completing_ok (secs : list (string * string)) :
  forall i j sec,
    nth_error (completing w iv i secs) j = Some sec ->
    close_requested w (i + j) = false
    /\ is_ok (reply w iv (i + j) sec) = true.
Proof.
  induction secs as [|sec0 secs IH]; intros i j sec Hnth.
  - destruct j; discriminate Hnth.
  - cbn [completing] in Hnth.
    destruct (close_requested w i) eqn:Hreq; [destruct j; discriminate Hnth|].
    destruct (reply w iv i sec0) eqn:Hrep; [|destruct j; discriminate Hnth].
    destruct j as [|j]; cbn [nth_error] in Hnth.
    + injection Hnth as <-. rewrite Nat.add_0_r, Hrep. auto.
    + rewrite Nat.add_succ_r, <- Nat.add_succ_l. now apply IH.
Qed.

Lemma completing_stops (secs : list (string * string)) :
  forall i sec rest,
    skipn (List.length (completing w iv i secs)) secs = sec :: rest ->
    let k := i + List.length (completing w iv i secs) in
    close_requested w k = true
    \/ (close_requested w k = false
        /\ exists cause, reply w iv k sec = Raise cause).
Proof.
  induction secs as [|sec0 secs IH]; intros i sec rest Hskip;
    [discriminate Hskip|].
  cbn [completing] in *.
  destruct (close_requested w i) eqn:Hreq.
  - cbn [List.length skipn] in *. rewrite Nat.add_0_r. now left.
  - destruct (reply w iv i sec0) as [text|cause] eqn:Hrep.
    + cbn [List.length skipn] in *.
      rewrite Nat.add_succ_r, <- Nat.add_succ_l.
      now apply (IH (S i) sec rest).
    + cbn [List.length skipn] in *. injection Hskip as <- <-.
      rewrite Nat.add_0_r. right. eauto.
Qed.

Lemma replies_keys (secs : list (string * string)) :
  forall i, dict_keys (replies w iv i secs) = map fst secs.
Proof.
  induction secs as [|sec secs IH]; intros i; [reflexivity|].
  cbn [replies dict_keys map fst]. f_equal. apply IH.
Qed.

End Completing.

(** ** The texts and citations a completed section leaves *)

Lemma loop_iteration_stores w iv i name template text s :
  closing s = false -> close_requested w i = false ->
  In name (dict_keys (progress_bars s)) ->
  In name (dict_keys (status_labels s)) ->
  is_ok (format template iv) = true ->
  generate_content w i
    (section_prompt iv (Some (citations s)) (name, template)) = Ok text ->
  section_texts (snd (loop_iteration w iv i (name, template) s))
  = dict_set name text (section_texts s)
  /\ citations (snd (loop_iteration w iv i (name, template) s))
     = extracted text name (citations s).
Proof.
  intros Hclosing Hreq Hbar Hlabel Hfmt Hgen.
  unfold section_prompt in *. cbn [fst snd] in *.
  destruct (is_ok_Ok _ (build_context_total name iv (Some (citations s))))
    as [context Hctx].
  destruct (is_ok_Ok _ Hfmt) as [body Hbody].
  rewrite Hctx, Hbody in Hgen.
  unfold loop_iteration, poll_closing. step_monad.
  rewrite Hclosing, Hreq. cbn [orb].
  rewrite update_progress_present by assumption.
  unfold try_except, generate_section, call_model. step_monad.
  rewrite Hctx, Hbody, Hgen.
  rewrite extract_citations_eq. step_monad.
  rewrite update_progress_present
    by (step_monad; rewrite dict_keys_set_present; assumption).
  step_monad. split; reflexivity.
Qed.

Section PrefixTexts.
Context (w : World) (iv : dict string).

Lemma generate_sections_prefix_texts (done : list (string * string)) :
  forall (i : nat) (s : App),
    NoDup (map fst done) ->
    closing s = false ->
    (forall n, In n (map fst done) ->
               In n (dict_keys (progress_bars s))
               /\ In n (dict_keys (status_labels s))) ->
    (forall j, j < List.length done -> close_requested w (i + j) = false) ->
    (forall j sec, nth_error done j = Some sec ->
                   is_ok (reply w iv (i + j) sec) = true) ->
    Forall (fun sec => is_ok (format (snd sec) iv) = true) done ->
    (forall n, In n (map fst done) -> ~ In n (dict_keys (citations s))) ->
    (forall n, In n (map fst done) -> ~ In n (dict_keys (section_texts s))) ->
    section_texts (snd (generate_sections w iv i done s))
    = section_texts s ++ replies w iv i done
    /\ citations (snd (generate_sections w iv i done s))
       = citations_from (replies w iv i done) (citations s).
Proof.
  induction done as [|[name template] done IH];
    intros i s Hnodup Hclosing Hkeys Hreq Hgen Hfmt Hcit Htexts.
  - cbn. now rewrite app_nil_r.
  - cbn [map fst] in Hnodup, Hkeys, Hcit, Htexts.
    apply NoDup_cons_iff in Hnodup. destruct Hnodup as [Hfresh Hnodup].
    apply Forall_cons_iff in Hfmt. destruct Hfmt as [Hfmt1 Hfmt].
    destruct (Hkeys name (or_introl eq_refl)) as [Hbar Hlabel].
    assert (Hprompt : section_prompt iv (Some (citations s)) (name, template)
                      = prompt_without_citations iv (name, template)).
    { apply section_prompt_other_sections. apply Hcit. now left. }
    assert (Hreq0 : close_requested w i = false).
    { rewrite <- (Nat.add_0_r i). apply Hreq. cbn. lia. }
    assert (Hok : is_ok (reply w iv i (name, template)) = true).
    { rewrite <- (Nat.add_0_r i). now apply Hgen. }
    destruct (is_ok_Ok _ Hok) as [text Htext].
    destruct (loop_iteration_completes w iv i name template s)
      as (s1 & Hstep & Hclosing1 & _ & _ & _ & Hcit1); auto.
    { rewrite Hprompt. exact Hok. }
    destruct (loop_iteration_stores w iv i name template text s)
      as (Htexts1 & Hcits1); auto.
    { rewrite Hprompt. exact Htext. }
    rewrite Hstep in Htexts1, Hcits1. cbn [snd] in Htexts1, Hcits1.
    assert (Hs1 : s1 = snd (loop_iteration w iv i (name, template) s))
      by now rewrite Hstep.
    assert (Hwk : widget_keys (dict_keys (progress_bars s))
                              (dict_keys (status_labels s)) s1).
    { rewrite Hs1. apply stable_loop_iteration.
      - apply widget_keys_loop_invariant.
      - now split. }
    destruct Hwk as [Hkb Hkl].
    cbn [generate_sections replies fst]. unfold bind. rewrite Hstep.
    unfold reply in Htext |- *. rewrite Htext.
    destruct (IH (S i) s1) as (IHtexts & IHcits); auto.
    { intros n Hn. rewrite Hkb, Hkl. apply Hkeys. now right. }
    { intros j Hj. rewrite Nat.add_succ_comm. apply Hreq. cbn. lia. }
    { intros j sec Hj. rewrite Nat.add_succ_comm. now apply Hgen. }
    { intros n Hn Hin. destruct (Hcit1 n Hin) as [->|Hold]; [tauto|].
      now apply (Hcit n (or_intror Hn)). }
    { intros n Hn Hin. rewrite Htexts1 in Hin.
      apply dict_keys_set_incl in Hin. destruct Hin as [->|Hold]; [tauto|].
      now apply (Htexts n (or_intror Hn)). }
    split.
    + rewrite IHtexts, Htexts1, dict_set_fresh by (apply Htexts; now left).
      now rewrite <- app_assoc.
    + rewrite IHcits, Hcits1. reflexivity.
Qed.

End PrefixTexts.

(** ** Whole runs *)

Lemma run_unfold w s :
  ui_ready s -> current_task s = None -> blank_fields s = [] ->
  has_nul (field_text "api_key" s) = false ->
  run w s
  = set_current_task None
      (toggle_inputs true
         (snd (try_except
                 (bind (generate_sections w (input_values_of s) 0 sections)
                       (fun _ => save_unless_closing w))
                 report_error (started s)))).
Proof.
  intros Hready Htask Hblank Hkey.
  unfold run. rewrite start_generation_fresh by assumption. cbn [snd].
  unfold generate_paper, guarded_generation, try_finally, release.
  unfold try_except at 1.
  rewrite generate_paper_body_valid
    by (try apply started_ready; try rewrite started_blank_fields;
        try rewrite started_field_text; assumption).
  rewrite input_values_started. unfold try_except.
  destruct (bind _ _ (started s)) as [[[]|e] s1]; reflexivity.
Qed.

Lemma loop_keeps_flags w iv i secs s :
  save_as_markdown (snd (generate_sections w iv i secs s)) = save_as_markdown s
  /\ save_as_markdown_var (snd (generate_sections w iv i secs s))
     = save_as_markdown_var s.
Proof.
  split.
  - apply (stable_generate_sections
             (fun s' => save_as_markdown s' = save_as_markdown s)); auto.
    now apply field_loop_invariant.
  - apply (stable_generate_sections
             (fun s' => save_as_markdown_var s' = save_as_markdown_var s)); auto.
    now apply field_loop_invariant.
Qed.

(** The state after the sections of [done], with the texts and citations
    they leave. *)
Lemma started_prefix_texts w s done rest :
  ui_ready s -> closing s = false ->
  sections = done ++ rest ->
  (forall i, i < List.length done -> close_requested w i = false) ->
  (forall i sec, nth_error done i = Some sec ->
                 is_ok (reply w (input_values_of s) i sec) = true) ->
  exists s2,
    generate_sections w (input_values_of s) 0 sections (started s)
    = generate_sections w (input_values_of s) (List.length done) rest s2
    /\ closing s2 = false
    /\ widget_keys section_names section_names s2
    /\ (forall n, In n (map fst done) ->
                  section_status n s2 = Some ("Complete", 1%Q))
    /\ (forall n, In n (map fst rest) ->
                  section_status n s2 = Some ("Pending", 0%Q))
    /\ prompts_sent s2
       = prompts_sent s
         ++ map (prompt_without_citations (input_values_of s)) done
    /\ citations_within (map fst done) s2
    /\ files s2 = files s
    /\ status_history s2
       = status_history s ++ [("Generating paper...", false)]
    /\ status_label s2 = ("Generating paper...", "white")
    /\ section_texts s2 = replies w (input_values_of s) 0 done
    /\ citations s2
       = citations_from (replies w (input_values_of s) 0 done) []
    /\ save_as_markdown s2 = save_as_markdown s
    /\ save_as_markdown_var s2 = save_as_markdown_var s.
Proof.
  intros Hready Hclosing Hsplit Hreq Hgen.
  destruct (started_prefix w s done rest Hready Hclosing Hsplit Hreq Hgen)
    as (s2 & Hrun & Happ & Hclosing2 & Hkeys & Hdone & Hrest & Hprompts
        & Hcits & Hfiles & Hhistory & Hlabel).
  pose proof section_names_nodup as Hnodup.
  unfold section_names in Hnodup. rewrite Hsplit, map_app in Hnodup.
  assert (Hnames : forall n, In n (map fst done) -> In n section_names).
  { intros n Hn. unfold section_names. rewrite Hsplit, map_app.
    apply in_app_iff. now left. }
  destruct (generate_sections_prefix_texts w (input_values_of s) done 0
              (started s)) as (Htexts & Hcitations).
  - now apply NoDup_app_remove_r in Hnodup.
  - exact Hclosing.
  - intros n Hn. split; now apply Hnames.
  - exact Hreq.
  - exact Hgen.
  - apply Forall_forall. intros sec Hsec. apply format_section_ok.
    rewrite Hsplit. apply in_app_iff. now left.
  - intros n _ [].
  - intros n _ [].
  - destruct (loop_keeps_flags w (input_values_of s) 0 done (started s))
      as (Hflag & Hvar).
    rewrite Hrun in Htexts, Hcitations, Hflag, Hvar.
    cbn [snd] in Htexts, Hcitations, Hflag, Hvar.
    unfold started in Htexts, Hcitations, Hflag, Hvar.
    cbn [section_texts citations save_as_markdown
         save_as_markdown_var app] in Htexts, Hcitations, Hflag, Hvar.
    exists s2. repeat (split; [assumption|]). assumption.
Qed.

(** The loop of a run in which no call fails and [closing] is not set
    before the last section. *)
Lemma completed_loop w s :
  ui_ready s -> current_task s = None -> closing s = false ->
  blank_fields s = [] ->
  has_nul (field_text "api_key" s) = false ->
  (forall i, i < List.length sections -> close_requested w i = false) ->
  (forall i sec, nth_error sections i = Some sec ->
                 is_ok (reply w (input_values_of s) i sec) = true) ->
  exists s2,
    run w s
    = set_current_task None
        (toggle_inputs true
           (snd (try_except (save_unless_closing w) report_error s2)))
    /\ closing s2 = false
    /\ (forall n, In n section_names ->
                  section_status n s2 = Some ("Complete", 1%Q))
    /\ files s2 = files s
    /\ status_history s2
       = status_history s ++ [("Generating paper...", false)]
    /\ section_texts s2 = replies w (input_values_of s) 0 sections
    /\ citations s2
       = citations_from (replies w (input_values_of s) 0 sections) []
    /\ save_as_markdown s2 = save_as_markdown s
    /\ save_as_markdown_var s2 = save_as_markdown_var s.
Proof.
  intros Hready Htask Hclosing Hblank Hkey Hreq Hgen.
  destruct (started_prefix_texts w s sections [])
    as (s2 & Happ & Hclosing2 & _ & Hdone & _ & _ & _ & Hfiles & Hhistory
        & _ & Htexts & Hcits & Hflag & Hvar);
    [assumption | assumption | now rewrite app_nil_r
     | assumption | assumption |].
  exists s2. split.
  { rewrite run_unfold by assumption. unfold try_except, bind.
    rewrite Happ. reflexivity. }
  repeat (split; [assumption|]). assumption.
Qed.

Lemma section_status_after_release n s s1 :
  status_labels s1 = status_labels s -> progress_bars s1 = progress_bars s ->
  section_status n (set_current_task None (toggle_inputs true s1))
  = section_status n s.
Proof.
  intros Hl Hb. unfold section_status, toggle_inputs.
  cbn [status_labels progress_bars set_current_task set_generate_button
       set_inputs]. now rewrite Hl, Hb.
Qed.

(** Property X18: when the API key has no NUL character, no call fails,
    [closing] is never set and the document library accepts the replies
    (none holds a control character other than tab, newline and carriage
    return), with the markdown checkbox unchecked and the flag never set,
    the run leaves
    all six sections Complete, holds the six replies under the section
    names in the declared order, has recorded each reply's citations,
    writes the Word file made of those texts and no other file, and
    reports the save and then the success. *)
Theorem completed_run_saves_the_word_document :
  forall (w : World) (s : App),
    ui_ready s -> current_task s = None -> closing s = false ->
    blank_fields s = [] ->
    has_nul (field_text "api_key" s) = false ->
    save_as_markdown_var s = false -> save_as_markdown s = false ->
    (forall i, i <= List.length sections -> close_requested w i = false) ->
    (forall i sec, nth_error sections i = Some sec ->
                   is_ok (reply w (input_values_of s) i sec) = true) ->
    docx_accepts (replies w (input_values_of s) 0 sections) = true ->
    let s' := run w s in
    let texts := replies w (input_values_of s) 0 sections in
    let word := ("research_paper_" ++ now w ++ ".docx")%string in
    (forall n, In n section_names ->
               section_status n s' = Some ("Complete", 1%Q))
    /\ section_texts s' = texts
    /\ dict_keys (section_texts s') = section_names
    /\ citations s' = citations_from texts []
    /\ files s' = dict_set word (WordFile (document_body texts)) (files s)
    /\ status_history s'
       = status_history s
         ++ [("Generating paper...", false);
             (("Paper saved as " ++ word ++ " and ")%string, false);
             ("Research paper generated successfully!", false)]
    /\ status_label s' = ("Research paper generated successfully!", "white")
    /\ current_task s' = None.
Proof.
  intros w s Hready Htask Hclosing Hblank Hkey Hvar Hflag Hreq Hgen Hacc
         s' texts word.
  destruct (completed_loop w s) as (s2 & Hrun & Hclosing2 & Hdone & Hfiles
                                    & Hhistory & Htexts & Hcits & Hflag2 & Hvar2);
    [assumption | assumption | assumption | assumption | assumption
     | intros i Hi; apply Hreq; lia | assumption |].
  assert (Hsave : try_except (save_unless_closing w) report_error s2
                  = (Ok tt,
                     update_status_label
                       "Research paper generated successfully!" false
                       (update_status_label
                          ("Paper saved as " ++ word ++ " and ")%string false
                          (set_files
                             (dict_set word (WordFile (document_body texts))
                                       (files s2))
                             (set_closing false s2))))).
  { unfold try_except, save_unless_closing, poll_closing. step_monad.
    rewrite Hclosing2, (Hreq (List.length sections)) by lia. cbn [orb negb].
    cbn [section_texts set_closing]. rewrite Htexts.
    rewrite save_document_plain
      by (try exact Hacc;
          cbn [save_as_markdown save_as_markdown_var set_closing]; congruence).
    reflexivity. }
  subst s'. rewrite Hrun, Hsave. cbn [snd]. clear Hrun Hsave.
  split.
  { intros n Hn. rewrite (section_status_after_release n s2) by reflexivity.
    now apply Hdone. }
  unfold toggle_inputs, update_status_label. step_monad.
  split; [exact Htexts|].
  split; [rewrite Htexts; apply replies_keys|].
  split; [exact Hcits|].
  split; [now rewrite Hfiles|].
  split; [rewrite Hhistory, <- !app_assoc; reflexivity|].
  split; reflexivity.
Qed.

Lemma completed_run_saves_the_word_document_witness :
  let w := mkWorld (fun _ _ => Ok "Text (Smith, 2020).") (fun _ => false)
                   "20240101_120000" true in
  let s' := run w (filled_app "key" "T" "M" "R") in
  section_status "Conclusion" s' = Some ("Complete", 1%Q)
  /\ dict_keys (section_texts s') = section_names
  /\ dict_get "Abstract" (citations s')
     = Some [("citation_0", "Smith, 2020")]
  /\ dict_keys (files s') = ["research_paper_20240101_120000.docx"]
  /\ status_label s' = ("Research paper generated successfully!", "white").
Proof.
  intros w s'.
  destruct (completed_run_saves_the_word_document w
              (filled_app "key" "T" "M" "R"))
    as (Hdone & _ & Hkeys & Hcits & Hfiles & _ & Hlabel & _).
  - apply filled_app_ready.
  - reflexivity.
  - reflexivity.
  - reflexivity.
  - reflexivity.
  - reflexivity.
  - reflexivity.
  - intros i _. reflexivity.
  - intros i sec _. reflexivity.
  - vm_compute. reflexivity.
  - split; [apply Hdone; cbn; tauto|].
    split; [exact Hkeys|].
    split; [fold s' in Hcits; rewrite Hcits; vm_compute; reflexivity|].
    split; [fold s' in Hfiles; rewrite Hfiles; vm_compute; reflexivity|].
    exact Hlabel.
Defined.

(** Property X19: when the API key has no NUL character, no call fails,
    [closing] is never set and the document library accepts the replies,
    the run with the markdown checkbox checked leaves all six sections
    Complete and writes, besides the Word file, the markdown file holding
    the export of the six texts; it names both files in its message and
    leaves the flag set. *)
Theorem completed_run_saves_the_markdown_export :
  forall (w : World) (s : App),
    ui_ready s -> current_task s = None -> closing s = false ->
    blank_fields s = [] ->
    has_nul (field_text "api_key" s) = false ->
    save_as_markdown_var s = true ->
    (forall i, i <= List.length sections -> close_requested w i = false) ->
    (forall i sec, nth_error sections i = Some sec ->
                   is_ok (reply w (input_values_of s) i sec) = true) ->
    docx_accepts (replies w (input_values_of s) 0 sections) = true ->
    let s' := run w s in
    let texts := replies w (input_values_of s) 0 sections in
    let word := ("research_paper_" ++ now w ++ ".docx")%string in
    let markdown := ("research_paper_" ++ now w ++ ".md")%string in
    (forall n, In n section_names ->
               section_status n s' = Some ("Complete", 1%Q))
    /\ files s'
       = dict_set markdown (TextFile (format_to_markdown texts))
           (dict_set word (WordFile (document_body texts)) (files s))
    /\ status_history s'
       = status_history s
         ++ [("Generating paper...", false);
             (("Paper saved as " ++ word ++ " and " ++ markdown)%string, false);
             ("Research paper generated successfully!", false)]
    /\ save_as_markdown s' = true
    /\ current_task s' = None.
Proof.
  intros w s Hready Htask Hclosing Hblank Hkey Hvar Hreq Hgen Hacc
         s' texts word markdown.
  destruct (completed_loop w s) as (s2 & Hrun & Hclosing2 & Hdone & Hfiles
                                    & Hhistory & Htexts & Hcits & Hflag2 & Hvar2);
    [assumption | assumption | assumption | assumption | assumption
     | intros i Hi; apply Hreq; lia | assumption |].
  assert (Hsave : exists s3,
             try_except (save_unless_closing w) report_error s2
             = (Ok tt,
                update_status_label
                  "Research paper generated successfully!" false
                  (update_status_label
                     ("Paper saved as " ++ word ++ " and " ++ markdown)%string
                     false s3))
             /\ files s3
                = dict_set markdown (TextFile (format_to_markdown texts))
                    (dict_set word (WordFile (document_body texts)) (files s2))
             /\ save_as_markdown s3 = true
             /\ status_history s3 = status_history s2
             /\ status_labels s3 = status_labels s2
             /\ progress_bars s3 = progress_bars s2).
  { unfold try_except, save_unless_closing, poll_closing. step_monad.
    rewrite Hclosing2, (Hreq (List.length sections)) by lia. cbn [orb negb].
    cbn [section_texts set_closing]. rewrite Htexts.
    rewrite save_document_both
      by (try exact Hacc; cbn [save_as_markdown_var set_closing]; congruence).
    eexists. split; [reflexivity|]. repeat split. }
  destruct Hsave as (s3 & Hsave & Hfiles3 & Hflag3 & Hhistory3 & Hl3 & Hb3).
  subst s'. rewrite Hrun, Hsave. cbn [snd]. clear Hrun Hsave.
  split.
  { intros n Hn. rewrite (section_status_after_release n s2); auto. }
  unfold toggle_inputs, update_status_label. step_monad.
  split; [now rewrite Hfiles3, Hfiles|].
  split; [rewrite Hhistory3, Hhistory, <- !app_assoc; reflexivity|].
  split; [exact Hflag3 | reflexivity].
Qed.

Lemma completed_run_saves_the_markdown_export_witness :
  let w := mkWorld (fun _ _ => Ok "Text (Smith, 2020).") (fun _ => false)
                   "20240101_120000" true in
  let s' := run w (set_save_as_markdown_var true
                     (filled_app "key" "T" "M" "R")) in
  section_status "Conclusion" s' = Some ("Complete", 1%Q)
  /\ dict_keys (files s')
     = ["research_paper_20240101_120000.docx";
        "research_paper_20240101_120000.md"]
  /\ save_as_markdown s' = true.
Proof.
  intros w s'.
  destruct (completed_run_saves_the_markdown_export w
              (set_save_as_markdown_var true (filled_app "key" "T" "M" "R")))
    as (Hdone & Hfiles & _ & Hflag & _).
  - apply filled_app_ready.
  - reflexivity.
  - reflexivity.
  - reflexivity.
  - reflexivity.
  - reflexivity.
  - intros i _. reflexivity.
  - intros i sec _. reflexivity.
  - vm_compute. reflexivity.
  - split; [apply Hdone; cbn; tauto|].
    split; [fold s' in Hfiles; rewrite Hfiles; vm_compute; reflexivity|].
    exact Hflag.
Defined.

(** Property X20: once the flag has been set by an earlier save, a run
    with the markdown checkbox unchecked, in which the API key has no NUL
    character, no call fails, [closing] is never set and the document
    library accepts the replies, still completes all six sections and
    writes the Word file, but ends with the interpreter's message about
    the unassigned variable, in the wording of its version, and reports
    no success. *)
Theorem completed_run_with_stale_flag_reports_an_error :
  forall (w : World) (s : App),
    ui_ready s -> current_task s = None -> closing s = false ->
    blank_fields s = [] ->
    has_nul (field_text "api_key" s) = false ->
    save_as_markdown_var s = false -> save_as_markdown s = true ->
    (forall i, i <= List.length sections -> close_requested w i = false) ->
    (forall i sec, nth_error sections i = Some sec ->
                   is_ok (reply w (input_values_of s) i sec) = true) ->
    docx_accepts (replies w (input_values_of s) 0 sections) = true ->
    let s' := run w s in
    let texts := replies w (input_values_of s) 0 sections in
    let word := ("research_paper_" ++ now w ++ ".docx")%string in
    let message :=
      ("Error: "
       ++ unbound_local_message (cpython_3_11 w) "filename_md")%string in
    (forall n, In n section_names ->
               section_status n s' = Some ("Complete", 1%Q))
    /\ files s' = dict_set word (WordFile (document_body texts)) (files s)
    /\ status_history s'
       = status_history s
         ++ [("Generating paper...", false); (message, true)]
    /\ status_label s' = (message, "red")
    /\ current_task s' = None.
Proof.
  intros w s Hready Htask Hclosing Hblank Hkey Hvar Hflag Hreq Hgen Hacc
         s' texts word message.
  destruct (completed_loop w s) as (s2 & Hrun & Hclosing2 & Hdone & Hfiles
                                    & Hhistory & Htexts & Hcits & Hflag2 & Hvar2);
    [assumption | assumption | assumption | assumption | assumption
     | intros i Hi; apply Hreq; lia | assumption |].
  assert (Hsave : try_except (save_unless_closing w) report_error s2
                  = (Ok tt,
                     update_status_label message true
                       (set_files
                          (dict_set word (WordFile (document_body texts))
                                    (files s2))
                          (set_closing false s2)))).
  { unfold try_except, save_unless_closing, poll_closing. step_monad.
    rewrite Hclosing2, (Hreq (List.length sections)) by lia. cbn [orb negb].
    cbn [section_texts set_closing]. rewrite Htexts.
    rewrite save_document_stale_flag
      by (try exact Hacc;
          cbn [save_as_markdown save_as_markdown_var set_closing]; congruence).
    reflexivity. }
  subst s'. rewrite Hrun, Hsave. cbn [snd]. clear Hrun Hsave.
  split.
  { intros n Hn. rewrite (section_status_after_release n s2) by reflexivity.
    now apply Hdone. }
  unfold toggle_inputs, update_status_label. step_monad.
  split; [now rewrite Hfiles|].
  split; [rewrite Hhistory, <- !app_assoc; reflexivity|].
  split; reflexivity.
Qed.

Lemma completed_run_with_stale_flag_reports_an_error_witness :
  let w := mkWorld (fun _ _ => Ok "Text (Smith, 2020).") (fun _ => false)
                   "20240101_120000" false in
  let s' := run w (set_save_as_markdown true
                     (filled_app "key" "T" "M" "R")) in
  section_status "Conclusion" s' = Some ("Complete", 1%Q)
  /\ dict_keys (files s') = ["research_paper_20240101_120000.docx"]
  /\ status_label s'
     = ("Error: local variable 'filename_md' referenced before assignment",
        "red").
Proof.
  intros w s'.
  destruct (completed_run_with_stale_flag_reports_an_error w
              (set_save_as_markdown true (filled_app "key" "T" "M" "R")))
    as (Hdone & Hfiles & _ & Hlabel & _).
  - apply filled_app_ready.
  - reflexivity.
  - reflexivity.
  - reflexivity.
  - reflexivity.
  - reflexivity.
  - reflexivity.
  - intros i _. reflexivity.
  - intros i sec _. reflexivity.
  - vm_compute. reflexivity.
  - split; [apply Hdone; cbn; tauto|].
    split; [fold s' in Hfiles; rewrite Hfiles; vm_compute; reflexivity|].
    fold s' in Hlabel. rewrite Hlabel. reflexivity.
Defined.

(** ** Every way a run can end *)

Lemma save_stage w s2 :
  closing s2 = false -> close_requested w (List.length sections) = false ->
  let s3 := snd (try_except (save_unless_closing w) report_error s2) in
  (if docx_accepts (section_texts s2)
   then dict_get (word_name (now w)) (files s3)
        = Some (WordFile (document_body (section_texts s2)))
   else files s3 = files s2
        /\ status_label s3 = (("Error: " ++ xml_refusal)%string, "red")
        /\ status_history s3
           = status_history s2 ++ [(("Error: " ++ xml_refusal)%string, true)])
  /\ section_texts s3 = section_texts s2
  /\ citations s3 = citations s2
  /\ prompts_sent s3 = prompts_sent s2
  /\ status_labels s3 = status_labels s2
  /\ progress_bars s3 = progress_bars s2
  /\ closing s3 = false.
Proof.
  intros Hclosing Hreq s3. subst s3.
  unfold try_except, save_unless_closing, poll_closing. step_monad.
  rewrite Hclosing, Hreq. cbn [orb negb].
  destruct (docx_accepts (section_texts s2)) eqn:Hacc.
  2:{ rewrite save_document_refused by exact Hacc.
      unfold report_error, update_status_label. step_monad.
      now repeat split. }
  destruct (save_as_markdown_var s2) eqn:Hvar.
  - rewrite save_document_both by assumption.
    unfold update_status_label. step_monad.
    rewrite dict_get_set_other by apply word_markdown_names_differ.
    rewrite dict_get_set_same. now repeat split.
  - destruct (save_as_markdown s2) eqn:Hflag.
    + rewrite save_document_stale_flag by assumption.
      unfold report_error, update_status_label. step_monad.
      rewrite dict_get_set_same. now repeat split.
    + rewrite save_document_plain by assumption.
      unfold update_status_label. step_monad.
      rewrite dict_get_set_same. now repeat split.
Qed.

Lemma loop_iteration_fails_keeps w iv i name template cause s :
  closing s = false -> close_requested w i = false ->
  In name (dict_keys (progress_bars s)) ->
  In name (dict_keys (status_labels s)) ->
  is_ok (format template iv) = true ->
  generate_content w i
    (section_prompt iv (Some (citations s)) (name, template)) = Raise cause ->
  let s' := snd (loop_iteration w iv i (name, template) s) in
  section_texts s' = section_texts s /\ citations s' = citations s
  /\ files s' = files s /\ closing s' = false.
Proof.
  intros Hclosing Hreq Hbar Hlabel Hfmt Hgen.
  unfold section_prompt in *. cbn [fst snd] in *.
  destruct (is_ok_Ok _ (build_context_total name iv (Some (citations s))))
    as [context Hctx].
  destruct (is_ok_Ok _ Hfmt) as [body Hbody].
  rewrite Hctx, Hbody in Hgen.
  unfold loop_iteration, poll_closing. step_monad.
  rewrite Hclosing, Hreq. cbn [orb].
  rewrite update_progress_present by assumption.
  unfold try_except, generate_section, call_model. step_monad.
  rewrite Hctx, Hbody, Hgen.
  unfold section_failed. step_monad.
  rewrite update_progress_present
    by (step_monad; rewrite dict_keys_set_present; assumption).
  step_monad. now repeat split.
Qed.

(** A run with valid inputs that starts with [closing] unset: the sections
    of [completing] are completed, and the run ends at the first close
    request, at the first failing call, or with the document saved. *)
Lemma run_summary_valid w s :
  ui_ready s -> current_task s = None -> closing s = false ->
  blank_fields s = [] ->
  has_nul (field_text "api_key" s) = false ->
  let s' := run w s in
  let iv := input_values_of s in
  let done := completing w iv 0 sections in
  let rest := skipn (List.length done) sections in
  let stop := List.length done in
  (forall n, In n (map fst done) ->
             section_status n s' = Some ("Complete", 1%Q))
  /\ section_texts s' = replies w iv 0 done
  /\ citations s' = citations_from (replies w iv 0 done) []
  /\ ((close_requested w stop = true
       /\ files s' = files s
       /\ (forall n, In n (map fst rest) ->
                     section_status n s' = Some ("Pending", 0%Q))
       /\ prompts_sent s'
          = prompts_sent s ++ map (prompt_without_citations iv) done
       /\ status_label s' = ("Generating paper...", "white")
       /\ closing s' = true)
      \/ (rest = [] /\ close_requested w stop = false
          /\ (if docx_accepts (section_texts s')
              then dict_get (word_name (now w)) (files s')
                   = Some (WordFile (document_body (section_texts s')))
              else files s' = files s
                   /\ status_label s'
                      = (("Error: " ++ xml_refusal)%string, "red")
                   /\ status_history s'
                      = status_history s
                        ++ [("Generating paper...", false);
                            (("Error: " ++ xml_refusal)%string, true)])
          /\ prompts_sent s'
             = prompts_sent s ++ map (prompt_without_citations iv) done
          /\ closing s' = false)
      \/ (exists name template later cause,
             rest = (name, template) :: later
             /\ close_requested w stop = false
             /\ reply w iv stop (name, template) = Raise cause
             /\ files s' = files s
             /\ section_status name s' = Some ("Failed", 0%Q)
             /\ (forall n, In n (map fst later) ->
                           section_status n s' = Some ("Pending", 0%Q))
             /\ prompts_sent s'
                = prompts_sent s
                  ++ map (prompt_without_citations iv)
                         (done ++ [(name, template)])
             /\ status_label s'
                = (("Error: Error generating " ++ name ++ ": "
                    ++ str_of_exn cause)%string, "red")
             /\ closing s' = false)).
Proof.
  intros Hready Htask Hclosing Hblank Hkey s' iv done rest stop.
  assert (Hsplit : sections = done ++ rest)
    by apply (completing_split w iv sections 0).
  assert (Hok : forall i sec, nth_error done i = Some sec ->
                              close_requested w i = false
                              /\ is_ok (reply w iv i sec) = true).
  { intros i sec Hnth. now apply (completing_ok w iv sections 0 i sec). }
  destruct (started_prefix_texts w s done rest)
    as (s2 & Happ & Hclosing2 & [Hkb Hkl] & Hdone & Hrest & Hprompts
        & Hcits & Hfiles & Hhistory & Hlabel & Htexts & Hcitations & _);
    [assumption | assumption | assumption | | |].
  { intros i Hi. destruct (nth_error done i) as [sec|] eqn:Hnth.
    - now apply (Hok i sec).
    - apply nth_error_None in Hnth. lia. }
  { intros i sec Hnth. now apply (Hok i sec). }
  assert (Hrun : s' = set_current_task None
                        (toggle_inputs true
                           (snd (try_except
                                   (bind (generate_sections w iv stop rest)
                                         (fun _ => save_unless_closing w))
                                   report_error s2)))).
  { subst s'. rewrite run_unfold by assumption.
    unfold try_except, bind. rewrite Happ. reflexivity. }
  pose proof section_names_nodup as Hnodup.
  unfold section_names in Hnodup. rewrite Hsplit, map_app in Hnodup.
  destruct rest as [|[name template] later] eqn:Hrest_eq.
  - (* every section has completed *)
    cbn [generate_sections] in Hrun. unfold bind, ret in Hrun.
    assert (Hstop : stop = List.length sections)
      by (subst stop; now rewrite Hsplit, app_nil_r).
    destruct (close_requested w stop) eqn:Hreq.
    + assert (Hfinal : s' = set_current_task None
                              (toggle_inputs true (set_closing true s2))).
      { rewrite Hrun. unfold try_except, save_unless_closing, poll_closing.
        step_monad. rewrite <- Hstop, Hreq, orb_true_r. reflexivity. }
      rewrite Hfinal.
      split.
      { intros n Hn. rewrite (section_status_frame n s2) by reflexivity.
        auto. }
      split; [exact Htexts|]. split; [exact Hcitations|].
      left. split; [reflexivity|]. split; [exact Hfiles|].
      split; [intros n []|]. split; [exact Hprompts|].
      split; [exact Hlabel | reflexivity].
    + rewrite Hstop in Hreq.
      destruct (save_stage w s2 Hclosing2 Hreq)
        as (Hword & Ht3 & Hc3 & Hp3 & Hl3 & Hb3 & Hcl3).
      assert (Hfinal : s' = set_current_task None
                              (toggle_inputs true
                                 (snd (try_except (save_unless_closing w)
                                                  report_error s2))))
        by (rewrite Hrun; reflexivity).
      remember (snd (try_except (save_unless_closing w) report_error s2))
        as s3 eqn:Hs3.
      rewrite Hfinal.
      split.
      { intros n Hn. rewrite (section_status_after_release n s2); auto. }
      unfold toggle_inputs. step_monad.
      split; [now rewrite Ht3|]. split; [now rewrite Hc3|].
      right. left. split; [reflexivity|].
      split; [reflexivity|].
      split; [|split; [now rewrite Hp3 | exact Hcl3]].
      rewrite Ht3. destruct (docx_accepts (section_texts s2)); [exact Hword|].
      destruct Hword as (Hf3 & Hlabel3 & Hh3).
      split; [now rewrite Hf3|]. split; [exact Hlabel3|].
      rewrite Hh3, Hhistory, <- app_assoc. reflexivity.
  - cbn [map fst] in Hnodup, Hrest.
    assert (Hfresh : ~ In name (map fst done)).
    { intros Hin. apply (NoDup_app_disjoint _ _ Hnodup name Hin). now left. }
    assert (Hlater : ~ In name (map fst later)).
    { apply NoDup_app_remove_l, NoDup_cons_iff in Hnodup. tauto. }
    destruct (completing_stops w iv sections 0 (name, template) later)
      as [Hreq | (Hreq & cause & Hfail)]; [exact Hrest_eq | |].
    + (* closing is seen at this boundary *)
      cbn [Nat.add] in Hreq. fold done stop in Hreq.
      assert (Hfinal : s' = set_current_task None
                              (toggle_inputs true (set_closing true s2))).
      { rewrite Hrun. cbn [generate_sections]. unfold try_except, bind.
        rewrite loop_iteration_breaks by (rewrite Hreq; apply orb_true_r).
        reflexivity. }
      rewrite Hfinal.
      split.
      { intros n Hn. rewrite (section_status_frame n s2) by reflexivity.
        auto. }
      split; [exact Htexts|]. split; [exact Hcitations|].
      left. split; [exact Hreq|]. split; [exact Hfiles|].
      split.
      { intros n Hn. rewrite (section_status_frame n s2) by reflexivity.
        auto. }
      split; [exact Hprompts|]. split; [exact Hlabel | reflexivity].
    + (* the call for this section fails *)
      cbn [Nat.add] in Hreq, Hfail. fold done stop in Hreq, Hfail.
      assert (Hprompt : section_prompt iv (Some (citations s2))
                          (name, template)
                        = prompt_without_citations iv (name, template)).
      { apply section_prompt_other_sections. intros Hin.
        now apply Hfresh, Hcits. }
      assert (Hname : In name section_names).
      { unfold section_names. rewrite Hsplit, map_app. apply in_app_iff.
        right. now left. }
      destruct (loop_iteration_fails w iv stop name template cause s2)
        as (s3 & Hstep & Hfailed & Hother & Hsent); auto.
      { now rewrite Hkb. }
      { now rewrite Hkl. }
      { apply (format_section_ok (name, template)).
        rewrite Hsplit. apply in_app_iff. right. now left. }
      { now rewrite Hprompt. }
      assert (Hs3 : s3 = snd (loop_iteration w iv stop (name, template) s2))
        by now rewrite Hstep.
      assert (Hfinal : s' = set_current_task None
                              (toggle_inputs true
                                 (update_status_label
                                    ("Error: Error generating " ++ name ++ ": "
                                     ++ str_of_exn cause)%string true s3))).
      { rewrite Hrun. cbn [generate_sections]. unfold try_except, bind.
        rewrite Hstep. reflexivity. }
      destruct (loop_iteration_fails_keeps w iv stop name template cause s2)
        as (Ht3 & Hc3 & Hf3 & Hcl3); auto.
      { now rewrite Hkb. }
      { now rewrite Hkl. }
      { apply (format_section_ok (name, template)).
        rewrite Hsplit. apply in_app_iff. right. now left. }
      { now rewrite Hprompt. }
      rewrite <- Hs3 in Ht3, Hc3, Hf3, Hcl3.
      rewrite Hfinal.
      split.
      { intros n Hn. rewrite (section_status_frame n s3) by reflexivity.
        rewrite Hother; [now apply Hdone|]. now intros ->. }
      split; [exact (eq_trans Ht3 Htexts)|].
      split; [exact (eq_trans Hc3 Hcitations)|].
      right. right. exists name, template, later, cause.
      split; [reflexivity|]. split; [exact Hreq|]. split; [exact Hfail|].
      split; [exact (eq_trans Hf3 Hfiles)|].
      split.
      { now rewrite (section_status_frame name s3) by reflexivity. }
      split.
      { intros n Hn. rewrite (section_status_frame n s3) by reflexivity.
        rewrite Hother; [apply Hrest; now right|]. now intros ->. }
      split.
      { unfold toggle_inputs. step_monad.
        now rewrite Hsent, Hprompts, Hprompt, map_app, app_assoc. }
      split; [reflexivity | exact Hcl3].
Qed.

Lemma run_blank w s field others :
  ui_ready s -> current_task s = None -> blank_fields s = field :: others ->
  run w s
  = set_current_task None
      (toggle_inputs true
         (update_status_label (title field ++ " is required")%string true
                              (started s))).
Proof.
  intros Hready Htask Hblank.
  unfold run. rewrite start_generation_fresh by assumption. cbn [snd].
  unfold generate_paper, guarded_generation, try_finally, try_except.
  rewrite (generate_paper_body_blank w (started s) field others)
    by (try apply started_ready; try rewrite started_blank_fields;
        assumption).
  reflexivity.
Qed.

Lemma run_nul w s :
  ui_ready s -> current_task s = None -> blank_fields s = [] ->
  has_nul (field_text "api_key" s) = true ->
  run w s
  = set_current_task None
      (toggle_inputs true
         (update_status_label "Error: embedded null byte" true (started s))).
Proof.
  intros Hready Htask Hblank Hkey.
  unfold run. rewrite start_generation_fresh by assumption. cbn [snd].
  unfold generate_paper, guarded_generation, try_finally, try_except.
  rewrite (generate_paper_body_nul w (started s))
    by (try apply started_ready; try rewrite started_blank_fields;
        try rewrite started_field_text; assumption).
  reflexivity.
Qed.

Lemma run_closing w s :
  ui_ready s -> current_task s = None -> blank_fields s = [] ->
  has_nul (field_text "api_key" s) = false ->
  closing s = true ->
  run w s
  = set_current_task None (toggle_inputs true (set_closing true (started s))).
Proof.
  intros Hready Htask Hblank Hkey Hclosing.
  rewrite run_unfold by assumption. unfold try_except, bind.
  unfold sections. cbn [generate_sections]. unfold bind.
  rewrite loop_iteration_breaks by (cbn [started closing]; now rewrite Hclosing).
  reflexivity.
Qed.

Lemma released_status n s1 :
  section_status n (set_current_task None (toggle_inputs true s1))
  = section_status n s1.
Proof. now apply section_status_after_release. Qed.

Lemma run_ready w s : ui_ready s -> ui_ready (run w s).
Proof.
  intros H. unfold run. now apply generate_paper_ready, start_generation_ready.
Qed.

Lemma section_status_known n st s :
  ui_ready s -> section_status n s = Some st -> In n section_names.
Proof.
  intros (_ & _ & Hl) H. unfold section_status in H.
  destruct (dict_get n (status_labels s)) as [l|] eqn:E; [|discriminate H].
  rewrite <- Hl. eapply dict_get_In_keys; eauto.
Qed.

(** Property X21: a run never writes a partial document.  Whatever the
    generation calls and the close requests do, if the run changes the
    files at all then all six sections are Complete, the stored texts are
    those of the six sections in the declared order, and the Word file of
    the run holds exactly those texts. *)
Theorem run_never_writes_a_partial_document :
  forall (w : World) (s : App),
    ui_ready s -> current_task s = None ->
    files (run w s) <> files s ->
    (forall n, In n section_names ->
               section_status n (run w s) = Some ("Complete", 1%Q))
    /\ dict_keys (section_texts (run w s)) = section_names
    /\ dict_get ("research_paper_" ++ now w ++ ".docx")%string
                (files (run w s))
       = Some (WordFile (document_body (section_texts (run w s)))).
Proof.
  intros w s Hready Htask Hfiles.
  destruct (blank_fields s) as [|field others] eqn:Hblank;
    [|exfalso; apply Hfiles; now rewrite (run_blank w s field others)].
  destruct (has_nul (field_text "api_key" s)) eqn:Hkey;
    [exfalso; apply Hfiles; now rewrite run_nul|].
  destruct (closing s) eqn:Hclosing;
    [exfalso; apply Hfiles; now rewrite run_closing|].
  destruct (run_summary_valid w s Hready Htask Hclosing Hblank Hkey)
    as (Hdone & Htexts & _ & [Hcancel | [Hsaved | Hfailed]]).
  - exfalso. now apply Hfiles.
  - destruct Hsaved as (Hrest & _ & Hword & _).
    destruct (docx_accepts (section_texts (run w s)));
      [|exfalso; now apply Hfiles].
    pose proof (completing_split w (input_values_of s) sections 0) as Hsplit.
    rewrite Hrest, app_nil_r in Hsplit.
    rewrite <- Hsplit in Hdone, Htexts.
    split; [exact Hdone|]. split; [|exact Hword].
    rewrite Htexts. apply replies_keys.
  - exfalso. destruct Hfailed as (? & ? & ? & ? & _ & _ & _ & Hsame & _).
    now apply Hfiles.
Qed.

Lemma run_never_writes_a_partial_document_witness :
  let w := mkWorld (fun _ _ => Ok "Text (Smith, 2020).") (fun _ => false)
                   "20240101_120000" true in
  let s' := run w (filled_app "key" "T" "M" "R") in
  section_status "Discussion" s' = Some ("Complete", 1%Q)
  /\ dict_keys (section_texts s') = section_names.
Proof.
  intros w s'.
  destruct (run_never_writes_a_partial_document w
              (filled_app "key" "T" "M" "R"))
    as (Hdone & Hkeys & _).
  - apply filled_app_ready.
  - reflexivity.
  - intros H. vm_compute in H. discriminate H.
  - split; [apply Hdone; cbn; tauto | exact Hkeys].
Defined.

(** Property X22: in every run the prompts sent are those of an initial
    segment of the sections, in the declared order, one per section, and
    each is the prompt built as if no citation had ever been recorded. *)
Theorem run_sends_citation_free_prompts_in_order :
  forall (w : World) (s : App),
    ui_ready s -> current_task s = None ->
    exists sent later : list (string * string),
      sections = sent ++ later
      /\ prompts_sent (run w s)
         = prompts_sent s
           ++ map (prompt_without_citations (input_values_of s)) sent.
Proof.
  intros w s Hready Htask.
  destruct (blank_fields s) as [|field others] eqn:Hblank.
  2:{ exists [], sections. split; [reflexivity|].
      rewrite (run_blank w s field others) by assumption.
      cbn [map]. now rewrite app_nil_r. }
  destruct (has_nul (field_text "api_key" s)) eqn:Hkey.
  { exists [], sections. split; [reflexivity|].
    rewrite run_nul by assumption. cbn [map]. now rewrite app_nil_r. }
  destruct (closing s) eqn:Hclosing.
  { exists [], sections. split; [reflexivity|].
    rewrite run_closing by assumption. cbn [map]. now rewrite app_nil_r. }
  pose proof (completing_split w (input_values_of s) sections 0) as Hsplit.
  destruct (run_summary_valid w s Hready Htask Hclosing Hblank Hkey)
    as (_ & _ & _ & [Hcancel | [Hsaved | Hfailed]]).
  - destruct Hcancel as (_ & _ & _ & Hprompts & _). eauto.
  - destruct Hsaved as (_ & _ & _ & Hprompts & _). eauto.
  - destruct Hfailed as (name & template & later & cause & Hrest & _ & _ & _
                         & _ & _ & Hprompts & _).
    exists (completing w (input_values_of s) 0 sections ++ [(name, template)]),
           later.
    split; [|exact Hprompts].
    rewrite <- app_assoc. cbn [app]. now rewrite <- Hrest.
Qed.

Lemma run_sends_citation_free_prompts_in_order_witness :
  let w := mkWorld (fun i _ => if i =? 2
                               then Raise (GenerationError "quota exceeded")
                               else Ok "Text (Smith, 2020).")
                   (fun _ => false) "20240101_120000" true in
  let s := filled_app "key" "T" "M" "R" in
  exists sent later : list (string * string),
    sections = sent ++ later
    /\ prompts_sent (run w s)
       = map (prompt_without_citations (input_values_of s)) sent.
Proof.
  intros w s.
  destruct (run_sends_citation_free_prompts_in_order w s)
    as (sent & later & Hsplit & Hprompts).
  - apply filled_app_ready.
  - reflexivity.
  - exists sent, later. split; [exact Hsplit | exact Hprompts].
Defined.

(** Property X23: every run leaves the sections in the same shape: the
    sections of an initial segment are Complete and are the keys of the
    stored texts, the first section after it is Pending or, with the red
    error message that names it, Failed, and all later sections are
    Pending.  In particular no section is left at Generating, and at most
    one is Failed. *)
Theorem run_leaves_a_completed_prefix :
  forall (w : World) (s : App),
    ui_ready s -> current_task s = None ->
    let s' := run w s in
    exists done rest : list (string * string),
      sections = done ++ rest
      /\ (forall n, In n (map fst done) ->
                    section_status n s' = Some ("Complete", 1%Q))
      /\ dict_keys (section_texts s') = map fst done
      /\ (forall n, In n (map fst (tl rest)) ->
                    section_status n s' = Some ("Pending", 0%Q))
      /\ match rest with
         | [] => True
         | (name, _) :: _ =>
             section_status name s' = Some ("Pending", 0%Q)
             \/ (section_status name s' = Some ("Failed", 0%Q)
                 /\ files s' = files s
                 /\ exists cause : exn,
                      status_label s'
                      = (("Error: Error generating " ++ name ++ ": "
                          ++ str_of_exn cause)%string, "red"))
         end.
Proof.
  intros w s Hready Htask s'.
  assert (Hstarted : forall s1,
             status_labels s1 = status_labels (started s) ->
             progress_bars s1 = progress_bars (started s) ->
             section_texts s1 = [] ->
             s' = set_current_task None (toggle_inputs true s1) ->
             exists done rest : list (string * string),
               sections = done ++ rest
               /\ (forall n, In n (map fst done) ->
                             section_status n s' = Some ("Complete", 1%Q))
               /\ dict_keys (section_texts s') = map fst done
               /\ (forall n, In n (map fst (tl rest)) ->
                             section_status n s' = Some ("Pending", 0%Q))
               /\ match rest with
                  | [] => True
                  | (name, _) :: _ =>
                      section_status name s' = Some ("Pending", 0%Q)
                      \/ (section_status name s' = Some ("Failed", 0%Q)
                          /\ files s' = files s
                          /\ exists cause : exn,
                               status_label s'
                               = (("Error: Error generating " ++ name ++ ": "
                                   ++ str_of_exn cause)%string, "red"))
                  end).
  { intros s1 Hl Hb Ht Hfinal. exists [], sections.
    assert (Hpending : forall n, In n section_names ->
                                 section_status n s' = Some ("Pending", 0%Q)).
    { intros n Hn. rewrite Hfinal.
      rewrite (section_status_after_release n (started s)) by assumption.
      now apply started_pending. }
    split; [reflexivity|]. split; [intros n []|].
    split; [rewrite Hfinal; exact (f_equal dict_keys Ht)|].
    split; [intros n Hn; apply Hpending; cbn in Hn |- *; tauto|].
    left. apply Hpending. cbn. tauto. }
  destruct (blank_fields s) as [|field others] eqn:Hblank.
  2:{ apply (Hstarted (update_status_label
                          (title field ++ " is required")%string true
                          (started s)) eq_refl eq_refl eq_refl).
      apply (run_blank w s field others); assumption. }
  destruct (has_nul (field_text "api_key" s)) eqn:Hkey.
  { apply (Hstarted (update_status_label "Error: embedded null byte" true
                                         (started s))
                    eq_refl eq_refl eq_refl).
    apply run_nul; assumption. }
  destruct (closing s) eqn:Hclosing.
  { apply (Hstarted (set_closing true (started s)) eq_refl eq_refl eq_refl).
    apply run_closing; assumption. }
  clear Hstarted.
  pose proof (completing_split w (input_values_of s) sections 0) as Hsplit.
  destruct (run_summary_valid w s Hready Htask Hclosing Hblank Hkey)
    as (Hdone & Htexts & _ & Hend).
  fold s' in Hdone, Htexts, Hend.
  exists (completing w (input_values_of s) 0 sections),
         (skipn (List.length (completing w (input_values_of s) 0 sections))
                sections).
  split; [exact Hsplit|]. split; [exact Hdone|].
  split; [rewrite Htexts; apply replies_keys|].
  destruct Hend as [Hcancel | [Hsaved | Hfailed]].
  - destruct Hcancel as (_ & _ & Hrest & _).
    destruct (skipn _ sections) as [|[name template] later].
    + split; [intros n []|exact I].
    + split; [intros n Hn; apply Hrest; now right|].
      left. apply Hrest. now left.
  - destruct Hsaved as (-> & _). split; [intros n []|exact I].
  - destruct Hfailed as (name & template & later & cause & -> & _ & _ & Hsame
                         & Hfail & Hlater & _ & Hlabel & _).
    split; [exact Hlater|]. right. split; [exact Hfail|].
    split; [exact Hsame|]. now exists cause.
Qed.

Lemma run_leaves_a_completed_prefix_witness :
  let w := mkWorld (fun i _ => if i =? 2
                               then Raise (GenerationError "quota exceeded")
                               else Ok "Text (Smith, 2020).")
                   (fun _ => false) "20240101_120000" true in
  let s' := run w (filled_app "key" "T" "M" "R") in
  exists done rest : list (string * string),
    sections = done ++ rest
    /\ dict_keys (section_texts s') = map fst done
    /\ forall n, In n (map fst (tl rest)) ->
                 section_status n s' = Some ("Pending", 0%Q).
Proof.
  intros w s'.
  destruct (run_leaves_a_completed_prefix w (filled_app "key" "T" "M" "R"))
    as (done & rest & Hsplit & _ & Hkeys & Hlater & _).
  - apply filled_app_ready.
  - reflexivity.
  - exists done, rest. split; [exact Hsplit|]. split; [exact Hkeys|].
    exact Hlater.
Defined.

(** Property X24: after a run that reaches the section loop (the inputs
    are not blank and the API key has no NUL character), the sections
    shown as Complete are exactly those before the first close request or
    failing call; the stored texts are their replies, in order, and the
    citation map is the one obtained by recording the citations of each of
    these replies in turn. *)
Theorem run_keeps_exactly_the_completed_sections :
  forall (w : World) (s : App),
    ui_ready s -> current_task s = None -> closing s = false ->
    blank_fields s = [] ->
    has_nul (field_text "api_key" s) = false ->
    let s' := run w s in
    let done := completing w (input_values_of s) 0 sections in
    (forall n, section_status n s' = Some ("Complete", 1%Q)
               <-> In n (map fst done))
    /\ section_texts s' = replies w (input_values_of s) 0 done
    /\ citations s'
       = citations_from (replies w (input_values_of s) 0 done) [].
Proof.
  intros w s Hready Htask Hclosing Hblank Hkey s' done.
  pose proof (completing_split w (input_values_of s) sections 0) as Hsplit.
  fold done in Hsplit.
  destruct (run_summary_valid w s Hready Htask Hclosing Hblank Hkey)
    as (Hdone & Htexts & Hcits & Hend).
  fold s' done in Hdone, Htexts, Hcits, Hend.
  split; [|split; assumption].
  intros n. split; [|apply Hdone].
  intros Hcomplete.
  assert (Hn : In n section_names).
  { apply (section_status_known n ("Complete", 1%Q) s'); [|exact Hcomplete].
    now apply run_ready. }
  unfold section_names in Hn. rewrite Hsplit, map_app in Hn.
  apply in_app_iff in Hn. destruct Hn as [Hn|Hn]; [exact Hn|].
  exfalso.
  destruct Hend as [Hcancel | [Hsaved | Hfailed]].
  - destruct Hcancel as (_ & _ & Hrest & _).
    rewrite (Hrest n Hn) in Hcomplete. discriminate Hcomplete.
  - destruct Hsaved as (Hrest & _). rewrite Hrest in Hn. destruct Hn.
  - destruct Hfailed as (name & template & later & cause & Hrest & _ & _ & _
                         & Hfail & Hlater & _).
    rewrite Hrest in Hn. destruct Hn as [Hn|Hn].
    + cbn [fst] in Hn. subst n. rewrite Hfail in Hcomplete.
      discriminate Hcomplete.
    + rewrite (Hlater n Hn) in Hcomplete. discriminate Hcomplete.
Qed.

Lemma run_keeps_exactly_the_completed_sections_witness :
  let w := mkWorld (fun i _ => if i =? 2
                               then Raise (GenerationError "quota exceeded")
                               else Ok "Text (Smith, 2020).")
                   (fun _ => false) "20240101_120000" true in
  let s' := run w (filled_app "key" "T" "M" "R") in
  (section_status "Methodology" s' = Some ("Complete", 1%Q)
   <-> In "Methodology" ["Abstract"; "Introduction"])
  /\ section_texts s'
     = [("Abstract", "Text (Smith, 2020)."); 
        ("Introduction", "Text (Smith, 2020).")]
  /\ citations s'
     = [("Abstract", [("citation_0", "Smith, 2020")]);
        ("Introduction", [("citation_0", "Smith, 2020")])].
Proof.
  intros w s'.
  destruct (run_keeps_exactly_the_completed_sections w
              (filled_app "key" "T" "M" "R"))
    as (Hiff & Htexts & Hcits).
  - apply filled_app_ready.
  - reflexivity.
  - reflexivity.
  - reflexivity.
  - reflexivity.
  - split; [exact (Hiff "Methodology")|].
    split; [exact Htexts | exact Hcits].
Defined.

(** Property X25: neither the start of a run nor the run itself clears
    [closing].  A run started while the flag is set sends no prompt,
    writes no file, leaves every section Pending, and still has the flag
    set when it ends. *)
Theorem run_while_closing_does_nothing :
  forall (w : World) (s : App),
    ui_ready s -> current_task s = None -> closing s = true ->
    let s' := run w s in
    closing s' = true
    /\ prompts_sent s' = prompts_sent s
    /\ files s' = files s
    /\ section_texts s' = []
    /\ (forall n, In n section_names ->
                  section_status n s' = Some ("Pending", 0%Q))
    /\ current_task s' = None.
Proof.
  intros w s Hready Htask Hclosing s'.
  assert (Hstarted : forall s1,
             status_labels s1 = status_labels (started s) ->
             progress_bars s1 = progress_bars (started s) ->
             s' = set_current_task None (toggle_inputs true s1) ->
             forall n, In n section_names ->
                       section_status n s' = Some ("Pending", 0%Q)).
  { intros s1 Hl Hb Hfinal n Hn. rewrite Hfinal.
    rewrite (section_status_after_release n (started s)) by assumption.
    now apply started_pending. }
  destruct (blank_fields s) as [|field others] eqn:Hblank.
  - destruct (has_nul (field_text "api_key" s)) eqn:Hkey.
    + pose proof (run_nul w s Hready Htask Hblank Hkey) as Hfinal.
      fold s' in Hfinal.
      split; [rewrite Hfinal; exact Hclosing|]. split; [now rewrite Hfinal|].
      split; [now rewrite Hfinal|]. split; [now rewrite Hfinal|].
      split; [|now rewrite Hfinal].
      now apply (Hstarted (update_status_label "Error: embedded null byte"
                                               true (started s))).
    + pose proof (run_closing w s Hready Htask Hblank Hkey Hclosing)
        as Hfinal.
      fold s' in Hfinal.
      split; [now rewrite Hfinal|]. split; [now rewrite Hfinal|].
      split; [now rewrite Hfinal|]. split; [now rewrite Hfinal|].
      split; [|now rewrite Hfinal].
      now apply (Hstarted (set_closing true (started s))).
  - pose proof (run_blank w s field others Hready Htask Hblank) as Hfinal.
    fold s' in Hfinal.
    split; [rewrite Hfinal; exact Hclosing|]. split; [now rewrite Hfinal|].
    split; [now rewrite Hfinal|]. split; [now rewrite Hfinal|].
    split; [|now rewrite Hfinal].
    now apply (Hstarted (update_status_label
                           (title field ++ " is required")%string true
                           (started s))).
Qed.

Lemma run_while_closing_does_nothing_witness :
  let w := mkWorld (fun _ _ => Ok "Text (Smith, 2020).") (fun _ => false)
                   "20240101_120000" true in
  let s' := run w (set_closing true (filled_app "key" "T" "M" "R")) in
  closing s' = true /\ prompts_sent s' = [] /\ files s' = []
  /\ section_status "Abstract" s' = Some ("Pending", 0%Q).
Proof.
  intros w s'.
  destruct (run_while_closing_does_nothing w
              (set_closing true (filled_app "key" "T" "M" "R")))
    as (Hclosing & Hprompts & Hfiles & _ & Hpending & _).
  - apply filled_app_ready.
  - reflexivity.
  - reflexivity.
  - split; [exact Hclosing|]. split; [exact Hprompts|].
    split; [exact Hfiles|]. apply Hpending. cbn. tauto.
Defined.

(** ** What a prompt carries *)

Lemma prefix_app (t r : string) : prefix t (t ++ r) = true.
Proof.
  induction t as [|c t IH]; cbn [append prefix].
  - now destruct r.
  - destruct (ascii_dec c c) as [_|Hne]; [exact IH | now elim Hne].
Qed.

Lemma contains_here (t r : string) : contains t (t ++ r) = true.
Proof.
  destruct (t ++ r)%string eqn:E; cbn [contains]; rewrite <- E;
    now rewrite prefix_app.
Qed.

Lemma contains_skip_char (t : string) (c : ascii) (h : string) :
  contains t h = true -> contains t (String c h) = true.
Proof.
  intros H. cbn [contains]. rewrite H. apply orb_true_r.
Qed.

Lemma contains_skip_app (t a h : string) :
  contains t h = true -> contains t (a ++ h) = true.
Proof.
  intros H. induction a as [|c a IH]; [exact H|].
  cbn [append]. now apply contains_skip_char.
Qed.

Lemma prefix_app_l (t : string) :
  forall a b : string, prefix t a = true -> prefix t (a ++ b) = true.
Proof.
  induction t as [|c t IH]; intros a b H.
  - now destruct (a ++ b)%string.
  - destruct a as [|c' a]; [discriminate H|].
    cbn [append prefix] in *.
    destruct (ascii_dec c c'); [now apply IH | discriminate H].
Qed.

Lemma contains_app_l (t a b : string) :
  contains t a = true -> contains t (a ++ b) = true.
Proof.
  induction a as [|c a IH]; intros H.
  - destruct t; [|discriminate H]. now destruct b.
  - cbn [contains] in H. apply orb_true_iff in H.
    change (String c a ++ b)%string with (String c (a ++ b)).
    cbn [contains]. apply orb_true_iff.
    destruct H as [H|H].
    + left. exact (prefix_app_l t (String c a) b H).
    + right. exact (IH H).
Qed.

Ltac find_needle :=
  first [ apply contains_here
        | apply contains_skip_char; find_needle
        | solve [apply contains_app_l; find_needle]
        | apply contains_skip_app; find_needle ].

Ltac find_in_prompt :=
  match goal with
  | |- contains ?t ?p = true =>
      let p' := eval vm_compute in p in
      replace p with p' by (vm_compute; reflexivity)
  end;
  find_needle.

(** Property X26: the prompt of each of the six sections contains the
    research topic as typed, whatever the other inputs and the citation
    map are. *)
Theorem every_section_prompt_carries_the_topic :
  forall (sec : string * string) (s : App) (cits : option CitationMap),
    In sec sections ->
    contains (field_text "topic" s)
             (section_prompt (input_values_of s) cits sec) = true.
Proof.
  intros sec s cits Hin.
  unfold input_values_of.
  generalize (field_text "topic" s) (field_text "methodology" s)
             (field_text "results" s); intros t m r.
  unfold sections in Hin. cbn [In] in Hin.
  repeat (destruct Hin as [<-|Hin]); [| | | | | |destruct Hin];
    unfold section_prompt, build_context; cbn [fst snd];
    match goal with
    | |- context [citation_text_of ?n cits] =>
        generalize (citation_text_of n cits); intros c
    end;
    find_in_prompt.
Qed.

Lemma every_section_prompt_carries_the_topic_witness :
  In (nth 3 sections (EmptyString, EmptyString)) sections
  /\ contains "solar cells"
       (section_prompt
          (input_values_of (filled_app "key" "solar cells" "M" "R"))
          (Some [("Results", [("citation_0", "Smith, 2020")])])
          (nth 3 sections (EmptyString, EmptyString))) = true.
Proof.
  assert (Hin : In (nth 3 sections (EmptyString, EmptyString)) sections)
    by (cbn; tauto).
  split; [exact Hin|].
  exact (every_section_prompt_carries_the_topic
           (nth 3 sections (EmptyString, EmptyString))
           (filled_app "key" "solar cells" "M" "R")
           (Some [("Results", [("citation_0", "Smith, 2020")])]) Hin).
Defined.

(** ** Runs the environment or the document library stops *)

(** Property X28: a run with non-blank inputs whose API key holds a NUL
    character ends where the key is put in the environment: the error
    reported is the environment's, no prompt is sent, every section
    stays Pending, nothing is stored or written, and the handle is
    reset as after any run. *)
Theorem run_with_nul_in_api_key_stops_before_the_loop :
  forall (w : World) (s : App),
    ui_ready s -> current_task s = None -> blank_fields s = [] ->
    has_nul (field_text "api_key" s) = true ->
    let s' := run w s in
    prompts_sent s' = prompts_sent s
    /\ (forall n, In n section_names ->
                  section_status n s' = Some ("Pending", 0%Q))
    /\ section_texts s' = []
    /\ files s' = files s
    /\ status_history s'
       = status_history s
         ++ [("Generating paper...", false);
             ("Error: embedded null byte", true)]
    /\ status_label s' = ("Error: embedded null byte", "red")
    /\ current_task s' = None.
Proof.
  intros w s Hready Htask Hblank Hkey s'.
  pose proof (run_nul w s Hready Htask Hblank Hkey) as Hfinal.
  fold s' in Hfinal. rewrite Hfinal.
  split; [reflexivity|].
  split.
  { intros n Hn.
    rewrite (section_status_after_release n (started s)) by reflexivity.
    now apply started_pending. }
  split; [reflexivity|]. split; [reflexivity|].
  split.
  { unfold toggle_inputs, started. step_monad. now rewrite <- app_assoc. }
  split; reflexivity.
Qed.

Lemma run_with_nul_in_api_key_stops_before_the_loop_witness :
  let w := mkWorld (fun _ _ => Ok "Text (Smith, 2020).") (fun _ => false)
                   "20240101_120000" true in
  let key := ("k" ++ String (ascii_of_nat 0) "y")%string in
  let s' := run w (filled_app key "T" "M" "R") in
  prompts_sent s' = []
  /\ section_status "Abstract" s' = Some ("Pending", 0%Q)
  /\ files s' = []
  /\ status_label s' = ("Error: embedded null byte", "red").
Proof.
  intros w key s'.
  destruct (run_with_nul_in_api_key_stops_before_the_loop
              w (filled_app key "T" "M" "R"))
    as (Hprompts & Hpending & _ & Hfiles & _ & Hlabel & _).
  - apply filled_app_ready.
  - reflexivity.
  - reflexivity.
  - reflexivity.
  - split; [exact Hprompts|]. split; [apply Hpending; cbn; tauto|].
    split; [exact Hfiles | exact Hlabel].
Defined.

(** Property X29: when all six sections complete but the document library
    refuses one of the replies, the run leaves the six sections Complete
    with their texts stored, yet writes no file, markdown included, and
    ends with the library's error instead of the success message. *)
Theorem completed_run_with_refused_reply_saves_nothing :
  forall (w : World) (s : App),
    ui_ready s -> current_task s = None -> closing s = false ->
    blank_fields s = [] ->
    has_nul (field_text "api_key" s) = false ->
    (forall i, i <= List.length sections -> close_requested w i = false) ->
    (forall i sec, nth_error sections i = Some sec ->
                   is_ok (reply w (input_values_of s) i sec) = true) ->
    docx_accepts (replies w (input_values_of s) 0 sections) = false ->
    let s' := run w s in
    let message := ("Error: " ++ xml_refusal)%string in
    (forall n, In n section_names ->
               section_status n s' = Some ("Complete", 1%Q))
    /\ section_texts s' = replies w (input_values_of s) 0 sections
    /\ files s' = files s
    /\ status_history s'
       = status_history s
         ++ [("Generating paper...", false); (message, true)]
    /\ status_label s' = (message, "red")
    /\ current_task s' = None.
Proof.
  intros w s Hready Htask Hclosing Hblank Hkey Hreq Hgen Hacc s' message.
  destruct (completed_loop w s) as (s2 & Hrun & Hclosing2 & Hdone & Hfiles
                                    & Hhistory & Htexts & Hcits & Hflag2 & Hvar2);
    [assumption | assumption | assumption | assumption | assumption
     | intros i Hi; apply Hreq; lia | assumption |].
  assert (Hsave : try_except (save_unless_closing w) report_error s2
                  = (Ok tt,
                     update_status_label message true (set_closing false s2))).
  { unfold try_except, save_unless_closing, poll_closing. step_monad.
    rewrite Hclosing2, (Hreq (List.length sections)) by lia. cbn [orb negb].
    cbn [section_texts set_closing]. rewrite Htexts.
    rewrite save_document_refused by exact Hacc. reflexivity. }
  subst s'. rewrite Hrun, Hsave. cbn [snd]. clear Hrun Hsave.
  split.
  { intros n Hn. rewrite (section_status_after_release n s2) by reflexivity.
    now apply Hdone. }
  unfold toggle_inputs, update_status_label. step_monad.
  split; [exact Htexts|]. split; [exact Hfiles|].
  split; [rewrite Hhistory, <- !app_assoc; reflexivity|].
  split; reflexivity.
Qed.

Lemma completed_run_with_refused_reply_saves_nothing_witness :
  let form_feed := String (ascii_of_nat 12) EmptyString in
  let w := mkWorld (fun i _ => if i =? 4
                               then Ok ("Page one." ++ form_feed ++ "Page two.")%string
                               else Ok "Text (Smith, 2020).")
                   (fun _ => false) "20240101_120000" true in
  let s' := run w (set_save_as_markdown_var true
                     (filled_app "key" "T" "M" "R")) in
  section_status "Conclusion" s' = Some ("Complete", 1%Q)
  /\ files s' = []
  /\ snd (status_label s') = "red".
Proof.
  intros form_feed w s'.
  destruct (completed_run_with_refused_reply_saves_nothing w
              (set_save_as_markdown_var true (filled_app "key" "T" "M" "R")))
    as (Hdone & _ & Hfiles & _ & Hlabel & _).
  - apply filled_app_ready.
  - reflexivity.
  - reflexivity.
  - reflexivity.
  - reflexivity.
  - intros i _. reflexivity.
  - intros [|[|[|[|[|i]]]]] sec _; reflexivity.
  - vm_compute. reflexivity.
  - split; [apply Hdone; cbn; tauto|].
    split; [exact Hfiles|].
    fold s' in Hlabel. rewrite Hlabel. reflexivity.
Defined.
